(** * SabPaisa QR backend: VPA codec, HDFC webhook decoder, validators and
      transaction reconciliation

    A shallow embedding of the JavaScript sources

      - [src/services/vpaService.js]   (class [VPAService], and the
        [LocalTransactionStore] that follows it in the same file),
      - [src/routes/health.js]         (the HDFC webhook handler:
        [EncryptionUtil], [TransactionValidator], [router.post]),
      - [src/services/QRTransactionService.js]

    together with the properties the specification states about them,
    and, for the code around them (the health routes of
    [src/routes/health.js], the other functions of [VPAService] and
    [LocalTransactionStore], [createQR] of
    [src/controllers/qrController.js]), properties read off the code.

    Conventions.  A JavaScript string is a [string] whose characters are
    code units below 256 (the one character of the sources above that
    range, the rupee sign of a message, is kept as its UTF-8 bytes).  A
    Number is a binary64 value of [SpecFloat].  An exception is a value
    [Throw e] of the [result] type.  An [async] function runs to
    completion; the webhook handler is cut in two at the [await] of its
    duplicate lookup, so that two requests can be interleaved there, and
    the health routes are cut at each [await] on the machine, so that
    requests and signals can be. *)

From Stdlib Require Import Bool Arith List ZArith Lia Ascii String.
From Stdlib Require Import QArith Qround Qabs DecimalString.
From Stdlib Require Import Floats.SpecFloat.
Import ListNotations.

Set Implicit Arguments.

Local Close Scope Q_scope.
Local Open Scope string_scope.

(** ** Exceptions *)

(** [new Error(message)]: the handler only ever reads [error.message]. *)
Record JsError : Type := Error { message : string }.

Inductive result (A : Type) : Type :=
| Ok (a : A)
| Throw (e : JsError).

Arguments Ok {A} a.
Arguments Throw {A} e.

Definition bind {A B : Type} (m : result A) (k : A -> result B) : result B :=
  match m with
  | Ok a => k a
  | Throw e => Throw e
  end.

Declare Scope result_scope.
Delimit Scope result_scope with result.
Notation "'do' x <- m ; k" := (bind m (fun x => k))
  (at level 10, x name, m at level 100, k at level 200) : result_scope.

(** ** Characters and the little regular expressions of the sources *)

Definition code (c : ascii) : nat := nat_of_ascii c.

Definition is_upper (c : ascii) : bool := ((65 <=? code c) && (code c <=? 90))%nat.
Definition is_digit (c : ascii) : bool := ((48 <=? code c) && (code c <=? 57))%nat.

(** Line terminators among the code units below 256: LF and CR. *)
Definition is_line_terminator (c : ascii) : bool :=
  ((code c =? 10) || (code c =? 13))%nat.

(** One regular-expression atom consuming exactly one character. *)
Inductive atom : Type :=
| Lit (c : ascii)          (* an ordinary pattern character *)
| AnyChar                  (* [.] : anything but a line terminator *)
| UpperOrDigit.            (* [[A-Z0-9]] *)

Definition atom_matches (a : atom) (c : ascii) : bool :=
  match a with
  | Lit d => Ascii.eqb d c
  | AnyChar => negb (is_line_terminator c)
  | UpperOrDigit => is_upper c || is_digit c
  end.

(** Text interpolated into a [RegExp] source is read as a pattern: of the
    characters that occur in the two constants below, only the full stop
    is a metacharacter. *)
Fixpoint pattern_atoms (src : string) : list atom :=
  match src with
  | EmptyString => []
  | String c rest =>
      (if Ascii.eqb c "."%char then AnyChar else Lit c) :: pattern_atoms rest
  end.

(** [/^a1 a2 ... an$/.test(s)] for a sequence of one-character atoms;
    without the [m] flag [^] and [$] are the ends of the input. *)
Fixpoint regex_test (r : list atom) (s : string) : bool :=
  match r, s with
  | [], EmptyString => true
  | a :: r', String c s' => atom_matches a c && regex_test r' s'
  | _, _ => false
  end.

(** ** The JavaScript runtime: numbers and strings *)

Module JS.

(** *** Numbers

    A Number is an IEEE 754 binary64 value; the operations are those of
    [SpecFloat] at precision 53. *)

Definition Number : Type := spec_float.
Definition prec : Z := 53.
Definition emax : Z := 1024.

Definition NaN : Number := S754_nan.
Definition Infinity : Number := S754_infinity false.
Definition zero : Number := S754_zero false.

(** An integer literal of the source, such as [100000]. *)
Definition of_Z (z : Z) : Number := binary_normalize prec emax z 0 false.

Definition add (x y : Number) : Number := SFadd prec emax x y.
Definition sub (x y : Number) : Number := SFsub prec emax x y.
Definition div (x y : Number) : Number := SFdiv prec emax x y.

(** [x < y] and [x > y]: false as soon as one side is [NaN]. *)
Definition lt (x y : Number) : bool := SFltb x y.
Definition gt (x y : Number) : bool := SFltb y x.

Definition isNaN (x : Number) : bool :=
  match x with S754_nan => true | _ => false end.

Definition isFinite (x : Number) : bool :=
  match x with
  | S754_zero _ | S754_finite _ _ _ => true
  | S754_infinity _ | S754_nan => false
  end.

(** [ToBoolean] on a Number: [NaN], [+0] and [-0] are falsy. *)
Definition truthy (x : Number) : bool :=
  match x with
  | S754_nan | S754_zero _ => false
  | S754_infinity _ | S754_finite _ _ _ => true
  end.

(** [x || d] on Numbers. *)
Definition or_else (x d : Number) : Number := if truthy x then x else d.

(** The Number nearest to [(-1)^neg * m * 10^e], ties to even. *)
Definition of_decimal (neg : bool) (m : N) (e : Z) : Number :=
  match m with
  | N0 => S754_zero neg
  | Npos p =>
      match e with
      | Zneg k =>
          let '(q, e', l) := SFdiv_core_binary prec emax (Zpos p) 0 (Zpos (10 ^ k)) 0 in
          binary_round_aux prec emax neg q e' l
      | _ => binary_round prec emax neg (p * Z.to_pos (10 ^ e)) 0
      end
  end.

(** *** [parseFloat] *)

(** White space and line terminators among the code units below 256. *)
Definition is_whitespace (c : ascii) : bool :=
  let n := code c in
  ((n =? 9) || (n =? 10) || (n =? 11) || (n =? 12) || (n =? 13) || (n =? 32) || (n =? 160))%nat.

Fixpoint trim_start (s : string) : string :=
  match s with
  | String c rest => if is_whitespace c then trim_start rest else s
  | EmptyString => s
  end.

(** The longest run of decimal digits at the head of [s], read as a
    number and counted, and what follows it. *)
Fixpoint digits (acc : N) (count : nat) (s : string) : N * nat * string :=
  match s with
  | String c rest =>
      if is_digit c
      then digits (10 * acc + N.of_nat (code c - 48)) (S count) rest
      else (acc, count, s)
  | EmptyString => (acc, count, s)
  end.

(** [e] or [E], an optional sign and at least one digit; anything else
    is not part of the literal. *)
Definition exponent_part (s : string) : Z :=
  match s with
  | String c rest =>
      if (Ascii.eqb c "e" || Ascii.eqb c "E")%bool then
        let '(neg, rest') :=
          match rest with
          | String d r =>
              if Ascii.eqb d "+" then (false, r)
              else if Ascii.eqb d "-" then (true, r)
              else (false, rest)
          | EmptyString => (false, rest)
          end in
        let '(x, k, _) := digits 0 0 rest' in
        match k with
        | O => 0%Z
        | _ => if neg then (- Z.of_N x)%Z else Z.of_N x
        end
      else 0%Z
  | EmptyString => 0%Z
  end.

(** The longest prefix that is a [StrUnsignedDecimalLiteral]:
    [Infinity], or digits with an optional fraction and exponent, at
    least one digit before or after the point. *)
Definition unsigned_literal (neg : bool) (s : string) : Number :=
  if prefix "Infinity" s then S754_infinity neg
  else
    let '(i, ki, s1) := digits 0 0 s in
    let '(m, kf, s2) :=
      match s1 with
      | String c r => if Ascii.eqb c "." then digits i 0 r else (i, O, s1)
      | EmptyString => (i, O, s1)
      end in
    match (ki + kf)%nat with
    | O => NaN
    | _ => of_decimal neg m (exponent_part s2 - Z.of_nat kf)
    end.

(** Leading white space is skipped, then an optional sign. *)
Definition parseFloat (s : string) : Number :=
  match trim_start s with
  | String c r =>
      if Ascii.eqb c "+" then unsigned_literal false r
      else if Ascii.eqb c "-" then unsigned_literal true r
      else unsigned_literal false (String c r)
  | EmptyString => unsigned_literal false EmptyString
  end.

(** Whether a text starts a number: after white space and an optional
    sign comes [Infinity], a digit, or a point and a digit.  Stated apart
    from [parseFloat], which reads [NaN] exactly when this fails. *)
Definition starts_number (s : string) : bool :=
  let u :=
    match trim_start s with
    | String c r =>
        if Ascii.eqb c "+" || Ascii.eqb c "-" then r else String c r
    | EmptyString => EmptyString
    end in
  prefix "Infinity" u
  || match u with
     | String c r =>
         is_digit c
         || (Ascii.eqb c "."
             && match r with String d _ => is_digit d | EmptyString => false end)
     | EmptyString => false
     end.

(** *** Strings *)

(** [s.substring(start, end)]: both indices are clamped to the string
    and swapped when [start > end]. *)
Definition substring (start stop : Z) (s : string) : string :=
  let len := Z.of_nat (String.length s) in
  let a := Z.max 0 (Z.min start len) in
  let b := Z.max 0 (Z.min stop len) in
  String.substring (Z.to_nat (Z.min a b)) (Z.to_nat (Z.max a b - Z.min a b)) s.

(** [s.startsWith(p)] *)
Definition startsWith (p s : string) : bool := prefix p s.

(** [s.split(sep)] for a one-character separator: never empty. *)
Fixpoint split (sep : ascii) (s : string) : list string :=
  match s with
  | EmptyString => [EmptyString]
  | String c rest =>
      if Ascii.eqb c sep then EmptyString :: split sep rest
      else
        match split sep rest with
        | f :: fs => String c f :: fs
        | [] => [String c EmptyString]
        end
  end.

(** [a.join(sep)] on an array of strings. *)
Fixpoint join (sep : string) (l : list string) : string :=
  match l with
  | [] => EmptyString
  | [x] => x
  | x :: rest => x ++ sep ++ join sep rest
  end.

(** *** [Number::toString] (radix 10) *)

Definition decimal_string (z : Z) : string :=
  NilZero.string_of_uint (N.to_uint (Z.to_N z)).

Definition Q_of_finite (m : positive) (e : Z) : Q :=
  Qmult (inject_Z (Zpos m)) (Qpower (inject_Z 2) e).

Definition pow10 (j : Z) : Q := Qpower (inject_Z 10) j.

(** The least [n] from [n0] upwards with [q < 10^n]. *)
Fixpoint decade_from (fuel : nat) (n0 : Z) (q : Q) : Z :=
  match fuel with
  | O => n0
  | S fuel' =>
      if Qle_bool (pow10 n0) q then decade_from fuel' (n0 + 1)%Z q else n0
  end.

Definition decade (m : positive) (e : Z) : Z :=
  let bits := (Zpos (digits2_pos m) + e)%Z in
  decade_from 4 ((bits - 1) * 30103 / 100000 - 1)%Z (Q_of_finite m e).

(** The candidates [s] with [k] digits, [s * 10^(n-k)] reading back as
    [x]; each comes with its distance to [x]. *)
Definition candidates (x : Number) (q : Q) (k n : Z) : list (Q * (Z * Z)) :=
  let j := (n - k)%Z in
  let s0 := Qfloor (Qdiv q (pow10 j)) in
  filter
    (fun c : Q * (Z * Z) =>
       let s := snd (snd c) in
       ((10 ^ (k - 1) <=? s)%Z && (s <? 10 ^ k)%Z)%bool)
    (map (fun s => (Qabs (Qminus (Qmult (inject_Z s) (pow10 j)) q), (n, s)))
         (filter (fun s => match of_decimal false (Z.to_N s) j, x with
                           | S754_finite _ m e, S754_finite _ m' e' =>
                               (Pos.eqb m m' && Z.eqb e e')%bool
                           | _, _ => false
                           end)
                 [s0; (s0 + 1)%Z])).

Fixpoint closest (best : Q * (Z * Z)) (l : list (Q * (Z * Z))) : Q * (Z * Z) :=
  match l with
  | [] => best
  | c :: l' =>
      match Qcompare (fst c) (fst best) with
      | Lt => closest c l'
      | Eq => if Z.even (snd (snd c)) then closest c l' else closest best l'
      | Gt => closest best l'
      end
  end.

(** [n], [k], [s] of the specification: [k] as small as possible. *)
Fixpoint shortest (fuel : nat) (k : Z) (x : Number) (q : Q) (nx : Z) : Z * Z * Z :=
  match fuel with
  | O => (nx, k, 0%Z)
  | S fuel' =>
      match (candidates x q k nx ++ candidates x q k (nx + 1))%list with
      | [] => shortest fuel' (k + 1)%Z x q nx
      | c :: l => let '(_, (n, s)) := closest c l in (n, k, s)
      end
  end.

Fixpoint zeros (n : nat) : string :=
  match n with O => "" | S n' => String "0" (zeros n') end.

Definition format_digits (n k : Z) (ds : string) : string :=
  if ((k <=? n) && (n <=? 21))%Z then ds ++ zeros (Z.to_nat (n - k))
  else if ((0 <? n) && (n <=? 21))%Z then
    String.substring 0 (Z.to_nat n) ds ++ "." ++ String.substring (Z.to_nat n) (Z.to_nat (k - n)) ds
  else if ((-6 <? n) && (n <=? 0))%Z then "0." ++ zeros (Z.to_nat (- n)) ++ ds
  else
    let ex := (if (0 <=? n - 1)%Z then "+" else "-") ++ decimal_string (Z.abs (n - 1)) in
    if (k =? 1)%Z then ds ++ "e" ++ ex
    else String.substring 0 1 ds ++ "." ++ String.substring 1 (Z.to_nat (k - 1)) ds ++ "e" ++ ex.

Definition Number_toString (x : Number) : string :=
  match x with
  | S754_nan => "NaN"
  | S754_zero _ => "0"
  | S754_infinity s => if s then "-Infinity" else "Infinity"
  | S754_finite sg m e =>
      let '(n, k, s) :=
        shortest 17 1 (S754_finite false m e) (Q_of_finite m e) (decade m e) in
      (if sg then "-" else "") ++ format_digits n k (decimal_string s)
  end.

(** *** Property values

    The values held by the objects of the handler are strings and
    Numbers. *)

Inductive value : Type :=
| VString (s : string)
| VNumber (x : Number).

Definition ToString (v : value) : string :=
  match v with
  | VString s => s
  | VNumber x => Number_toString x
  end.

(** An object literal: its own properties in insertion order. *)
Definition object : Type := list (string * value).

(** [delete o.k] *)
Definition delete (k : string) (o : object) : object :=
  filter (fun kv => negb (String.eqb (fst kv) k)) o.

(** [Object.values(o)] *)
Definition Object_values (o : object) : list value := map snd o.

(** The names an object literal inherits from [Object.prototype]: each
    holds a function, [__proto__] the prototype itself. *)
Definition Object_prototype : list string :=
  [ "constructor"; "hasOwnProperty"; "isPrototypeOf"; "propertyIsEnumerable";
    "toLocaleString"; "toString"; "valueOf"; "__proto__";
    "__defineGetter__"; "__defineSetter__"; "__lookupGetter__";
    "__lookupSetter__" ].

(** What [table[key]] gives on an object literal whose own properties are
    texts: a text, or the member of [Object.prototype] of that name. *)
Inductive member : Type :=
| Text (s : string)
| Inherited (name : string).

(** [ToBoolean]: an empty text is falsy, a function or an object is not. *)
Definition member_truthy (m : member) : bool :=
  match m with
  | Text EmptyString => false
  | _ => true
  end.

End JS.

(** ** [crypto.createHmac('sha256', key)]: SHA-256 (FIPS 180-4) and HMAC (RFC 2104) *)

Module Crypto.
Local Open Scope Z_scope.

Definition word (x : Z) : Z := Z.land x 4294967295.
Definition add32 (x y : Z) : Z := word (x + y).
Definition rotr (n x : Z) : Z := word (Z.lor (Z.shiftr x n) (Z.shiftl x (32 - n))).

Definition Ch (x y z : Z) : Z := Z.lxor (Z.land x y) (Z.land (Z.lxor x 4294967295) z).
Definition Maj (x y z : Z) : Z := Z.lxor (Z.lxor (Z.land x y) (Z.land x z)) (Z.land y z).
Definition Sigma0 (x : Z) : Z := Z.lxor (Z.lxor (rotr 2 x) (rotr 13 x)) (rotr 22 x).
Definition Sigma1 (x : Z) : Z := Z.lxor (Z.lxor (rotr 6 x) (rotr 11 x)) (rotr 25 x).
Definition sigma0 (x : Z) : Z := Z.lxor (Z.lxor (rotr 7 x) (rotr 18 x)) (Z.shiftr x 3).
Definition sigma1 (x : Z) : Z := Z.lxor (Z.lxor (rotr 17 x) (rotr 19 x)) (Z.shiftr x 10).

(** The round constants are the first thirty-two bits of the fractional
    parts of the cube roots of the first sixty-four primes; the initial
    hash value comes in the same way from the square roots of the first
    eight. *)
Definition is_prime (n : Z) : bool :=
  forallb (fun d => negb (n mod d =? 0)) (map Z.of_nat (seq 2 (Z.to_nat (Z.sqrt n) - 1))).

Definition primes : list Z := filter is_prime (map Z.of_nat (seq 2 310)).

(** The integer cube root, one bit at a time from bit 39 down. *)
Definition cube_root (n : Z) : Z :=
  fold_left (fun r i => let r' := r + 2 ^ Z.of_nat i in
                        if r' * r' * r' <=? n then r' else r)
            (rev (seq 0 40)) 0.

Definition K256 : list Z :=
  Eval vm_compute in map (fun p => word (cube_root (p * 2 ^ 96))) primes.

Definition H256 : list Z :=
  Eval vm_compute in map (fun p => word (Z.sqrt (p * 2 ^ 64))) (firstn 8 primes).

(** Big-endian words of a block of bytes. *)
Fixpoint words_of_bytes (bs : list Z) : list Z :=
  match bs with
  | b0 :: b1 :: b2 :: b3 :: rest =>
      (((b0 * 256 + b1) * 256 + b2) * 256 + b3) :: words_of_bytes rest
  | _ => []
  end.

(** The message schedule, most recent word first. *)
Fixpoint schedule (n : nat) (rev_w : list Z) : list Z :=
  match n with
  | O => rev_w
  | S n' =>
      let w := add32 (add32 (sigma1 (nth 1 rev_w 0)) (nth 6 rev_w 0))
                     (add32 (sigma0 (nth 14 rev_w 0)) (nth 15 rev_w 0)) in
      schedule n' (w :: rev_w)
  end.

Definition round (st : list Z) (kw : Z * Z) : list Z :=
  match st with
  | [a; b; c; d; e; f; g; h] =>
      let t1 := add32 (add32 (add32 h (Sigma1 e)) (add32 (Ch e f g) (fst kw))) (snd kw) in
      let t2 := add32 (Sigma0 a) (Maj a b c) in
      [add32 t1 t2; a; b; c; add32 d t1; e; f; g]
  | _ => st
  end.

Fixpoint add_words (xs ys : list Z) : list Z :=
  match xs, ys with
  | x :: xs', y :: ys' => add32 x y :: add_words xs' ys'
  | _, _ => []
  end.

Definition compress (st : list Z) (block : list Z) : list Z :=
  let w := rev (schedule 48 (rev (words_of_bytes block))) in
  add_words st (fold_left round (combine K256 w) st).

Fixpoint blocks (fuel : nat) (st : list Z) (bs : list Z) : list Z :=
  match fuel with
  | O => st
  | S fuel' =>
      match bs with
      | [] => st
      | _ => blocks fuel' (compress st (firstn 64 bs)) (skipn 64 bs)
      end
  end.

Definition be_bytes (n : nat) (x : Z) : list Z :=
  map (fun i => Z.land (Z.shiftr x (8 * Z.of_nat i)) 255) (rev (seq 0 n)).

Definition pad (msg : list Z) : list Z :=
  let len := Z.of_nat (List.length msg) in
  let k := Z.to_nat ((55 - len) mod 64) in
  (msg ++ [128] ++ repeat 0 k ++ be_bytes 8 (8 * len))%list.

Definition sha256 (msg : list Z) : list Z :=
  let p := pad msg in
  flat_map (be_bytes 4) (blocks (List.length p) H256 p).

Definition hmac_sha256 (key msg : list Z) : list Z :=
  let k0 := if (64 <? Z.of_nat (List.length key)) then sha256 key else key in
  let k := (k0 ++ repeat 0 (64 - List.length k0))%list in
  sha256 (map (Z.lxor 92) k ++ sha256 (map (Z.lxor 54) k ++ msg)).

(** UTF-8 bytes of a string of code units below 256. *)
Fixpoint utf8 (s : string) : list Z :=
  match s with
  | EmptyString => []
  | String c rest =>
      let n := Z.of_nat (nat_of_ascii c) in
      if n <? 128 then n :: utf8 rest
      else (192 + Z.shiftr n 6) :: (128 + Z.land n 63) :: utf8 rest
  end.

Definition hex_digit (upper : bool) (d : Z) : ascii :=
  ascii_of_nat (Z.to_nat (if d <? 10 then 48 + d else (if upper then 55 else 87) + d)).

Fixpoint hex (upper : bool) (bs : list Z) : string :=
  match bs with
  | [] => EmptyString
  | b :: rest => String (hex_digit upper (Z.shiftr b 4))
                   (String (hex_digit upper (Z.land b 15)) (hex upper rest))
  end.

End Crypto.

(** ** [VPAService] ([src/services/vpaService.js]) *)

Module VPAService.

Definition VPA_DOMAIN : string := "@okhdfcbank".
Definition VPA_PREFIX : string := "sabpaisa.".
Definition IDENTIFIER_LENGTH : nat := 5.
Definition IDENTIFIER_CHARS : string := "ABCDEFGHIJKLMNOPQRSTUVWXYZ0123456789".

(** [`${this.VPA_PREFIX}${identifier}${this.VPA_DOMAIN}`] *)
Definition formatVPA (identifier : string) : string :=
  VPA_PREFIX ++ identifier ++ VPA_DOMAIN.

(** [new RegExp(`^${VPA_PREFIX}[A-Z0-9]{${IDENTIFIER_LENGTH}}${VPA_DOMAIN}$`)] *)
Definition vpa_regex : list atom :=
  pattern_atoms VPA_PREFIX
    ++ repeat UpperOrDigit IDENTIFIER_LENGTH
    ++ pattern_atoms VPA_DOMAIN.

Definition validateVPAFormat (vpa : string) : bool := regex_test vpa_regex vpa.

Definition extractIdentifier (vpa : string) : result string :=
  if negb (validateVPAFormat vpa) then Throw (Error "Invalid VPA format")
  else
    let start := String.length VPA_PREFIX in
    let stop := start + IDENTIFIER_LENGTH in
    Ok (JS.substring (Z.of_nat start) (Z.of_nat stop) vpa).

(** The character class [[ABC...XYZ0123456789]] of [validateIdentifierFormat]. *)
Fixpoint char_in (set : string) (c : ascii) : bool :=
  match set with
  | EmptyString => false
  | String d rest => Ascii.eqb d c || char_in rest c
  end.

Fixpoint all_chars (p : ascii -> bool) (s : string) : bool :=
  match s with
  | EmptyString => true
  | String c rest => p c && all_chars p rest
  end.

(** [!identifier || identifier.length !== 5] then
    [/^[A-Z...9]{5}$/.test(identifier)]. *)
Definition validateIdentifierFormat (identifier : string) : bool :=
  if ((String.length identifier =? 0) || negb (String.length identifier =? IDENTIFIER_LENGTH))%nat
  then false
  else all_chars (char_in IDENTIFIER_CHARS) identifier.

End VPAService.

(** ** The process environment and what the platform supplies *)

(** [process.env]: the two variables the handler reads. *)
Record Env : Type := {
  NODE_ENV : option string;
  HDFC_MERCHANT_KEY : option string
}.

(** [process.env.NODE_ENV === 'development'] *)
Definition development (env : Env) : bool :=
  match NODE_ENV env with
  | Some v => String.eqb v "development"
  | None => false
  end.

(** Library functions of the platform that the sources call and that are
    not modelled further:
    - [CryptoJS.AES.decrypt(text, Utf8.parse(key), {ECB, Pkcs7}).toString(Utf8)],
      [None] when it throws;
    - [new Date(text)] as a Number of milliseconds, [NaN] for an invalid
      date. *)
Record Runtime : Type := {
  AES_ECB_decrypt : string -> string -> option string;
  Date_of_string : string -> JS.Number
}.

(** What one call reads from the clock, the random generators and the
    state of the connection to the database server. *)
Record Ambient : Type := {
  now : JS.Number;                    (* [new Date()], [Date.now()] *)
  now_iso : string;                   (* [new Date().toISOString()] *)
  today : string;                     (* [moment().format('YYYY-MM-DD')] *)
  uuid : string;                      (* [uuidv4()] *)
  refund_id : string;                 (* ['REF' + date + random suffix] *)
  query_error : option JsError;       (* a [db.query] of this call throws *)
  connection_error : option JsError   (* the connection of this call throws *)
}.

(** ** [EncryptionUtil] ([src/routes/health.js], the HDFC webhook handler) *)

Module EncryptionUtil.

(** The object returned by [parseHDFCResponse]. *)
Record TransactionData : Type := {
  merchantId : string;
  merchantName : string;
  terminalId : string;
  transactionId : string;
  bankRRN : string;
  merchantTxnId : string;
  amount : JS.Number;
  transactionStatus : string;
  statusCode : string;
  statusDescription : string;
  payerVPA : string;
  payerName : string;
  mobileNumber : string;
  transactionDateTime : string;
  settlementAmount : JS.Number;
  settlementDateTime : string;
  paymentMode : string;
  mcc : string;
  tipAmount : JS.Number;
  convenienceFee : JS.Number;
  checksum : string
}.

(** The same object as a list of properties, in the order the literal
    of [parseHDFCResponse] creates them. *)
Definition properties (t : TransactionData) : JS.object :=
  [ ("merchantId", JS.VString (merchantId t));
    ("merchantName", JS.VString (merchantName t));
    ("terminalId", JS.VString (terminalId t));
    ("transactionId", JS.VString (transactionId t));
    ("bankRRN", JS.VString (bankRRN t));
    ("merchantTxnId", JS.VString (merchantTxnId t));
    ("amount", JS.VNumber (amount t));
    ("transactionStatus", JS.VString (transactionStatus t));
    ("statusCode", JS.VString (statusCode t));
    ("statusDescription", JS.VString (statusDescription t));
    ("payerVPA", JS.VString (payerVPA t));
    ("payerName", JS.VString (payerName t));
    ("mobileNumber", JS.VString (mobileNumber t));
    ("transactionDateTime", JS.VString (transactionDateTime t));
    ("settlementAmount", JS.VNumber (settlementAmount t));
    ("settlementDateTime", JS.VString (settlementDateTime t));
    ("paymentMode", JS.VString (paymentMode t));
    ("mcc", JS.VString (mcc t));
    ("tipAmount", JS.VNumber (tipAmount t));
    ("convenienceFee", JS.VNumber (convenienceFee t));
    ("checksum", JS.VString (checksum t)) ].

Definition decryptAES128 (rt : Runtime) (encryptedText key : string) : result string :=
  match AES_ECB_decrypt rt encryptedText key with
  | Some decrypted => Ok decrypted
  | None => Throw (Error "Failed to decrypt webhook data")
  end.

(** [crypto.createHmac('sha256', key).update(dataString).digest('hex').toUpperCase()] *)
Definition generateChecksum (data : JS.object) (key : string) : string :=
  let dataString := JS.join "|" (map JS.ToString (JS.Object_values data)) in
  Crypto.hex true (Crypto.hmac_sha256 (Crypto.utf8 key) (Crypto.utf8 dataString)).

(** [calculatedChecksum === receivedChecksum] *)
Definition validateChecksum (data : JS.object) (receivedChecksum key : string) : bool :=
  let calculatedChecksum := generateChecksum data key in
  String.eqb calculatedChecksum receivedChecksum.

Definition field (fields : list string) (i : nat) : string := nth i fields "".

Definition parseHDFCResponse (decryptedData : string) : result TransactionData :=
  let fields := JS.split "|" decryptedData in
  if negb (List.length fields =? 21)%nat then
    Throw (Error ("Invalid HDFC response format. Expected 21 fields, got "
                    ++ JS.decimal_string (Z.of_nat (List.length fields))))
  else
    Ok {| merchantId := field fields 0;
          merchantName := field fields 1;
          terminalId := field fields 2;
          transactionId := field fields 3;
          bankRRN := field fields 4;
          merchantTxnId := field fields 5;
          amount := JS.parseFloat (field fields 6);
          transactionStatus := field fields 7;
          statusCode := field fields 8;
          statusDescription := field fields 9;
          payerVPA := field fields 10;
          payerName := field fields 11;
          mobileNumber := field fields 12;
          transactionDateTime := field fields 13;
          settlementAmount := JS.parseFloat (field fields 14);
          settlementDateTime := field fields 15;
          paymentMode := field fields 16;
          mcc := field fields 17;
          tipAmount := JS.or_else (JS.parseFloat (field fields 18)) JS.zero;
          convenienceFee := JS.or_else (JS.parseFloat (field fields 19)) JS.zero;
          checksum := field fields 20 |}.

End EncryptionUtil.

(** ** [QRTransactionService] ([src/services/QRTransactionService.js]) *)

Module QRTransactionService.

(** *** The tables

    Only the columns the service names are kept.  A [DECIMAL] column
    holds a Number, a [TIMESTAMP] the text of the instant, a nullable
    column an [option]; [WHERE a = ?] on text is string equality. *)

(** [qr_codes] *)
Record QrCode : Type := {
  qr_id : Z;
  qr_identifier : string
}.

(** [qr_transactions] *)
Record QrTransaction : Type := {
  tx_id : Z;
  tx_transaction_id : string;
  tx_qr_code_id : Z;
  tx_merchant_id : string;
  tx_amount : JS.Number;
  tx_customer_vpa : string;
  tx_customer_name : string;
  tx_reference_number : string;
  tx_bank_reference_number : string;
  tx_status : string;
  tx_payment_method : string;
  tx_settlement_status : option string;
  tx_completed_at : option string;
  tx_refund_amount : option JS.Number;
  tx_refund_reason : option string;
  tx_refund_initiated_by : option string;
  tx_refund_initiated_at : option string
}.

(** [qr_daily_stats], unique on (merchant_id, qr_code_id, stat_date) *)
Record DailyStats : Type := {
  ds_merchant_id : string;
  ds_qr_code_id : Z;
  ds_stat_date : string;
  ds_total_transactions : Z;
  ds_successful_transactions : Z;
  ds_total_amount : JS.Number;
  ds_successful_amount : JS.Number
}.

(** The argument of [processTransactionWebhook]. *)
Record WebhookData : Type := {
  transaction_id : string;
  merchant_id : string;
  wd_qr_identifier : string;
  amount : JS.Number;
  customer_vpa : string;
  customer_name : string;
  reference_number : string;
  bank_reference_number : string;
  status : string;
  payment_method : option string;
  failure_reason : option JS.member
}.

(** [qr_webhook_events]; the payload is [JSON.stringify(webhookData)]. *)
Record WebhookEvent : Type := {
  ev_event_id : string;
  ev_event_type : string;
  ev_transaction_id : string;
  ev_payload : WebhookData;
  ev_status : string
}.

(** [qr_refund_audit] *)
Record RefundAudit : Type := {
  ra_transaction_id : string;
  ra_refund_id : string;
  ra_original_amount : JS.Number;
  ra_refund_amount : JS.Number;
  ra_refund_type : string;
  ra_initiated_by : string;
  ra_refund_reason : string;
  ra_status : string
}.

Record Database : Type := {
  qr_codes : list QrCode;
  qr_transactions : list QrTransaction;
  next_transaction_id : Z;             (* the AUTO_INCREMENT counter *)
  qr_daily_stats : list DailyStats;
  qr_webhook_events : list WebhookEvent;
  qr_refund_audit : list RefundAudit
}.

(** *** [getTransactionDetails]

    The audit trail and the refund details that the function adds to a
    found transaction are left out: they are two more reads. *)
Record Details : Type := {
  success : bool;
  transaction : option QrTransaction
}.

Definition getTransactionDetails (amb : Ambient) (db : Database)
    (transactionId merchantId : string) : result Details :=
  match query_error amb with
  | Some error => Throw error
  | None =>
      match filter (fun t => String.eqb (tx_transaction_id t) transactionId
                             && String.eqb (tx_merchant_id t) merchantId)
                   (qr_transactions db) with
      | [] => Ok {| success := false; transaction := None |}
      | row :: _ => Ok {| success := true; transaction := Some row |}
      end
  end.

(** *** [updateDailyStats]: [INSERT ... ON DUPLICATE KEY UPDATE] *)

Definition same_stats_key (merchantId : string) (qrCodeId : Z) (date : string)
    (r : DailyStats) : bool :=
  String.eqb (ds_merchant_id r) merchantId
  && Z.eqb (ds_qr_code_id r) qrCodeId
  && String.eqb (ds_stat_date r) date.

Definition bump_stats (amount : JS.Number) (r : DailyStats) : DailyStats :=
  {| ds_merchant_id := ds_merchant_id r;
     ds_qr_code_id := ds_qr_code_id r;
     ds_stat_date := ds_stat_date r;
     ds_total_transactions := ds_total_transactions r + 1;
     ds_successful_transactions := ds_successful_transactions r + 1;
     ds_total_amount := JS.add (ds_total_amount r) amount;
     ds_successful_amount := JS.add (ds_successful_amount r) amount |}.

(** [ON DUPLICATE KEY UPDATE]: the row that holds the key is the one
    updated. *)
Fixpoint bump_existing (key : DailyStats -> bool) (amount : JS.Number)
    (rows : list DailyStats) : list DailyStats :=
  match rows with
  | [] => []
  | r :: rest =>
      if key r then bump_stats amount r :: rest
      else r :: bump_existing key amount rest
  end.

Definition updateDailyStats (amb : Ambient) (db : Database)
    (merchantId : string) (qrCodeId : Z) (amount : JS.Number) : Database :=
  let key := same_stats_key merchantId qrCodeId (today amb) in
  let stats :=
    if existsb key (qr_daily_stats db)
    then bump_existing key amount (qr_daily_stats db)
    else (qr_daily_stats db ++
            [ {| ds_merchant_id := merchantId;
                 ds_qr_code_id := qrCodeId;
                 ds_stat_date := today amb;
                 ds_total_transactions := 1;
                 ds_successful_transactions := 1;
                 ds_total_amount := amount;
                 ds_successful_amount := amount |} ])%list in
  {| qr_codes := qr_codes db;
     qr_transactions := qr_transactions db;
     next_transaction_id := next_transaction_id db;
     qr_daily_stats := stats;
     qr_webhook_events := qr_webhook_events db;
     qr_refund_audit := qr_refund_audit db |}.

(** The merchant's transaction count of a day, over all its QR codes. *)
Definition total_transactions_on (db : Database) (merchantId date : string) : Z :=
  fold_right Z.add 0%Z
    (map ds_total_transactions
         (filter (fun r => String.eqb (ds_merchant_id r) merchantId
                           && String.eqb (ds_stat_date r) date)
                 (qr_daily_stats db))).

(** *** [processTransactionWebhook]

    The function runs in one database transaction: when it throws, the
    [rollback] of its [catch] leaves the database as it was. *)

Record Processed : Type := {
  processed_transaction_id : string;
  processed_status : string
}.

(** [UPDATE qr_transactions SET status = ?, bank_reference_number = ?,
    completed_at = CURRENT_TIMESTAMP, settlement_status = CASE ... END
    WHERE transaction_id = ?] *)
Definition update_existing (amb : Ambient) (w : WebhookData) (t : QrTransaction)
    : QrTransaction :=
  if String.eqb (tx_transaction_id t) (transaction_id w) then
    {| tx_id := tx_id t;
       tx_transaction_id := tx_transaction_id t;
       tx_qr_code_id := tx_qr_code_id t;
       tx_merchant_id := tx_merchant_id t;
       tx_amount := tx_amount t;
       tx_customer_vpa := tx_customer_vpa t;
       tx_customer_name := tx_customer_name t;
       tx_reference_number := tx_reference_number t;
       tx_bank_reference_number := bank_reference_number w;
       tx_status := status w;
       tx_payment_method := tx_payment_method t;
       tx_settlement_status :=
         if String.eqb (status w) "success" then Some "pending"
         else tx_settlement_status t;
       tx_completed_at := Some (now_iso amb);
       tx_refund_amount := tx_refund_amount t;
       tx_refund_reason := tx_refund_reason t;
       tx_refund_initiated_by := tx_refund_initiated_by t;
       tx_refund_initiated_at := tx_refund_initiated_at t |}
  else t.

(** [INSERT INTO qr_transactions (...) VALUES (...)] *)
Definition new_transaction (db : Database) (qrCodeId : Z) (w : WebhookData)
    : QrTransaction :=
  {| tx_id := next_transaction_id db;
     tx_transaction_id := transaction_id w;
     tx_qr_code_id := qrCodeId;
     tx_merchant_id := merchant_id w;
     tx_amount := amount w;
     tx_customer_vpa := customer_vpa w;
     tx_customer_name := customer_name w;
     tx_reference_number := reference_number w;
     tx_bank_reference_number := bank_reference_number w;
     tx_status := status w;
     tx_payment_method :=
       match payment_method w with Some m => m | None => "UPI" end;
     tx_settlement_status :=
       if String.eqb (status w) "success" then Some "pending" else None;
     tx_completed_at := None;
     tx_refund_amount := None;
     tx_refund_reason := None;
     tx_refund_initiated_by := None;
     tx_refund_initiated_at := None |}.

Definition processTransactionWebhook (amb : Ambient) (db : Database)
    (webhookData : WebhookData) : result Processed * Database :=
  match connection_error amb with
  | Some error => (Throw error, db)
  | None =>
      match filter (fun q => String.eqb (qr_identifier q) (wd_qr_identifier webhookData))
                   (qr_codes db) with
      | [] => (Throw (Error "Invalid QR code"), db)
      | qrCode :: _ =>
          let existing :=
            filter (fun t => String.eqb (tx_transaction_id t) (transaction_id webhookData))
                   (qr_transactions db) in
          let db1 :=
            match existing with
            | _ :: _ =>
                (* Update existing transaction *)
                {| qr_codes := qr_codes db;
                   qr_transactions := map (update_existing amb webhookData) (qr_transactions db);
                   next_transaction_id := next_transaction_id db;
                   qr_daily_stats := qr_daily_stats db;
                   qr_webhook_events := qr_webhook_events db;
                   qr_refund_audit := qr_refund_audit db |}
            | [] =>
                (* Insert new transaction *)
                {| qr_codes := qr_codes db;
                   qr_transactions :=
                     (qr_transactions db ++ [new_transaction db (qr_id qrCode) webhookData])%list;
                   next_transaction_id := next_transaction_id db + 1;
                   qr_daily_stats := qr_daily_stats db;
                   qr_webhook_events := qr_webhook_events db;
                   qr_refund_audit := qr_refund_audit db |}
            end in
          (* Update daily stats if successful *)
          let db2 :=
            if String.eqb (status webhookData) "success"
            then updateDailyStats amb db1 (merchant_id webhookData) (qr_id qrCode)
                                  (amount webhookData)
            else db1 in
          (* Log webhook event *)
          let db3 :=
            {| qr_codes := qr_codes db2;
               qr_transactions := qr_transactions db2;
               next_transaction_id := next_transaction_id db2;
               qr_daily_stats := qr_daily_stats db2;
               qr_webhook_events :=
                 (qr_webhook_events db2 ++
                    [ {| ev_event_id := uuid amb;
                         ev_event_type := "transaction." ++ status webhookData;
                         ev_transaction_id := transaction_id webhookData;
                         ev_payload := webhookData;
                         ev_status := "processed" |} ])%list;
               qr_refund_audit := qr_refund_audit db2 |} in
          (Ok {| processed_transaction_id := transaction_id webhookData;
                 processed_status := "processed" |}, db3)
      end
  end.

(** *** [initiateRefund] *)

Record RefundData : Type := {
  refund_type : string;
  refund_amount : JS.Number;
  reason : string
}.

Record Refunded : Type := {
  refunded_refund_id : string;
  refunded_transaction_id : string;
  refunded_refund_amount : JS.Number;
  refunded_refund_status : string
}.

(** [UPDATE qr_transactions SET status = ?, refund_amount = ?, ...
    WHERE transaction_id = ?] *)
Definition mark_refunded (amb : Ambient) (transactionId newStatus : string)
    (refundAmount : JS.Number) (refundData : RefundData) (initiatedBy : string)
    (t : QrTransaction) : QrTransaction :=
  if String.eqb (tx_transaction_id t) transactionId then
    {| tx_id := tx_id t;
       tx_transaction_id := tx_transaction_id t;
       tx_qr_code_id := tx_qr_code_id t;
       tx_merchant_id := tx_merchant_id t;
       tx_amount := tx_amount t;
       tx_customer_vpa := tx_customer_vpa t;
       tx_customer_name := tx_customer_name t;
       tx_reference_number := tx_reference_number t;
       tx_bank_reference_number := tx_bank_reference_number t;
       tx_status := newStatus;
       tx_payment_method := tx_payment_method t;
       tx_settlement_status := tx_settlement_status t;
       tx_completed_at := tx_completed_at t;
       tx_refund_amount := Some refundAmount;
       tx_refund_reason := Some (reason refundData);
       tx_refund_initiated_by := Some initiatedBy;
       tx_refund_initiated_at := Some (now_iso amb) |}
  else t.

Definition initiateRefund (amb : Ambient) (db : Database) (transactionId : string)
    (refundData : RefundData) (initiatedBy : string) : result Refunded * Database :=
  match connection_error amb with
  | Some error => (Throw error, db)
  | None =>
      match filter (fun t => String.eqb (tx_transaction_id t) transactionId
                             && String.eqb (tx_status t) "success")
                   (qr_transactions db) with
      | [] => (Throw (Error "Transaction not found or not eligible for refund"), db)
      | txn :: _ =>
          let refundAmount :=
            if String.eqb (refund_type refundData) "full"
            then tx_amount txn else refund_amount refundData in
          if JS.gt refundAmount (tx_amount txn) then
            (Throw (Error "Refund amount cannot exceed transaction amount"), db)
          else
            let refundId := refund_id amb in
            let newStatus :=
              if String.eqb (refund_type refundData) "full"
              then "refunded" else "partial_refunded" in
            (Ok {| refunded_refund_id := refundId;
                   refunded_transaction_id := transactionId;
                   refunded_refund_amount := refundAmount;
                   refunded_refund_status := "initiated" |},
             {| qr_codes := qr_codes db;
                qr_transactions :=
                  map (mark_refunded amb transactionId newStatus refundAmount
                                     refundData initiatedBy)
                      (qr_transactions db);
                next_transaction_id := next_transaction_id db;
                qr_daily_stats := qr_daily_stats db;
                qr_webhook_events := qr_webhook_events db;
                qr_refund_audit :=
                  (qr_refund_audit db ++
                     [ {| ra_transaction_id := transactionId;
                          ra_refund_id := refundId;
                          ra_original_amount := tx_amount txn;
                          ra_refund_amount := refundAmount;
                          ra_refund_type := refund_type refundData;
                          ra_initiated_by := initiatedBy;
                          ra_refund_reason := reason refundData;
                          ra_status := "initiated" |} ])%list |})
      end
  end.

End QRTransactionService.

(** ** [LocalTransactionStore] ([src/services/vpaService.js], second part) *)

Module LocalTransactionStore.
Import EncryptionUtil.

(** A number of [transactions.json]: [JSON.stringify] writes [null] for
    [NaN] and the infinities. *)
Definition json_number (x : JS.Number) : option JS.Number :=
  if JS.isFinite x then Some x else None.

(** [parseFloat(x)] on a Number [x]: its text is parsed. *)
Definition parseFloat_of_number (x : JS.Number) : JS.Number :=
  JS.parseFloat (JS.Number_toString x).

(** An element of [transactions.json]. *)
Record Transaction : Type := {
  id : Z;
  t_transactionId : string;
  qrId : string;
  t_merchantName : string;
  t_merchantTxnId : string;
  t_bankRRN : string;
  t_amount : option JS.Number;
  t_status : string;
  t_payerVPA : string;
  t_payerName : string;
  t_mobileNumber : string;
  transactionDate : string;
  t_settlementAmount : option JS.Number;
  settlementDate : string;
  t_paymentMode : string;
  t_statusDescription : string;
  t_mcc : string;
  t_tipAmount : option JS.Number;
  t_convenienceFee : option JS.Number;
  netAmount : option JS.Number;
  t_checksum : string;
  createdAt : string
}.

(** What [saveTransaction] returns; the transaction is given as the file
    holds it. *)
Record Saved : Type := {
  saved_success : bool;
  saved_duplicate : bool;
  saved_transaction : option Transaction
}.

(** [a || b] on strings: the empty string is falsy. *)
Definition or_string (a b : string) : string :=
  match a with EmptyString => b | _ => a end.

(** [saveTransaction]; [transactions] is the content of the file, which
    is read and written without failure. *)
Definition saveTransaction (amb : Ambient) (transactions : list Transaction)
    (transactionData : TransactionData) : Saved * list Transaction :=
  if existsb (fun t => String.eqb (t_transactionId t) (transactionId transactionData))
             transactions
  then ({| saved_success := true; saved_duplicate := true; saved_transaction := None |},
        transactions)
  else
    let transaction :=
      {| id := Z.of_nat (List.length transactions) + 1;
         t_transactionId :=
           or_string (transactionId transactionData)
                     ("TXN" ++ JS.Number_toString (now amb));
         qrId := or_string (JS.substring 3 9 (merchantTxnId transactionData)) "QR001";
         t_merchantName := or_string (merchantName transactionData) "Merchant";
         t_merchantTxnId := merchantTxnId transactionData;
         t_bankRRN := bankRRN transactionData;
         t_amount := json_number (parseFloat_of_number (amount transactionData));
         t_status := transactionStatus transactionData;
         t_payerVPA := payerVPA transactionData;
         t_payerName := payerName transactionData;
         t_mobileNumber := mobileNumber transactionData;
         transactionDate := transactionDateTime transactionData;
         t_settlementAmount :=
           json_number (parseFloat_of_number (settlementAmount transactionData));
         settlementDate := settlementDateTime transactionData;
         t_paymentMode := paymentMode transactionData;
         t_statusDescription := statusDescription transactionData;
         t_mcc := mcc transactionData;
         t_tipAmount :=
           json_number (JS.or_else (parseFloat_of_number (tipAmount transactionData)) JS.zero);
         t_convenienceFee :=
           json_number (JS.or_else (parseFloat_of_number (convenienceFee transactionData)) JS.zero);
         netAmount := json_number (JS.parseFloat "undefined");
         t_checksum := checksum transactionData;
         createdAt := now_iso amb |} in
    ({| saved_success := true; saved_duplicate := false;
        saved_transaction := Some transaction |},
     (transactions ++ [transaction])%list).

End LocalTransactionStore.

(** ** The webhook handler ([src/routes/health.js], second part) *)

Module TransactionValidator.

Definition checkDuplicate (amb : Ambient) (db : QRTransactionService.Database)
    (transactionId merchantId : string) : bool :=
  match QRTransactionService.getTransactionDetails amb db transactionId merchantId with
  | Ok existing => QRTransactionService.success existing
  | Throw _ => false
  end.

Definition limits_min : JS.Number := JS.of_Z 1.
Definition limits_max : JS.Number := JS.of_Z 100000.

(** The rupee sign of the message, in UTF-8. *)
Definition rupee : string := "₹".

Definition validateAmount (amount : JS.Number) : result bool :=
  if JS.lt amount limits_min || JS.gt amount limits_max then
    Throw (Error ("Amount " ++ rupee ++ JS.Number_toString amount
                    ++ " is outside allowed limits ("
                    ++ rupee ++ JS.Number_toString limits_min ++ " - "
                    ++ rupee ++ JS.Number_toString limits_max ++ ")"))
  else Ok true.

Definition validateTimestamp (rt : Runtime) (env : Env) (amb : Ambient)
    (timestamp : string) : result bool :=
  let transactionTime := Date_of_string rt timestamp in
  let currentTime := now amb in
  let timeDiff := JS.sub currentTime transactionTime in
  let hoursDiff := JS.div timeDiff (JS.of_Z (1000 * 60 * 60)) in
  if negb (development env) && JS.gt hoursDiff (JS.of_Z 24) then
    Throw (Error "Transaction is older than 24 hours")
  else Ok true.

End TransactionValidator.

Module Webhook.
Import EncryptionUtil.

(** The parts of [req.body] the handler reads. *)
Record Request : Type := {
  encryptedData : option string;
  body_merchantId : option string
}.

(** [res.status(code).json(body)]; the [timestamp] and [processingTime]
    properties of the body, read from the clock, are left out. *)
Record Response : Type := {
  http_status : nat;
  body_status : string;
  body_message : string;
  body_transactionId : option string;
  isDuplicate : bool
}.

(** [global.io.emit(event, data)] *)
Record Emitted : Type := {
  event : string;
  data : TransactionData;
  errorDescription : option JS.member
}.

(** Everything a request can change. *)
Record World : Type := {
  db : QRTransactionService.Database;
  transactions_json : list LocalTransactionStore.Transaction;
  emitted : list Emitted
}.

Definition HDFC_ERROR_CODES : list (string * string) :=
  [ ("00", "Success");
    ("U01", "The request is duplicate");
    ("U02", "Not sufficient funds");
    ("U03", "Debit has failed");
    ("U04", "Credit has failed");
    ("U05", "Transaction not permitted");
    ("U06", "Invalid VPA");
    ("U07", "Transaction timeout");
    ("U08", "Invalid Amount");
    ("U09", "Remitter bank not available");
    ("U10", "Beneficiary bank not available");
    ("U11", "Invalid transaction");
    ("U12", "Invalid reference number");
    ("U13", "Approval declined");
    ("U14", "Transaction already completed");
    ("U15", "Request timeout");
    ("U16", "Risk threshold exceeded");
    ("U17", "PSP not available");
    ("U18", "Invalid merchant");
    ("U19", "Merchant blocked");
    ("U20", "Invalid response") ].

(** The own property [k] of a table. *)
Fixpoint lookup (table : list (string * string)) (k : string) : option string :=
  match table with
  | [] => None
  | (k', v) :: rest => if String.eqb k' k then Some v else lookup rest k
  end.

(** [table[k]]: the own property, else what the prototype chain holds
    under that name, else [undefined]. *)
Definition get (table : list (string * string)) (k : string) : option JS.member :=
  match lookup table k with
  | Some v => Some (JS.Text v)
  | None =>
      if existsb (String.eqb k) JS.Object_prototype then Some (JS.Inherited k)
      else None
  end.

(** Format: STQ{identifier}{timestamp} or DYN{identifier}{timestamp} *)
Definition extractQRIdentifier (merchantTxnId : string) : string :=
  let len := Z.of_nat (String.length merchantTxnId) in
  if JS.startsWith "STQ" merchantTxnId then JS.substring 3 (len - 13) merchantTxnId
  else if JS.startsWith "DYN" merchantTxnId then JS.substring 3 (len - 13) merchantTxnId
  else merchantTxnId.

Definition emitRealtimeUpdate (w : World) (e : Emitted) : World :=
  {| db := db w;
     transactions_json := transactions_json w;
     emitted := (emitted w ++ [e])%list |}.

(** The service layer: the local file in development, the database
    otherwise. *)
Definition save (env : Env) (amb : Ambient) (w : World)
    (transactionData : TransactionData)
    (webhookData : QRTransactionService.WebhookData) : result unit * World :=
  if development env then
    let '(_, file) :=
      LocalTransactionStore.saveTransaction amb (transactions_json w) transactionData in
    (Ok tt, {| db := db w; transactions_json := file; emitted := emitted w |})
  else
    let '(r, db') :=
      QRTransactionService.processTransactionWebhook amb (db w) webhookData in
    (bind r (fun _ => Ok tt),
     {| db := db'; transactions_json := transactions_json w; emitted := emitted w |}).

Definition processSuccessfulTransaction (env : Env) (amb : Ambient) (w : World)
    (transactionData : TransactionData) : result unit * World :=
  let webhookData :=
    {| QRTransactionService.transaction_id := transactionId transactionData;
       QRTransactionService.merchant_id := merchantId transactionData;
       QRTransactionService.wd_qr_identifier :=
         extractQRIdentifier (merchantTxnId transactionData);
       QRTransactionService.amount := amount transactionData;
       QRTransactionService.customer_vpa := payerVPA transactionData;
       QRTransactionService.customer_name := payerName transactionData;
       QRTransactionService.reference_number := merchantTxnId transactionData;
       QRTransactionService.bank_reference_number := bankRRN transactionData;
       QRTransactionService.status := "success";
       QRTransactionService.payment_method := Some "UPI";
       QRTransactionService.failure_reason := None |} in
  match save env amb w transactionData webhookData with
  | (Ok _, w') =>
      (Ok tt, emitRealtimeUpdate w'
                {| event := "payment-success"; data := transactionData;
                   errorDescription := None |})
  | (Throw error, w') => (Throw error, w')
  end.

Definition processFailedTransaction (env : Env) (amb : Ambient) (w : World)
    (transactionData : TransactionData) : result unit * World :=
  let otherwise :=
    JS.Text (LocalTransactionStore.or_string (statusDescription transactionData)
                                             "Transaction failed") in
  let description :=
    match get HDFC_ERROR_CODES (statusCode transactionData) with
    | Some d => if JS.member_truthy d then d else otherwise
    | None => otherwise
    end in
  let webhookData :=
    {| QRTransactionService.transaction_id := transactionId transactionData;
       QRTransactionService.merchant_id := merchantId transactionData;
       QRTransactionService.wd_qr_identifier :=
         extractQRIdentifier (merchantTxnId transactionData);
       QRTransactionService.amount := amount transactionData;
       QRTransactionService.customer_vpa := payerVPA transactionData;
       QRTransactionService.customer_name := payerName transactionData;
       QRTransactionService.reference_number := merchantTxnId transactionData;
       QRTransactionService.bank_reference_number := bankRRN transactionData;
       QRTransactionService.status := "failed";
       QRTransactionService.payment_method := Some "UPI";
       QRTransactionService.failure_reason := Some description |} in
  match save env amb w transactionData webhookData with
  | (Ok _, w') =>
      (Ok tt, emitRealtimeUpdate w'
                {| event := "payment-failed"; data := transactionData;
                   errorDescription := Some description |})
  | (Throw error, w') => (Throw error, w')
  end.

(** *** [router.post('/hdfc/webhook', ...)] *)

Definition missing_data : Response :=
  {| http_status := 400; body_status := "FAILED";
     body_message := "Missing encrypted data";
     body_transactionId := None; isDuplicate := false |}.

Definition already_processed (transactionData : TransactionData) : Response :=
  {| http_status := 200; body_status := "SUCCESS";
     body_message := "Transaction already processed";
     body_transactionId := Some (transactionId transactionData);
     isDuplicate := true |}.

Definition processed (transactionData : TransactionData) : Response :=
  {| http_status := 200; body_status := "SUCCESS";
     body_message := "Webhook processed successfully";
     body_transactionId := Some (transactionId transactionData);
     isDuplicate := false |}.

(** The [catch] of the handler. *)
Definition failed (error : JsError) : Response :=
  {| http_status := 500; body_status := "ERROR";
     body_message :=
       LocalTransactionStore.or_string (message error) "Internal server error";
     body_transactionId := None; isDuplicate := false |}.

(** Where the handler stands once the duplicate lookup has answered:
    it has sent a response, or it goes on with the parsed payload. *)
Inductive Stage : Type :=
| Responded (r : Response)
| Proceed (transactionData : TransactionData).

(** From the payload decrypted with [merchantKey], through parsing and
    the checksum, to the answer of the duplicate lookup.  Nothing is
    written. *)
Definition decoded (env : Env) (amb : Ambient) (w : World)
    (merchantKey decryptedData : string) : result Stage :=
  (do transactionData <- parseHDFCResponse decryptedData;
   do _ <- (if negb (development env) then
              let checksumData := JS.delete "checksum" (properties transactionData) in
              if negb (validateChecksum checksumData (checksum transactionData) merchantKey)
              then Throw (Error "Invalid checksum - possible data tampering")
              else Ok tt
            else Ok tt);
   let isDuplicate :=
     TransactionValidator.checkDuplicate amb (db w) (transactionId transactionData)
                                         (merchantId transactionData) in
   if isDuplicate then Ok (Responded (already_processed transactionData))
   else Ok (Proceed transactionData))%result.

(** The first part of the handler, up to the [await] of the duplicate
    lookup. *)
Definition receive (rt : Runtime) (env : Env) (amb : Ambient) (w : World)
    (req : Request) : result Stage :=
  match encryptedData req with
  | None | Some EmptyString => Ok (Responded missing_data)
  | Some encrypted =>
      match HDFC_MERCHANT_KEY env with
      | None | Some EmptyString => Throw (Error "Merchant key not configured")
      | Some merchantKey =>
          (do decryptedData <- decryptAES128 rt encrypted merchantKey;
           decoded env amb w merchantKey decryptedData)%result
      end
  end.

(** The second part: validation of amount and timestamp, processing,
    acknowledgment. *)
Definition complete (rt : Runtime) (env : Env) (amb : Ambient) (w : World)
    (transactionData : TransactionData) : Response * World :=
  match TransactionValidator.validateAmount (amount transactionData) with
  | Throw error => (failed error, w)
  | Ok _ =>
      match TransactionValidator.validateTimestamp rt env amb
              (transactionDateTime transactionData) with
      | Throw error => (failed error, w)
      | Ok _ =>
          let '(r, w') :=
            if String.eqb (transactionStatus transactionData) "SUCCESS"
            then processSuccessfulTransaction env amb w transactionData
            else processFailedTransaction env amb w transactionData in
          match r with
          | Ok _ => (processed transactionData, w')
          | Throw error => (failed error, w')
          end
      end
  end.

Definition webhook (rt : Runtime) (env : Env) (amb : Ambient) (w : World)
    (req : Request) : Response * World :=
  match receive rt env amb w req with
  | Throw error => (failed error, w)
  | Ok (Responded r) => (r, w)
  | Ok (Proceed transactionData) => complete rt env amb w transactionData
  end.

(** The request carries a payload, the key is configured, and the
    payload decrypts to [decryptedData]. *)
Definition decrypts_to (rt : Runtime) (env : Env) (req : Request)
    (merchantKey decryptedData : string) : Prop :=
  exists encrypted,
    encryptedData req = Some encrypted /\ encrypted <> EmptyString
    /\ HDFC_MERCHANT_KEY env = Some merchantKey /\ merchantKey <> EmptyString
    /\ AES_ECB_decrypt rt encrypted merchantKey = Some decryptedData.

(** The checksum test of the handler passes: the digest matches, or the
    test is skipped in development. *)
Definition checksum_accepted (env : Env) (merchantKey : string)
    (transactionData : TransactionData) : bool :=
  development env
  || validateChecksum (JS.delete "checksum" (properties transactionData))
                      (checksum transactionData) merchantKey.

(** *** The routes of the router, as registered when the module loads *)

Definition routes (env : Env) : list (string * string) :=
  ([ ("POST", "/hdfc/webhook");
     ("GET", "/hdfc/transactions");
     ("GET", "/hdfc/webhook/health") ]
   ++ (if development env then [ ("POST", "/hdfc/webhook/test") ] else []))%list.

End Webhook.

(** ** Sample data *)

Module Samples.

(** A callback of twenty-one fields whose checksum is the keyed digest of
    the first twenty under [sample_key] (amounts as [parseFloat] and
    [Number::toString] render them: [100.00] as [100]). *)
Definition sample_key : string := "ef880fed3abe10d54102a24e05e41ca2".

Definition sample_fields : list string :=
  [ "HDFC000010380443"; "Test Merchant"; "TERM001"; "TXN1"; "RRN1";
    "STQ0011700000000000"; "100.00"; "SUCCESS"; "00"; "Success";
    "test@paytm"; "Test User"; "9999999999"; "2024-01-01T00:00:00.000Z";
    "100.00"; "2024-01-01T00:00:00.000Z"; "UPI"; "5499"; "0"; "0";
    "5F61128085F42DBA2D75DF1D2FEC6E8C341F4F78D75B86AE60558445DBD8C9D0" ].

(** [fields] with field [i] replaced by [v]. *)
Fixpoint with_field (i : nat) (v : string) (fields : list string) : list string :=
  match fields, i with
  | [], _ => []
  | _ :: rest, O => v :: rest
  | f :: rest, S i' => f :: with_field i' v rest
  end.

Definition plaintext (fields : list string) : string := JS.join "|" fields.

(** A stand-in for the platform: the cipher text is its own plaintext,
    and no text reads as a date ([new Date(text)] is invalid). *)
Definition clear_text : Runtime :=
  {| AES_ECB_decrypt := fun text _ => Some text;
     Date_of_string := fun _ => JS.NaN |}.

Definition production : Env :=
  {| NODE_ENV := Some "production"; HDFC_MERCHANT_KEY := Some sample_key |}.

Definition local_development : Env :=
  {| NODE_ENV := Some "development"; HDFC_MERCHANT_KEY := Some sample_key |}.

Definition no_key : Env :=
  {| NODE_ENV := Some "production"; HDFC_MERCHANT_KEY := None |}.

(** A call during which the database answers. *)
Definition quiet (uuid : string) : Ambient :=
  {| now := JS.of_Z 1704067200000;
     now_iso := "2024-01-01T00:00:00.000Z";
     today := "2024-01-01";
     uuid := uuid;
     refund_id := "REF20240101K3X9Q2M1A";
     query_error := None;
     connection_error := None |}.

(** A call during which [db.query] throws. *)
Definition lookup_down (uuid : string) : Ambient :=
  {| now := JS.of_Z 1704067200000;
     now_iso := "2024-01-01T00:00:00.000Z";
     today := "2024-01-01";
     uuid := uuid;
     refund_id := "REF20240101K3X9Q2M1A";
     query_error := Some (Error "connect ECONNREFUSED");
     connection_error := None |}.

(** A database that knows the QR code [001] and nothing else. *)
Definition shop : Webhook.World :=
  {| Webhook.db :=
       {| QRTransactionService.qr_codes :=
            [ {| QRTransactionService.qr_id := 7;
                 QRTransactionService.qr_identifier := "001" |} ];
          QRTransactionService.qr_transactions := [];
          QRTransactionService.next_transaction_id := 1;
          QRTransactionService.qr_daily_stats := [];
          QRTransactionService.qr_webhook_events := [];
          QRTransactionService.qr_refund_audit := [] |};
     Webhook.transactions_json := [];
     Webhook.emitted := [] |}.

(** The database once the sample callback has been processed. *)
Definition recorded : Webhook.World :=
  {| Webhook.db :=
       {| QRTransactionService.qr_codes :=
            [ {| QRTransactionService.qr_id := 7;
                 QRTransactionService.qr_identifier := "001" |} ];
          QRTransactionService.qr_transactions :=
            [ {| QRTransactionService.tx_id := 1;
                 QRTransactionService.tx_transaction_id := "TXN1";
                 QRTransactionService.tx_qr_code_id := 7;
                 QRTransactionService.tx_merchant_id := "HDFC000010380443";
                 QRTransactionService.tx_amount := JS.of_Z 100;
                 QRTransactionService.tx_customer_vpa := "test@paytm";
                 QRTransactionService.tx_customer_name := "Test User";
                 QRTransactionService.tx_reference_number := "STQ0011700000000000";
                 QRTransactionService.tx_bank_reference_number := "RRN1";
                 QRTransactionService.tx_status := "success";
                 QRTransactionService.tx_payment_method := "UPI";
                 QRTransactionService.tx_settlement_status := Some "pending";
                 QRTransactionService.tx_completed_at := None;
                 QRTransactionService.tx_refund_amount := None;
                 QRTransactionService.tx_refund_reason := None;
                 QRTransactionService.tx_refund_initiated_by := None;
                 QRTransactionService.tx_refund_initiated_at := None |} ];
          QRTransactionService.next_transaction_id := 2;
          QRTransactionService.qr_daily_stats :=
            [ {| QRTransactionService.ds_merchant_id := "HDFC000010380443";
                 QRTransactionService.ds_qr_code_id := 7;
                 QRTransactionService.ds_stat_date := "2024-01-01";
                 QRTransactionService.ds_total_transactions := 1;
                 QRTransactionService.ds_successful_transactions := 1;
                 QRTransactionService.ds_total_amount := JS.of_Z 100;
                 QRTransactionService.ds_successful_amount := JS.of_Z 100 |} ];
          QRTransactionService.qr_webhook_events := [];
          QRTransactionService.qr_refund_audit := [] |};
     Webhook.transactions_json := [];
     Webhook.emitted := [] |}.

(** A later callback for the same transaction, reporting a failure. *)
Definition failed_callback : QRTransactionService.WebhookData :=
  {| QRTransactionService.transaction_id := "TXN1";
     QRTransactionService.merchant_id := "HDFC000010380443";
     QRTransactionService.wd_qr_identifier := "001";
     QRTransactionService.amount := JS.of_Z 100;
     QRTransactionService.customer_vpa := "test@paytm";
     QRTransactionService.customer_name := "Test User";
     QRTransactionService.reference_number := "STQ0011700000000000";
     QRTransactionService.bank_reference_number := "RRN1";
     QRTransactionService.status := "failed";
     QRTransactionService.payment_method := Some "UPI";
     QRTransactionService.failure_reason := Some (JS.Text "Debit has failed") |}.

Definition request (fields : list string) : Webhook.Request :=
  {| Webhook.encryptedData := Some (plaintext fields);
     Webhook.body_merchantId := Some "HDFC000010380443" |}.

End Samples.

(** ** Vocabulary of the statements *)

Module Accounts.
Import QRTransactionService.

(** The unique key of [qr_daily_stats]. *)
Definition stats_key (r : DailyStats) : string * Z * string :=
  (ds_merchant_id r, ds_qr_code_id r, ds_stat_date r).



End Accounts.

Module Calls.
Import QRTransactionService.

(** A call of the service that writes, with what it reads from
    outside. *)
Inductive Call : Type :=
| Refund (amb : Ambient) (transactionId : string) (refundData : RefundData)
         (initiatedBy : string)
| Callback (amb : Ambient) (webhookData : WebhookData).

(** The database once the call has returned or thrown. *)
Definition after (db : Database) (c : Call) : Database :=
  match c with
  | Refund amb transactionId refundData initiatedBy =>
      snd (initiateRefund amb db transactionId refundData initiatedBy)
  | Callback amb webhookData => snd (processTransactionWebhook amb db webhookData)
  end.

(** Calls made one after the other, each begun when the one before has
    committed or rolled back. *)
Definition after_all (calls : list Call) (db : Database) : Database :=
  fold_left after calls db.

(** A callback that reports [success] for the transaction id. *)
Definition reports_success (transactionId : string) (c : Call) : bool :=
  match c with
  | Refund _ _ _ _ => false
  | Callback _ webhookData =>
      String.eqb (transaction_id webhookData) transactionId
      && String.eqb (status webhookData) "success"
  end.

End Calls.

Module Text.

(** How many times a character occurs in a text. *)
Fixpoint occurrences (c : ascii) (s : string) : nat :=
  match s with
  | EmptyString => 0
  | String d rest => (if Ascii.eqb d c then 1 else 0) + occurrences c rest
  end.

(** The characters of a text. *)
Fixpoint characters (s : string) : list ascii :=
  match s with
  | EmptyString => []
  | String c rest => c :: characters rest
  end.

(** The characters [Number::toString] writes: digits, the point, the
    exponent mark and signs, and the letters of [NaN] and [Infinity]. *)
Definition number_char (c : ascii) : bool :=
  is_digit c || VPAService.char_in ".e+-NaInfity" c.

(** The characters of [digest('hex').toUpperCase()]. *)
Definition upper_hex_char (c : ascii) : bool :=
  is_digit c || VPAService.char_in "ABCDEF" c.

(** A byte. *)
Definition byte (b : Z) : Prop := (0 <= b < 256)%Z.

(** A text made of the characters [Number::toString] writes. *)
Definition number_text (s : string) : Prop :=
  Forall (fun c => number_char c = true) (characters s).

End Text.

(** ** The payload of the test route ([router.post('/hdfc/webhook/test')]) *)

Module WebhookTest.
Import EncryptionUtil.

(** [Object.values(testData).join('|')]: the pipe-separated text the
    test route encrypts and posts to the webhook. *)
Definition pipeData (testData : TransactionData) : string :=
  JS.join "|" (map JS.ToString (JS.Object_values (properties testData))).

End WebhookTest.

(** ** The health routes ([src/routes/health.js], first part) *)

Module Health.

(** [process.env], as the health routes read it. *)
Record Settings : Type := {
  APP_VERSION : option string;
  environment : option string;        (* [NODE_ENV] *)
  DB_HOST : option string;
  DATABASE_URL : option string;
  HDFC_API_URL : option string
}.

(** [!text] on a variable of the environment. *)
Definition unset (v : option string) : bool :=
  match v with
  | Some (String _ _) => false
  | _ => true
  end.

(** [text || fallback] *)
Definition or_default (v : option string) (fallback : string) : string :=
  match v with
  | Some (String c rest) => String c rest
  | _ => fallback
  end.

(** What one request reads from the machine: the clock when the cache is
    tested and when a result is stored, [process.uptime()], the outcome
    of [global.dbConnection.ping()] ([None] when there is no connection
    object), of [new URL(url)] and [dns.lookup], of the heap comparison
    in [getSystemMetrics], and the error, if any, that stops
    [getSystemMetrics] or [getDetailedMetrics]. *)
Record Probe : Type := {
  now_read : Z;
  now_stored : Z;
  uptime : JS.Number;
  dbConnection : option (option JsError);
  lookup : string -> option JsError;
  heap_above_90 : bool;
  system_metrics_error : option JsError;
  detailed_metrics_error : option JsError
}.

(** The result of a check; its [timestamp] is kept apart. *)
Record Check : Type := {
  status : string;
  check_message : option string;
  responseTime : option string;
  services : list (string * string);
  error : option string
}.

(** [{ ...result, timestamp: Date.now() }], and [{ status: 'unknown',
    timestamp: null }] before the first check. *)
Record Cached : Type := {
  last : Check;
  timestamp : option Z
}.

Record State : Type := {
  isShuttingDown : bool;
  lastDatabaseCheck : Cached;
  lastExternalAPICheck : Cached
}.

Definition unknown : Cached :=
  {| last := {| status := "unknown"; check_message := None; responseTime := None;
                services := []; error := None |};
     timestamp := None |}.

(** The state when the module is loaded. *)
Definition started : State :=
  {| isShuttingDown := false;
     lastDatabaseCheck := unknown;
     lastExternalAPICheck := unknown |}.

Definition CACHE_DURATION : Z := 5000.

(** [last.timestamp && Date.now() - last.timestamp < CACHE_DURATION] *)
Definition recent (c : Cached) (now : Z) : bool :=
  match timestamp c with
  | Some t => (negb (t =? 0) && (now - t <? CACHE_DURATION))%Z
  | None => false
  end.

Definition checked (message : string) : Check :=
  {| status := "healthy"; check_message := Some message; responseTime := None;
     services := []; error := None |}.

Definition store_database (st : State) (result : Check) (p : Probe) : State :=
  {| isShuttingDown := isShuttingDown st;
     lastDatabaseCheck := {| last := result; timestamp := Some (now_stored p) |};
     lastExternalAPICheck := lastExternalAPICheck st |}.

Definition checkDatabase (env : Settings) (p : Probe) (st : State) : Check * State :=
  if recent (lastDatabaseCheck st) (now_read p) then (last (lastDatabaseCheck st), st)
  else
    let result :=
      if unset (DB_HOST env) && unset (DATABASE_URL env) then
        checked "No database configured (webhook-only mode)"
      else
        match dbConnection p with
        | Some None =>
            {| status := "healthy";
               check_message := Some "Database connection successful";
               responseTime := Some "< 10ms";
               services := []; error := None |}
        | Some (Some e) =>
            {| status := "unhealthy";
               check_message := Some "Database connection failed";
               responseTime := None;
               services := []; error := Some (message e) |}
        | None => checked "Database check skipped (connection pooling)"
        end in
    (result, store_database st result p).

Definition store_external (st : State) (result : Check) (p : Probe) : State :=
  {| isShuttingDown := isShuttingDown st;
     lastDatabaseCheck := lastDatabaseCheck st;
     lastExternalAPICheck := {| last := result; timestamp := Some (now_stored p) |} |}.

Definition checkExternalAPIs (env : Settings) (p : Probe) (st : State) : Check * State :=
  if recent (lastExternalAPICheck st) (now_read p) then (last (lastExternalAPICheck st), st)
  else
    let hdfcUrl := or_default (HDFC_API_URL env) "https://upitestv2.hdfcbank.com" in
    let result :=
      match lookup p hdfcUrl with
      | None =>
          {| status := "healthy";
             check_message := Some "External APIs reachable";
             responseTime := None;
             services := [("hdfc", "reachable")]; error := None |}
      | Some e =>
          {| status := "degraded";
             check_message := Some "Some external APIs unreachable";
             responseTime := None;
             services := []; error := Some (message e) |}
      end in
    (result, store_external st result p).

(** [getSystemMetrics], as far as its status goes. *)
Definition getSystemMetrics (p : Probe) : Check :=
  match system_metrics_error p with
  | Some e =>
      {| status := "error";
         check_message := Some "Failed to collect system metrics";
         responseTime := None; services := []; error := Some (message e) |}
  | None =>
      {| status := if heap_above_90 p then "warning" else "healthy";
         check_message := None; responseTime := None; services := []; error := None |}
  end.

Inductive Route : Type :=
| Root            (* [/] *)
| HealthCheck     (* [/health] *)
| Detailed        (* [/health/detailed] *)
| Live            (* [/live] *)
| Ready           (* [/ready] *)
| Startup         (* [/startup] *)
| Metrics.        (* [/metrics] *)

(** A response: its status code and the properties of its body, those
    read from the clock ([timestamp], [uptime]) and the constant
    [service] left out.  Neither check rejects, so that the [catch] of a
    route is not reached. *)
Record Reply : Type := {
  code : nat;
  location : option string;            (* of a redirect *)
  body_status : option string;
  version : option string;
  body_environment : option string;
  flag : option bool;                  (* [alive], [ready], [started] *)
  reason : option string;
  database : option string;            (* [checks.database] of [/ready] *)
  checks : list (string * Check)       (* [checks] of [/health/detailed] *)
}.

Definition reply (c : nat) : Reply :=
  {| code := c; location := None; body_status := None; version := None;
     body_environment := None; flag := None; reason := None; database := None;
     checks := [] |}.

(** A request from its arrival to its answer, when nothing else is
    handled in between. *)
Definition serve (env : Settings) (route : Route) (p : Probe) (st : State) : Reply * State :=
  match route with
  | Root =>
      ({| code := 302; location := Some "/health"; body_status := None; version := None;
          body_environment := None; flag := None; reason := None; database := None;
          checks := [] |}, st)
  | HealthCheck =>
      if isShuttingDown st then
        ({| code := 503; location := None; body_status := Some "shutting_down";
            version := None; body_environment := None; flag := None; reason := None;
            database := None; checks := [] |}, st)
      else
        ({| code := 200; location := None; body_status := Some "healthy";
            version := Some (or_default (APP_VERSION env) "1.0.0");
            body_environment := Some (or_default (environment env) "development");
            flag := None; reason := None; database := None; checks := [] |}, st)
  | Detailed =>
      if isShuttingDown st then
        ({| code := 503; location := None; body_status := Some "shutting_down";
            version := None; body_environment := None; flag := None; reason := None;
            database := None; checks := [] |}, st)
      else
        let '(dbHealth, st1) := checkDatabase env p st in
        let '(apiHealth, st2) := checkExternalAPIs env p st1 in
        let systemMetrics := getSystemMetrics p in
        let isHealthy :=
          String.eqb (status dbHealth) "healthy"
          && String.eqb (status apiHealth) "healthy"
          && String.eqb (status systemMetrics) "healthy" in
        ({| code := if isHealthy then 200 else 503;
            location := None;
            body_status := Some (if isHealthy then "healthy" else "degraded");
            version := Some (or_default (APP_VERSION env) "1.0.0");
            body_environment := Some (or_default (environment env) "development");
            flag := None; reason := None; database := None;
            checks := [("database", dbHealth); ("externalAPIs", apiHealth);
                       ("system", systemMetrics)] |}, st2)
  | Live =>
      if isShuttingDown st then
        ({| code := 503; location := None; body_status := None; version := None;
            body_environment := None; flag := Some false; reason := None;
            database := None; checks := [] |}, st)
      else
        ({| code := 200; location := None; body_status := None; version := None;
            body_environment := None; flag := Some true; reason := None;
            database := None; checks := [] |}, st)
  | Ready =>
      if isShuttingDown st then
        ({| code := 503; location := None; body_status := None; version := None;
            body_environment := None; flag := Some false;
            reason := Some "Server is shutting down"; database := None;
            checks := [] |}, st)
      else
        let '(dbCheck, st1) := checkDatabase env p st in
        let isReady := String.eqb (status dbCheck) "healthy" in
        ({| code := if isReady then 200 else 503;
            location := None; body_status := None; version := None;
            body_environment := None; flag := Some isReady; reason := None;
            database := Some (status dbCheck); checks := [] |}, st1)
  | Startup =>
      let isStarted := JS.gt (uptime p) (JS.of_Z 10) in
      ({| code := if isStarted then 200 else 503;
          location := None; body_status := None; version := None;
          body_environment := None; flag := Some isStarted; reason := None;
          database := None; checks := [] |}, st)
  | Metrics =>
      match detailed_metrics_error p with
      | Some e => (reply 500, st)
      | None => (reply 200, st)
      end
  end.

(** The handlers of [SIGTERM] and [SIGINT] set the flag; the process
    exits ten seconds later. *)
Definition signal (st : State) : State :=
  {| isShuttingDown := true;
     lastDatabaseCheck := lastDatabaseCheck st;
     lastExternalAPICheck := lastExternalAPICheck st |}.

(** *** Requests that overlap

    A handler runs in one piece up to its first [await] on the machine:
    the ping of the database, the DNS lookup, the [stat] of the disk.
    What follows the [await] runs when the awaited promise settles, and
    other requests and the signals are handled in between.  An [await]
    on a promise that is already resolved gives no such room: its
    continuation runs before any other request or signal.

    On arrival a handler reads of its [Probe] the clock, whether there is
    a connection object, and what [getSystemMetrics] finds; the outcome
    of the ping and of the lookup comes with the event that settles
    them.  A failure before the [await] itself ([new URL] refusing the
    address, a connection object without [ping]) is taken as the awaited
    promise rejecting. *)

(** The 503 of a route while the server shuts down. *)
Definition shutting_down (route : Route) : Reply :=
  match route with
  | Live =>
      {| code := 503; location := None; body_status := None; version := None;
         body_environment := None; flag := Some false; reason := None;
         database := None; checks := [] |}
  | Ready =>
      {| code := 503; location := None; body_status := None; version := None;
         body_environment := None; flag := Some false;
         reason := Some "Server is shutting down"; database := None;
         checks := [] |}
  | _ =>
      {| code := 503; location := None; body_status := Some "shutting_down";
         version := None; body_environment := None; flag := None; reason := None;
         database := None; checks := [] |}
  end.

(** The answer of [/ready] to the result of the database check. *)
Definition ready_reply (dbCheck : Check) : Reply :=
  let isReady := String.eqb (status dbCheck) "healthy" in
  {| code := if isReady then 200 else 503;
     location := None; body_status := None; version := None;
     body_environment := None; flag := Some isReady; reason := None;
     database := Some (status dbCheck); checks := [] |}.

(** The answer of [/health/detailed] to the three settled checks. *)
Definition detailed_reply (env : Settings) (dbHealth apiHealth systemMetrics : Check)
    : Reply :=
  let isHealthy :=
    String.eqb (status dbHealth) "healthy"
    && String.eqb (status apiHealth) "healthy"
    && String.eqb (status systemMetrics) "healthy" in
  {| code := if isHealthy then 200 else 503;
     location := None;
     body_status := Some (if isHealthy then "healthy" else "degraded");
     version := Some (or_default (APP_VERSION env) "1.0.0");
     body_environment := Some (or_default (environment env) "development");
     flag := None; reason := None; database := None;
     checks := [("database", dbHealth); ("externalAPIs", apiHealth);
                ("system", systemMetrics)] |}.

(** [checkDatabase] up to [await global.dbConnection.ping()]: the result
    when it returns without waiting, [None] when the ping is under way. *)
Definition checkDatabase_begin (env : Settings) (p : Probe) (st : State)
    : option Check * State :=
  if recent (lastDatabaseCheck st) (now_read p) then (Some (last (lastDatabaseCheck st)), st)
  else if unset (DB_HOST env) && unset (DATABASE_URL env) then
    let result := checked "No database configured (webhook-only mode)" in
    (Some result, store_database st result p)
  else
    match dbConnection p with
    | Some _ => (None, st)
    | None =>
        let result := checked "Database check skipped (connection pooling)" in
        (Some result, store_database st result p)
    end.

(** [checkDatabase] from the moment the ping has settled: the result is
    stored with the time read then. *)
Definition checkDatabase_end (outcome : option JsError) (now : Z) (st : State)
    : Check * State :=
  let result :=
    match outcome with
    | None =>
        {| status := "healthy";
           check_message := Some "Database connection successful";
           responseTime := Some "< 10ms";
           services := []; error := None |}
    | Some e =>
        {| status := "unhealthy";
           check_message := Some "Database connection failed";
           responseTime := None;
           services := []; error := Some (message e) |}
    end in
  (result,
   {| isShuttingDown := isShuttingDown st;
      lastDatabaseCheck := {| last := result; timestamp := Some now |};
      lastExternalAPICheck := lastExternalAPICheck st |}).

(** [checkExternalAPIs] up to [await lookup(url.hostname)]. *)
Definition checkExternalAPIs_begin (p : Probe) (st : State) : option Check :=
  if recent (lastExternalAPICheck st) (now_read p) then Some (last (lastExternalAPICheck st))
  else None.

(** [checkExternalAPIs] from the moment the lookup has settled. *)
Definition checkExternalAPIs_end (outcome : option JsError) (now : Z) (st : State)
    : Check * State :=
  let result :=
    match outcome with
    | None =>
        {| status := "healthy";
           check_message := Some "External APIs reachable";
           responseTime := None;
           services := [("hdfc", "reachable")]; error := None |}
    | Some e =>
        {| status := "degraded";
           check_message := Some "Some external APIs unreachable";
           responseTime := None;
           services := []; error := Some (message e) |}
    end in
  (result,
   {| isShuttingDown := isShuttingDown st;
      lastDatabaseCheck := lastDatabaseCheck st;
      lastExternalAPICheck := {| last := result; timestamp := Some now |} |}).

(** What a request that has not answered yet waits for.  [/ready] waits
    for the ping.  [/health/detailed] waits for [Promise.allSettled] of
    its three checks: the ping and the lookup ([None] while under way),
    and [getSystemMetrics], whose result is known when it reaches
    [await getDiskUsage()] and which then waits for [fs.stat]. *)
Inductive Waiting : Type :=
| AwaitingReady
| AwaitingDetailed (dbHealth apiHealth : option Check) (systemMetrics : Check)
                   (disk : bool).

(** The answer of a request whose promises have all settled. *)
Definition settled (env : Settings) (w : Waiting) : option Reply :=
  match w with
  | AwaitingDetailed (Some dbHealth) (Some apiHealth) systemMetrics false =>
      Some (detailed_reply env dbHealth apiHealth systemMetrics)
  | _ => None
  end.

(** A handler from the arrival of its request to its first [await] on
    the machine: it has answered, or it waits. *)
Definition arrive (env : Settings) (route : Route) (p : Probe) (st : State)
    : (Reply + Waiting) * State :=
  match route with
  | Detailed =>
      if isShuttingDown st then (inl (shutting_down Detailed), st)
      else
        let '(dbHealth, st1) := checkDatabase_begin env p st in
        let apiHealth := checkExternalAPIs_begin p st1 in
        let w :=
          AwaitingDetailed dbHealth apiHealth (getSystemMetrics p)
            (match system_metrics_error p with Some _ => false | None => true end) in
        match settled env w with
        | Some r => (inl r, st1)
        | None => (inr w, st1)
        end
  | Ready =>
      if isShuttingDown st then (inl (shutting_down Ready), st)
      else
        match checkDatabase_begin env p st with
        | (Some dbCheck, st1) => (inl (ready_reply dbCheck), st1)
        | (None, st1) => (inr AwaitingReady, st1)
        end
  | _ => let '(r, st1) := serve env route p st in (inl r, st1)
  end.

(** The server: the variables of the module, the requests that wait,
    each under the number of its arrival, and the answers sent. *)
Record Server : Type := {
  state : State;
  waiting : list (nat * Waiting);
  arrivals : nat;
  replies : list (nat * Route * Reply)
}.

(** The server when the module is loaded. *)
Definition boot : Server :=
  {| state := started; waiting := []; arrivals := 0; replies := [] |}.

Fixpoint pending (k : nat) (l : list (nat * Waiting)) : option Waiting :=
  match l with
  | [] => None
  | (k', w) :: rest => if Nat.eqb k' k then Some w else pending k rest
  end.

Definition without (k : nat) (l : list (nat * Waiting)) : list (nat * Waiting) :=
  filter (fun kw => negb (Nat.eqb (fst kw) k)) l.

Definition route_of (w : Waiting) : Route :=
  match w with
  | AwaitingReady => Ready
  | AwaitingDetailed _ _ _ _ => Detailed
  end.

(** Request [k] goes on as [w] in state [st]: it answers when nothing is
    left to wait for. *)
Definition resume (env : Settings) (sv : Server) (k : nat) (w : Waiting) (st : State)
    : Server :=
  match settled env w with
  | Some r =>
      {| state := st; waiting := without k (waiting sv); arrivals := arrivals sv;
         replies := (replies sv ++ [(k, route_of w, r)])%list |}
  | None =>
      {| state := st;
         waiting := map (fun kw => if Nat.eqb (fst kw) k then (k, w) else kw) (waiting sv);
         arrivals := arrivals sv; replies := replies sv |}
  end.

(** What the event loop hands to the module: a request arrives, the ping,
    the lookup or the [stat] of a waiting request settles (with its
    outcome, and the time read when the result is stored), or a signal
    is delivered. *)
Inductive Event : Type :=
| Arrives (route : Route) (p : Probe)
| Pinged (k : nat) (outcome : option JsError) (now : Z)
| Resolved (k : nat) (outcome : option JsError) (now : Z)
| Stat (k : nat)
| Signal.

Definition step (env : Settings) (sv : Server) (e : Event) : Server :=
  match e with
  | Arrives route p =>
      match arrive env route p (state sv) with
      | (inl r, st) =>
          {| state := st; waiting := waiting sv; arrivals := S (arrivals sv);
             replies := (replies sv ++ [(arrivals sv, route, r)])%list |}
      | (inr w, st) =>
          {| state := st; waiting := (waiting sv ++ [(arrivals sv, w)])%list;
             arrivals := S (arrivals sv); replies := replies sv |}
      end
  | Pinged k outcome now =>
      match pending k (waiting sv) with
      | Some AwaitingReady =>
          let '(dbCheck, st) := checkDatabase_end outcome now (state sv) in
          {| state := st; waiting := without k (waiting sv); arrivals := arrivals sv;
             replies := (replies sv ++ [(k, Ready, ready_reply dbCheck)])%list |}
      | Some (AwaitingDetailed None apiHealth systemMetrics disk) =>
          let '(dbHealth, st) := checkDatabase_end outcome now (state sv) in
          resume env sv k (AwaitingDetailed (Some dbHealth) apiHealth systemMetrics disk) st
      | _ => sv
      end
  | Resolved k outcome now =>
      match pending k (waiting sv) with
      | Some (AwaitingDetailed dbHealth None systemMetrics disk) =>
          let '(apiHealth, st) := checkExternalAPIs_end outcome now (state sv) in
          resume env sv k (AwaitingDetailed dbHealth (Some apiHealth) systemMetrics disk) st
      | _ => sv
      end
  | Stat k =>
      match pending k (waiting sv) with
      | Some (AwaitingDetailed dbHealth apiHealth systemMetrics true) =>
          resume env sv k (AwaitingDetailed dbHealth apiHealth systemMetrics false) (state sv)
      | _ => sv
      end
  | Signal =>
      {| state := signal (state sv); waiting := waiting sv; arrivals := arrivals sv;
         replies := replies sv |}
  end.

Definition run (env : Settings) (events : list Event) (sv : Server) : Server :=
  fold_left (step env) events sv.

(** The server when a signal has just been handled, after any events
    since the module was loaded. *)
Definition after_signal (env : Settings) (before : list Event) : Server :=
  step env (run env before boot) Signal.

End Health.

(** ** [VPAService]: the pool of identifiers ([src/services/vpaService.js]) *)

Module VPAPool.
Import VPAService.

Definition MAX_RETRIES : nat := 10.

(** [vpa_pool]: [identifier] is declared [UNIQUE]; rows are kept in the
    order of [created_at]. *)
Record PoolRow : Type := {
  identifier : string;
  is_used : bool;
  used_by_merchant_id : option string
}.

(** The two tables the service reads: the [qr_identifier] column of
    [qr_codes], and [vpa_pool]. *)
Record Store : Type := {
  qr_identifiers : list string;
  vpa_pool : list PoolRow
}.

(** What a call draws from outside: the successive values of
    [Math.floor(Math.random() * IDENTIFIER_CHARS.length)], the answer of
    [acquireLock] at each attempt ([true] as well when there is no Redis
    client), and the error of a database that does not answer. *)
Record Chance : Type := {
  Math_random_index : nat -> nat;
  acquireLock : nat -> string -> bool;
  failure : option JsError
}.

(** [s.charAt(i)]: the empty string out of range. *)
Definition charAt (i : nat) (s : string) : string :=
  match String.get i s with
  | Some c => String c EmptyString
  | None => EmptyString
  end.

(** [generateRandomIdentifier], from the [k]-th draw on. *)
Fixpoint random_chars (draw : nat -> nat) (k n : nat) : string :=
  match n with
  | O => EmptyString
  | S n' => charAt (draw k) IDENTIFIER_CHARS ++ random_chars draw (S k) n'
  end.

Definition generateRandomIdentifier (draw : nat -> nat) (k : nat) : string :=
  random_chars draw k IDENTIFIER_LENGTH.

(** [UPDATE vpa_pool SET is_used = true, ... WHERE identifier = ?] *)
Definition set_used (id : string) (merchant : PoolRow -> option string) (r : PoolRow)
    : PoolRow :=
  if String.eqb (identifier r) id
  then {| identifier := identifier r; is_used := true; used_by_merchant_id := merchant r |}
  else r.

(** [getFromPool]: the first unused row is marked and its identifier
    returned.  The refill that [checkAndRefillPool] schedules with
    [setImmediate] runs after the call and is not part of it. *)
Definition getFromPool (db : Store) : option string * Store :=
  match find (fun r => negb (is_used r)) (vpa_pool db) with
  | Some row =>
      (Some (identifier row),
       {| qr_identifiers := qr_identifiers db;
          vpa_pool := map (set_used (identifier row) used_by_merchant_id) (vpa_pool db) |})
  | None => (None, db)
  end.

Definition checkIdentifierExists (db : Store) (id : string) : bool :=
  if existsb (String.eqb id) (qr_identifiers db) then true
  else existsb (fun r => String.eqb (identifier r) id && is_used r) (vpa_pool db).

(** [INSERT ... VALUES ($1, true, NOW()) ON CONFLICT (identifier) DO
    UPDATE SET is_used = true, used_at = NOW()] *)
Definition reserveIdentifier (db : Store) (id : string) : Store :=
  {| qr_identifiers := qr_identifiers db;
     vpa_pool :=
       if existsb (fun r => String.eqb (identifier r) id) (vpa_pool db)
       then map (set_used id used_by_merchant_id) (vpa_pool db)
       else (vpa_pool db ++ [ {| identifier := id; is_used := true;
                                 used_by_merchant_id := None |} ])%list |}.

(** [markAsUsed(identifier, merchantId = null)] *)
Definition markAsUsed (db : Store) (id : string) (merchantId : option string) : Store :=
  {| qr_identifiers := qr_identifiers db;
     vpa_pool := map (set_used id (fun _ => merchantId)) (vpa_pool db) |}.

Definition generateSequentialIdentifier (db : Store) : result string * Store :=
  match find (fun r => negb (is_used r)) (vpa_pool db) with
  | Some row => (Ok (identifier row), markAsUsed db (identifier row) None)
  | None => (Throw (Error "Unable to generate unique identifier"), db)
  end.

(** The [while] loop of [generateUniqueIdentifier]: [n] attempts are
    left, [attempt] have been made, and [k] values drawn. *)
Fixpoint attempts (ch : Chance) (n attempt k : nat) (db : Store) : option string * Store :=
  match n with
  | O => (None, db)
  | S n' =>
      let identifier := generateRandomIdentifier (Math_random_index ch) k in
      let lockKey := "vpa_lock:" ++ identifier in
      if acquireLock ch attempt lockKey then
        if negb (checkIdentifierExists db identifier)
        then (Some identifier, reserveIdentifier db identifier)
        else attempts ch n' (S attempt) (k + IDENTIFIER_LENGTH) db
      else attempts ch n' (S attempt) (k + IDENTIFIER_LENGTH) db
  end.

Definition generateUniqueIdentifier (ch : Chance) (db : Store) : result string * Store :=
  match failure ch with
  | Some error => (Throw error, db)
  | None =>
      let '(identifier, db1) := getFromPool db in
      match identifier with
      | Some (String c rest) => (Ok (String c rest), db1)
      | _ =>
          match attempts ch MAX_RETRIES 0 0 db1 with
          | (Some identifier, db2) => (Ok identifier, db2)
          | (None, db2) => generateSequentialIdentifier db2
          end
      end
  end.

(** An identifier that has been handed out: it is a QR identifier, or it
    is marked in the pool. *)
Definition taken (db : Store) (id : string) : Prop :=
  In id (qr_identifiers db)
  \/ exists r, In r (vpa_pool db) /\ identifier r = id /\ is_used r = true.

(** The tables as the service keeps them: the identifiers of the pool
    are distinct, and every QR identifier is marked in the pool. *)
Definition consistent (db : Store) : Prop :=
  NoDup (map identifier (vpa_pool db))
  /\ forall c, In c (qr_identifiers db) ->
               exists r, In r (vpa_pool db) /\ identifier r = c /\ is_used r = true.

End VPAPool.

(** ** [VPAService.generateUPIString] ([src/services/vpaService.js]) *)

Module UPI.

Definition is_lower (c : ascii) : bool := ((97 <=? code c) && (code c <=? 122))%nat.

(** The characters [encodeURIComponent] leaves as they are: letters,
    digits and [- _ . ! ~ * ' ( )]. *)
Definition uri_unreserved (c : ascii) : bool :=
  is_upper c || is_lower c || is_digit c || VPAService.char_in "-_.!~*'()" c.

(** [%XX] for each byte, in upper-case hexadecimal. *)
Fixpoint percent (bytes : list Z) : string :=
  match bytes with
  | [] => EmptyString
  | b :: rest => String "%" (Crypto.hex true [b]) ++ percent rest
  end.

(** [encodeURIComponent] on a string of code units below 256: every
    other character is written as the escaped bytes of its UTF-8
    encoding. *)
Fixpoint encodeURIComponent (s : string) : string :=
  match s with
  | EmptyString => EmptyString
  | String c rest =>
      (if uri_unreserved c then String c EmptyString
       else percent (Crypto.utf8 (String c EmptyString)))
      ++ encodeURIComponent rest
  end.

(** What [encodeURIComponent] writes: unreserved characters, the percent
    sign and upper-case hexadecimal digits. *)
Definition escaped_char (c : ascii) : bool :=
  uri_unreserved c || Ascii.eqb c "%" || Text.upper_hex_char c.

(** The argument of [generateUPIString]; a property that is missing is
    [None]. *)
Record Params : Type := {
  vpa : string;
  merchantName : option string;
  amount : option JS.Number;
  description : option string
}.

(** [if (text) { upiString += `&k=${encodeURIComponent(text)}` }]: the
    empty string is falsy. *)
Definition text_parameter (key : string) (text : option string) : string :=
  match text with
  | Some (String c rest) => "&" ++ key ++ "=" ++ encodeURIComponent (String c rest)
  | _ => EmptyString
  end.

Definition generateUPIString (params : Params) : string :=
  let upiString := "upi://pay?pa=" ++ vpa params in
  let upiString := upiString ++ text_parameter "pn" (merchantName params) in
  let upiString :=
    match amount params with
    | Some a =>
        if JS.truthy a && JS.gt a (JS.of_Z 0)
        then upiString ++ "&am=" ++ JS.Number_toString a
        else upiString
    | None => upiString
    end in
  let upiString := upiString ++ text_parameter "tn" (description params) in
  upiString ++ "&mc=5411".

End UPI.

(** ** [LocalTransactionStore]: the functions that read the file *)

Module LocalStore.
Import LocalTransactionStore.

(** [transactions.filter(t => t.qrId === qrId)] *)
Definition getTransactionsByQR (transactions : list Transaction) (qrId' : string)
    : list Transaction :=
  filter (fun t => String.eqb (qrId t) qrId') transactions.

(** [transactions.find(t => t.transactionId === transactionId)], [None]
    for [undefined]. *)
Definition getTransactionById (transactions : list Transaction) (transactionId : string)
    : option Transaction :=
  find (fun t => String.eqb (t_transactionId t) transactionId) transactions.

(** [transactions.some(t => t.transactionId === transactionId)] *)
Definition checkDuplicate (transactions : list Transaction) (transactionId : string) : bool :=
  existsb (fun t => String.eqb (t_transactionId t) transactionId) transactions.

(** What [getStats] reads from the calendar of the machine:
    [new Date(text).toDateString()] and [new Date().toDateString()]. *)
Record Calendar : Type := {
  Date_toDateString : string -> string;
  today_toDateString : string
}.

Record Stats : Type := {
  totalTransactions : nat;
  totalAmount : JS.Number;
  successfulTransactions : nat;
  failedTransactions : nat;
  pendingTransactions : nat;
  todayTransactions : nat
}.

(** [sum + t.amount]: a [null] of the file counts as [+0]. *)
Definition plus_amount (sum : JS.Number) (t : Transaction) : JS.Number :=
  JS.add sum (match t_amount t with Some x => x | None => JS.zero end).

Definition with_status (s : string) (transactions : list Transaction) : list Transaction :=
  filter (fun t => String.eqb (t_status t) s) transactions.

Definition getStats (cal : Calendar) (transactions : list Transaction) : Stats :=
  {| totalTransactions := List.length transactions;
     totalAmount := fold_left plus_amount transactions JS.zero;
     successfulTransactions := List.length (with_status "SUCCESS" transactions);
     failedTransactions := List.length (with_status "FAILED" transactions);
     pendingTransactions := List.length (with_status "PENDING" transactions);
     todayTransactions :=
       List.length
         (filter (fun t => String.eqb (Date_toDateString cal (transactionDate t))
                                      (today_toDateString cal))
                 transactions) |}.

End LocalStore.

(** ** [router.get('/hdfc/transactions')] ([src/routes/health.js]) *)

Module TransactionsRoute.
Import Webhook.

(** [res.json(...)] of the route; a property the body does not have is
    [None]. *)
Record Listing : Type := {
  listing_status : nat;
  listing_success : bool;
  listing_transactions : option (list LocalTransactionStore.Transaction);
  listing_stats : option LocalStore.Stats;
  listing_count : option nat;
  listing_message : option string
}.

Definition transactions (env : Env) (cal : LocalStore.Calendar) (w : World) : Listing :=
  if development env then
    let transactions := transactions_json w in
    let stats := LocalStore.getStats cal transactions in
    {| listing_status := 200;
       listing_success := true;
       listing_transactions := Some transactions;
       listing_stats := Some stats;
       listing_count := Some (List.length transactions);
       listing_message := None |}
  else
    {| listing_status := 403;
       listing_success := false;
       listing_transactions := None;
       listing_stats := None;
       listing_count := None;
       listing_message := Some "This endpoint is only available in development mode" |}.

End TransactionsRoute.

(** ** [QRController.createQR] ([src/controllers/qrController.js]) *)

Module QRController.

(** [errorResponse(res, message, statusCode, ...)] *)
Record ErrorResponse : Type := {
  error_message : string;
  statusCode : nat;
  error_code : option string
}.

Inductive Outcome (A : Type) : Type :=
| errorResponse (e : ErrorResponse)
| successResponse (a : A).

Arguments errorResponse {A} e.
Arguments successResponse {A} a.

(** The value of [a || b] for a boolean [a] and a Number [b]. *)
Inductive Operand : Type :=
| Boolean (b : bool)
| Num (x : JS.Number).

Definition logical_or (a : bool) (b : JS.Number) : Operand :=
  if a then Boolean a else Num b.

Definition ToBoolean (v : Operand) : bool :=
  match v with
  | Boolean b => b
  | Num x => JS.truthy x
  end.

(** What a call of [createQR] meets: the errors of [validationResult],
    [req.user] ([None] when the request carries none), the answer of
    [QRService.getActiveQRCount], the variable [MAX_QR_PER_MERCHANT], and
    the relational comparison [>=] of a Number with that variable. *)
Record Call : Type := {
  validation_errors : list string;
  user : option (string * string);              (* [merchantId], [id] *)
  getActiveQRCount : string -> result JS.Number;
  MAX_QR_PER_MERCHANT : option string;
  greater_or_equal : JS.Number -> option string -> bool
}.

Section CreateQR.

(** The rest of the function, from the generation of the identifier to
    [successResponse]: it returns the created QR code, or throws. *)
Variable Created : Type.
Variable create : Call -> string -> string -> result Created.

Definition createQR (call : Call) : Outcome Created :=
  match validation_errors call with
  | _ :: _ =>
      errorResponse {| error_message := "Validation failed"; statusCode := 400;
                       error_code := None |}
  | [] =>
      let failed :=
        errorResponse {| error_message := "Failed to create QR code"; statusCode := 500;
                         error_code := None |} in
      match user call with
      | None => failed                       (* a [TypeError], caught *)
      | Some (merchantId, userId) =>
          match getActiveQRCount call merchantId with
          | Throw _ => failed
          | Ok qrCount =>
              if ToBoolean
                   (logical_or (greater_or_equal call qrCount (MAX_QR_PER_MERCHANT call))
                               (JS.of_Z 100))
              then
                errorResponse {| error_message := "Maximum QR limit reached";
                                 statusCode := 400; error_code := Some "QR_004" |}
              else
                match create call merchantId userId with
                | Ok qrCode => successResponse qrCode
                | Throw _ => failed
                end
          end
      end
  end.

End CreateQR.

End QRController.

(** ** More sample data *)

Module Records.

(** The record [parseHDFCResponse] reads from the sample callback, with
    the transaction id, the reference and the status left open. *)
Definition callback (transactionId merchantTxnId transactionStatus : string)
    : EncryptionUtil.TransactionData :=
  {| EncryptionUtil.merchantId := "HDFC000010380443";
     EncryptionUtil.merchantName := "Test Merchant";
     EncryptionUtil.terminalId := "TERM001";
     EncryptionUtil.transactionId := transactionId;
     EncryptionUtil.bankRRN := "RRN1";
     EncryptionUtil.merchantTxnId := merchantTxnId;
     EncryptionUtil.amount := JS.of_Z 100;
     EncryptionUtil.transactionStatus := transactionStatus;
     EncryptionUtil.statusCode := "00";
     EncryptionUtil.statusDescription := "Success";
     EncryptionUtil.payerVPA := "test@paytm";
     EncryptionUtil.payerName := "Test User";
     EncryptionUtil.mobileNumber := "9999999999";
     EncryptionUtil.transactionDateTime := "2024-01-01T00:00:00.000Z";
     EncryptionUtil.settlementAmount := JS.of_Z 100;
     EncryptionUtil.settlementDateTime := "2024-01-01T00:00:00.000Z";
     EncryptionUtil.paymentMode := "UPI";
     EncryptionUtil.mcc := "5499";
     EncryptionUtil.tipAmount := JS.zero;
     EncryptionUtil.convenienceFee := JS.zero;
     EncryptionUtil.checksum :=
       "5F61128085F42DBA2D75DF1D2FEC6E8C341F4F78D75B86AE60558445DBD8C9D0" |}.

Definition sample_record : EncryptionUtil.TransactionData :=
  callback "TXN1" "STQ0011700000000000" "SUCCESS".

(** A callback that carries the transaction id of the sample under
    another merchant. *)
Definition foreign_callback : QRTransactionService.WebhookData :=
  {| QRTransactionService.transaction_id := "TXN1";
     QRTransactionService.merchant_id := "OTHER0000000001";
     QRTransactionService.wd_qr_identifier := "001";
     QRTransactionService.amount := JS.of_Z 100;
     QRTransactionService.customer_vpa := "test@paytm";
     QRTransactionService.customer_name := "Test User";
     QRTransactionService.reference_number := "STQ0011700000000000";
     QRTransactionService.bank_reference_number := "RRN2";
     QRTransactionService.status := "failed";
     QRTransactionService.payment_method := Some "UPI";
     QRTransactionService.failure_reason := Some (JS.Text "Debit has failed") |}.

(** A pool with one identifier left, and the QR code that holds the
    other. *)
Definition small_pool : VPAPool.Store :=
  {| VPAPool.qr_identifiers := ["AAAAA"];
     VPAPool.vpa_pool :=
       [ {| VPAPool.identifier := "AAAAA"; VPAPool.is_used := true;
            VPAPool.used_by_merchant_id := None |};
         {| VPAPool.identifier := "BBBBB"; VPAPool.is_used := false;
            VPAPool.used_by_merchant_id := None |} ] |}.

(** Draws whose first five spell [DKRY5]; every lock is granted. *)
Definition lucky : VPAPool.Chance :=
  {| VPAPool.Math_random_index := fun i => ((7 * i + 3) mod 36)%nat;
     VPAPool.acquireLock := fun _ _ => true;
     VPAPool.failure := None |}.

(** A machine whose database answers, or not, at a given time. *)
Definition machine (time : Z) (ping : option JsError) : Health.Probe :=
  {| Health.now_read := time;
     Health.now_stored := time + 2;
     Health.uptime := JS.of_Z 60;
     Health.dbConnection := Some ping;
     Health.lookup := fun _ => None;
     Health.heap_above_90 := false;
     Health.system_metrics_error := None;
     Health.detailed_metrics_error := None |}.

Definition with_database : Health.Settings :=
  {| Health.APP_VERSION := None;
     Health.environment := Some "production";
     Health.DB_HOST := Some "db.internal";
     Health.DATABASE_URL := None;
     Health.HDFC_API_URL := None |}.

(** The calendar of a machine on the first of January 2024 that reads
    the date off the first ten characters of a timestamp. *)
Definition new_year : LocalStore.Calendar :=
  {| LocalStore.Date_toDateString := fun text => String.substring 0 10 text;
     LocalStore.today_toDateString := "2024-01-01" |}.

End Records.

(* ================================================================== *)
(** * Properties *)
(* ================================================================== *)

Unset Implicit Arguments.

(** ** The runtime model against known values *)

Module RuntimeChecks.

Example sha256_abc :
  Crypto.hex false (Crypto.sha256 (Crypto.utf8 "abc"))
  = "ba7816bf8f01cfea414140de5dae2223b00361a396177a9cb410ff61f20015ad".
Proof. vm_compute. reflexivity. Qed.

Example sha256_two_blocks :
  Crypto.hex false
    (Crypto.sha256 (Crypto.utf8 "abcdbcdecdefdefgefghfghighijhijkijkljklmklmnlmnomnopnopq"))
  = "248d6a61d20638b8e5c026930c3e6039a33ce45964ff2167f6ecedd419db06c1".
Proof. vm_compute. reflexivity. Qed.

(** RFC 4231, test case 2. *)
Example hmac_sha256_rfc4231 :
  Crypto.hex false
    (Crypto.hmac_sha256 (Crypto.utf8 "Jefe") (Crypto.utf8 "what do ya want for nothing?"))
  = "5bdcc146bf60754e6a042426089575c75a003f089d2739839dec58b964ec3843".
Proof. vm_compute. reflexivity. Qed.

Example parseFloat_values :
  map JS.parseFloat ["100.00"; "  -12.5e2xyz"; ".5"; "1e999"; "-Infinityx"; "abc"; ""; "0x10"]
  = [ JS.of_Z 100; JS.of_decimal true 1250 0; JS.of_decimal false 5 (-1);
      JS.Infinity; S754_infinity true; JS.NaN; JS.NaN; JS.zero ].
Proof. vm_compute. reflexivity. Qed.

Example Number_toString_values :
  map (fun s => JS.Number_toString (JS.parseFloat s))
      ["100.00"; "0.1"; "1e21"; "123456789012345680000"; "1e-7"; "0.000001";
       "5e-324"; "1.7976931348623157e308"; "1e23"; "-12.50"; "0.30000000000000004";
       "9007199254740993"; "abc"; "-0"]
  = ["100"; "0.1"; "1e+21"; "123456789012345680000"; "1e-7"; "0.000001";
     "5e-324"; "1.7976931348623157e+308"; "1e+23"; "-12.5"; "0.30000000000000004";
     "9007199254740992"; "NaN"; "0"].
Proof. vm_compute. reflexivity. Qed.

Example substring_swaps : JS.substring 3 (-10) "STQ" = "STQ".
Proof. reflexivity. Qed.

Example split_empty : JS.split "|" "" = [""].
Proof. reflexivity. Qed.

End RuntimeChecks.

(** ** Numbers *)

Module Numbers.

(** *** Comparison *)

Lemma SFcompare_swap (x y : JS.Number) (c : comparison) :
  SFcompare x y = Some c -> SFcompare y x = Some (CompOpp c).
Proof.
  destruct x as [sx | sx | | sx mx ex], y as [sy | sy | | sy my ey];
    cbn [SFcompare]; try discriminate;
    try (destruct sx); try (destruct sy);
    try (intros E; injection E as <-; reflexivity).
  all: intros E; injection E as <-; rewrite (Z.compare_antisym ex ey);
    pose proof (Pos.compare_cont_antisym mx my Eq) as H; cbn [CompOpp] in H;
    rewrite <- H; destruct (ex ?= ey)%Z; reflexivity.
Qed.

Lemma SFcompare_defined (x y : JS.Number) :
  JS.isNaN x = false -> JS.isNaN y = false -> exists c, SFcompare x y = Some c.
Proof.
  destruct x as [sx | sx | | sx mx ex], y as [sy | sy | | sy my ey];
    cbn [JS.isNaN SFcompare]; try discriminate; intros _ _; eexists; reflexivity.
Qed.

(** *** Rounding never produces [NaN] *)

Lemma shr_1_nonneg (mrs : shr_record) : (0 <= shr_m mrs)%Z -> (0 <= shr_m (shr_1 mrs))%Z.
Proof.
  destruct mrs as [m r s]. cbn [shr_m]. intros H.
  destruct m as [| [p | p |] | p]; cbn; lia.
Qed.

Lemma iter_pos_nonneg (p : positive) (mrs : shr_record) :
  (0 <= shr_m mrs)%Z -> (0 <= shr_m (iter_pos shr_1 p mrs))%Z.
Proof.
  revert mrs. induction p as [p IH | p IH |]; intros mrs H; cbn [iter_pos].
  - apply IH, IH, shr_1_nonneg, H.
  - apply IH, IH, H.
  - apply shr_1_nonneg, H.
Qed.

Lemma shr_fexp_nonneg (m e : Z) (l : location) :
  (0 <= m)%Z -> (0 <= shr_m (fst (shr_fexp JS.prec JS.emax m e l)))%Z.
Proof.
  intros H. unfold shr_fexp, shr.
  assert (H0 : (0 <= shr_m (shr_record_of_loc m l))%Z)
    by (destruct l as [| []]; exact H).
  destruct (fexp JS.prec JS.emax (Zdigits2 m + e) - e)%Z; cbn [fst];
    [exact H0 | apply iter_pos_nonneg, H0 | exact H0].
Qed.

Lemma binary_round_aux_not_NaN (s : bool) (m e : Z) (l : location) :
  (0 <= m)%Z -> JS.isNaN (binary_round_aux JS.prec JS.emax s m e l) = false.
Proof.
  intros H. unfold binary_round_aux.
  pose proof (shr_fexp_nonneg m e l H) as H1.
  destruct (shr_fexp JS.prec JS.emax m e l) as [mrs' e'] eqn:E1. cbn [fst] in H1.
  assert (H2 : (0 <= round_nearest_even (shr_m mrs') (loc_of_shr_record mrs'))%Z).
  { unfold round_nearest_even.
    destruct (loc_of_shr_record mrs') as [| []]; try lia.
    destruct (Z.even (shr_m mrs')); lia. }
  pose proof (shr_fexp_nonneg _ e' loc_Exact H2) as H3.
  destruct (shr_fexp JS.prec JS.emax _ e' loc_Exact) as [mrs'' e''] eqn:E2.
  cbn [fst] in H3.
  destruct (shr_m mrs'') as [| p | p]; [reflexivity | | lia].
  now destruct (e'' <=? JS.emax - JS.prec)%Z.
Qed.

Lemma of_decimal_not_NaN (neg : bool) (m : N) (e : Z) :
  JS.isNaN (JS.of_decimal neg m e) = false.
Proof.
  unfold JS.of_decimal. destruct m as [| p]; [reflexivity |].
  assert (Hround : forall q, JS.isNaN (binary_round JS.prec JS.emax neg q 0) = false).
  { intros q. unfold binary_round.
    destruct (shl_align q 0 _) as [mz ez]. apply binary_round_aux_not_NaN. lia. }
  destruct e as [| k | k]; try apply Hround.
  unfold SFdiv_core_binary.
  match goal with
  | |- context [Z.div_eucl ?a ?b] =>
      pose proof (Z.div_pos a b) as Hq; unfold Z.div in Hq;
      assert (Ha : (0 <= a)%Z); [| destruct (Z.div_eucl a b) as [q r]]
  end.
  - match goal with
    | |- (0 <= match ?s with _ => _ end)%Z => destruct s
    end; try lia. apply Z.shiftl_nonneg. lia.
  - apply binary_round_aux_not_NaN. cbn [fst] in Hq. apply Hq; [exact Ha | lia].
Qed.

(** *** What [parseFloat] reads *)

Lemma digits_no_digit (acc : N) (k : nat) (s : string) :
  match s with String c _ => is_digit c | EmptyString => false end = false ->
  JS.digits acc k s = (acc, k, s).
Proof.
  destruct s as [| c r]; cbn [JS.digits]; [reflexivity |].
  intros ->. reflexivity.
Qed.

Lemma unsigned_literal_NaN (neg : bool) (u : string) :
  prefix "Infinity" u = false ->
  match u with
  | String c r =>
      is_digit c
      || (Ascii.eqb c "."
          && match r with String d _ => is_digit d | EmptyString => false end)
  | EmptyString => false
  end = false ->
  JS.unsigned_literal neg u = JS.NaN.
Proof.
  intros HI H. unfold JS.unsigned_literal. rewrite HI.
  destruct u as [| c r]; [reflexivity |].
  apply orb_false_iff in H. destruct H as [Hc Hdot].
  rewrite digits_no_digit by exact Hc.
  destruct (Ascii.eqb c ".") eqn:E; [| reflexivity].
  cbn [andb] in Hdot. rewrite digits_no_digit by exact Hdot. reflexivity.
Qed.

Lemma digits_count (s : string) (acc : N) (k : nat) :
  (k <= snd (fst (JS.digits acc k s)))%nat.
Proof.
  revert acc k. induction s as [| c r IH]; intros acc k; cbn [JS.digits]; [cbn; lia |].
  destruct (is_digit c); [| cbn; lia].
  specialize (IH (10 * acc + N.of_nat (code c - 48))%N (S k)). lia.
Qed.

Lemma digits_count_digit (c : ascii) (r : string) (acc : N) (k : nat) :
  is_digit c = true -> (S k <= snd (fst (JS.digits acc k (String c r))))%nat.
Proof.
  intros H. cbn [JS.digits]. rewrite H. apply digits_count.
Qed.

Lemma unsigned_literal_number (neg : bool) (u : string) :
  prefix "Infinity" u
  || match u with
     | String c r =>
         is_digit c
         || (Ascii.eqb c "."
             && match r with String d _ => is_digit d | EmptyString => false end)
     | EmptyString => false
     end = true ->
  JS.isNaN (JS.unsigned_literal neg u) = false.
Proof.
  unfold JS.unsigned_literal.
  destruct (prefix "Infinity" u); cbn [orb]; [reflexivity |].
  destruct u as [| c r]; [discriminate |].
  intros H.
  assert (Hcount : forall i ki s1 m kf s2,
             JS.digits 0 0 (String c r) = (i, ki, s1) ->
             match s1 with
             | String c' r' => if Ascii.eqb c' "." then JS.digits i 0 r' else (i, O, s1)
             | EmptyString => (i, O, s1)
             end = (m, kf, s2) ->
             (ki + kf <> 0)%nat).
  { intros i ki s1 m kf s2 E1 E2.
    destruct (is_digit c) eqn:Hc.
    - pose proof (digits_count_digit c r 0 0 Hc) as Hk. rewrite E1 in Hk. cbn in Hk. lia.
    - cbn [orb] in H. apply andb_true_iff in H. destruct H as [Hdot Hd].
      cbn [JS.digits] in E1. rewrite Hc in E1. injection E1 as <- <- <-.
      rewrite Hdot in E2. destruct r as [| d r']; [discriminate |].
      pose proof (digits_count_digit d r' 0 0 Hd) as Hk. rewrite E2 in Hk. cbn in Hk. lia. }
  destruct (JS.digits 0 0 (String c r)) as [[i ki] s1] eqn:E1.
  destruct (match s1 with
            | String c' r' => if Ascii.eqb c' "." then JS.digits i 0 r' else (i, O, s1)
            | EmptyString => (i, O, s1)
            end) as [[m kf] s2] eqn:E2.
  specialize (Hcount i ki s1 m kf s2 eq_refl E2).
  destruct (ki + kf)%nat; [congruence |]. apply of_decimal_not_NaN.
Qed.

(** [parseFloat] gives [NaN] exactly on the texts that start no number. *)
Lemma parseFloat_NaN_iff (s : string) :
  JS.isNaN (JS.parseFloat s) = negb (JS.starts_number s).
Proof.
  unfold JS.starts_number, JS.parseFloat.
  destruct (JS.trim_start s) as [| c r]; [reflexivity |].
  destruct (Ascii.eqb c "+") eqn:Ep; cbn [orb];
    [| destruct (Ascii.eqb c "-") eqn:Em].
  all: match goal with
       | |- JS.isNaN (JS.unsigned_literal ?neg ?u) = negb ?b =>
           destruct b eqn:Hb; cbn [negb];
           [ apply unsigned_literal_number; exact Hb
           | apply orb_false_iff in Hb; destruct Hb as [Hb1 Hb2];
             rewrite (unsigned_literal_NaN neg u Hb1 Hb2); reflexivity ]
       end.
Qed.

End Numbers.

(** ** The VPA codec *)

Module VPACodec.
Import VPAService.

(** The alphabet of [validateIdentifierFormat] and the class [[A-Z0-9]] of
    [validateVPAFormat] hold the same characters. *)
Lemma alphabet_is_class (c : ascii) :
  char_in IDENTIFIER_CHARS c = atom_matches UpperOrDigit c.
Proof.
  destruct c as [[] [] [] [] [] [] [] []]; vm_compute; reflexivity.
Qed.

(** A code accepted by [validateIdentifierFormat] is made of exactly five
    characters of the class [[A-Z0-9]]. *)
Lemma valid_identifier_shape (c : string) :
  validateIdentifierFormat c = true ->
  exists c1 c2 c3 c4 c5,
    c = String c1 (String c2 (String c3 (String c4 (String c5 EmptyString))))
    /\ Forall (fun x => atom_matches UpperOrDigit x = true) [c1; c2; c3; c4; c5].
Proof.
  unfold validateIdentifierFormat, IDENTIFIER_LENGTH.
  destruct c as [| c1 [| c2 [| c3 [| c4 [| c5 [| c6 r]]]]]];
    cbn [String.length Nat.eqb orb negb all_chars]; try discriminate.
  intros H.
  repeat (apply andb_true_iff in H; destruct H as [?H H]).
  exists c1, c2, c3, c4, c5; split; [reflexivity |].
  repeat constructor; rewrite <- alphabet_is_class; assumption.
Qed.

(** C4: for every valid five-character code [c] over A-Z0-9,
    [extractIdentifier (formatVPA c)] returns exactly [c]. *)
Theorem extract_format_roundtrip (c : string) :
  validateIdentifierFormat c = true ->
  extractIdentifier (formatVPA c) = Ok c.
Proof.
  intros H. destruct (valid_identifier_shape c H) as (c1 & c2 & c3 & c4 & c5 & -> & F).
  inversion_clear F as [| ? ? H1 F1]. inversion_clear F1 as [| ? ? H2 F2].
  inversion_clear F2 as [| ? ? H3 F3]. inversion_clear F3 as [| ? ? H4 F4].
  inversion_clear F4 as [| ? ? H5 _].
  unfold extractIdentifier, validateVPAFormat, vpa_regex, formatVPA.
  cbn -[atom_matches].
  rewrite H1, H2, H3, H4, H5. reflexivity.
Qed.

Lemma extract_format_roundtrip_witness :
  validateIdentifierFormat "AB12Z" = true
  /\ extractIdentifier (formatVPA "AB12Z") = Ok "AB12Z".
Proof.
  split; [reflexivity | apply extract_format_roundtrip; reflexivity].
Defined.

(** Reading a match off the pattern, one atom at a time. *)
Lemma regex_test_lit (d : ascii) (r : list atom) (s : string) :
  regex_test (Lit d :: r) s = true ->
  exists s', s = String d s' /\ regex_test r s' = true.
Proof.
  destruct s as [| c s']; cbn [regex_test atom_matches]; [discriminate |].
  intros H. apply andb_true_iff in H. destruct H as [E H].
  apply Ascii.eqb_eq in E. subst c. exists s'. split; [reflexivity | assumption].
Qed.

Lemma regex_test_atom (a : atom) (r : list atom) (s : string) :
  regex_test (a :: r) s = true ->
  exists c s', s = String c s' /\ atom_matches a c = true /\ regex_test r s' = true.
Proof.
  destruct s as [| c s']; cbn [regex_test]; [discriminate |].
  intros H. apply andb_true_iff in H. destruct H as [E H].
  exists c, s'. repeat split; assumption.
Qed.

Lemma regex_test_nil (s : string) : regex_test [] s = true -> s = EmptyString.
Proof. destruct s; [reflexivity | discriminate]. Qed.

(** What [validateVPAFormat] accepts: the full stop of the prefix is
    matched by any character that is not a line terminator. *)
Lemma validateVPAFormat_shape (vpa : string) :
  validateVPAFormat vpa = true ->
  exists x c1 c2 c3 c4 c5,
    vpa = "sabpaisa" ++ String x (String c1 (String c2 (String c3 (String c4
            (String c5 VPA_DOMAIN)))))
    /\ is_line_terminator x = false
    /\ Forall (fun y => atom_matches UpperOrDigit y = true) [c1; c2; c3; c4; c5].
Proof.
  unfold validateVPAFormat, vpa_regex, VPA_PREFIX, VPA_DOMAIN, IDENTIFIER_LENGTH.
  cbn [pattern_atoms repeat app]. cbv [Ascii.eqb Bool.eqb]. cbv iota.
  intros H.
  do 8 (apply regex_test_lit in H; destruct H as (? & -> & H)).
  apply regex_test_atom in H. destruct H as (x & ? & -> & Hx & H).
  apply regex_test_atom in H. destruct H as (c1 & ? & -> & H1 & H).
  apply regex_test_atom in H. destruct H as (c2 & ? & -> & H2 & H).
  apply regex_test_atom in H. destruct H as (c3 & ? & -> & H3 & H).
  apply regex_test_atom in H. destruct H as (c4 & ? & -> & H4 & H).
  apply regex_test_atom in H. destruct H as (c5 & ? & -> & H5 & H).
  do 11 (apply regex_test_lit in H; destruct H as (? & -> & H)).
  apply regex_test_nil in H. subst.
  exists x, c1, c2, c3, c4, c5. split; [reflexivity |]. split.
  - cbn [atom_matches] in Hx. now apply negb_true_iff in Hx.
  - repeat constructor; assumption.
Qed.

(** Whenever [extractIdentifier] returns, the address has the shape above
    and the result is its five class characters, in full. *)
Lemma extractIdentifier_ok (vpa c : string) :
  extractIdentifier vpa = Ok c ->
  exists x, is_line_terminator x = false
            /\ vpa = "sabpaisa" ++ String x (c ++ VPA_DOMAIN)
            /\ String.length c = 5.
Proof.
  unfold extractIdentifier.
  destruct (validateVPAFormat vpa) eqn:V; cbn [negb]; [| discriminate].
  destruct (validateVPAFormat_shape vpa V) as (x & c1 & c2 & c3 & c4 & c5 & -> & Hx & _).
  cbn. intros E. injection E as <-. exists x. repeat split; assumption.
Qed.

(** Conversely every address of that shape is accepted. *)
Lemma extractIdentifier_accepts (x c1 c2 c3 c4 c5 : ascii) :
  is_line_terminator x = false ->
  Forall (fun y => atom_matches UpperOrDigit y = true) [c1; c2; c3; c4; c5] ->
  extractIdentifier
    ("sabpaisa" ++ String x (String c1 (String c2 (String c3 (String c4
       (String c5 VPA_DOMAIN))))))
  = Ok (String c1 (String c2 (String c3 (String c4 (String c5 EmptyString))))).
Proof.
  intros Hx F.
  inversion_clear F as [| ? ? H1 F1]. inversion_clear F1 as [| ? ? H2 F2].
  inversion_clear F2 as [| ? ? H3 F3]. inversion_clear F3 as [| ? ? H4 F4].
  inversion_clear F4 as [| ? ? H5 _].
  unfold extractIdentifier, validateVPAFormat, vpa_regex.
  cbn -[atom_matches is_line_terminator].
  change (atom_matches AnyChar x) with (negb (is_line_terminator x)).
  rewrite Hx, H1, H2, H3, H4, H5. reflexivity.
Qed.

(** C5 (the code departs from the claim): the address below has an [X]
    where the prefix has its full stop, so it is [formatVPA c] for no
    [c]; [extractIdentifier] nevertheless returns a substring of it. *)
Theorem extractIdentifier_accepts_malformed :
  (forall c, formatVPA c <> "sabpaisaXABCDE@okhdfcbank")
  /\ extractIdentifier "sabpaisaXABCDE@okhdfcbank" = Ok "ABCDE".
Proof.
  split; [| reflexivity].
  intros c. unfold formatVPA, VPA_PREFIX. cbn [append]. discriminate.
Qed.

End VPACodec.

(** ** The webhook decoder *)

Module Decoder.
Import EncryptionUtil Samples.

Lemma split_nonempty (sep : ascii) (s : string) : JS.split sep s <> [].
Proof.
  induction s as [| c s IH]; cbn [JS.split]; [discriminate |].
  destruct (Ascii.eqb c sep); [discriminate |].
  destruct (JS.split sep s); [congruence | discriminate].
Qed.

(** C6: [parseHDFCResponse] returns a record exactly when the plaintext
    splits on the pipe into twenty-one fields; for any other count it
    throws, and the error is fixed by the count alone: no field has been
    read. *)
Theorem parseHDFCResponse_field_count (decryptedData : string) :
  ((exists td, parseHDFCResponse decryptedData = Ok td)
   <-> List.length (JS.split "|" decryptedData) = 21%nat)
  /\ (List.length (JS.split "|" decryptedData) <> 21%nat ->
      parseHDFCResponse decryptedData
      = Throw (Error ("Invalid HDFC response format. Expected 21 fields, got "
                        ++ JS.decimal_string
                             (Z.of_nat (List.length (JS.split "|" decryptedData)))))).
Proof.
  unfold parseHDFCResponse.
  destruct (Nat.eqb_spec (List.length (JS.split "|" decryptedData)) 21) as [E | N];
    cbn [negb].
  - split; [| congruence]. split; [intros _; exact E | intros _; eexists; reflexivity].
  - split; [| reflexivity]. split; [intros [td H]; discriminate H | congruence].
Qed.

Example sample_parses :
  exists td, parseHDFCResponse (plaintext sample_fields) = Ok td
             /\ transactionId td = "TXN1" /\ amount td = JS.of_Z 100.
Proof. eexists; split; [reflexivity | split; vm_compute; reflexivity]. Qed.

Example twenty_fields_rejected :
  parseHDFCResponse (plaintext (removelast sample_fields))
  = Throw (Error "Invalid HDFC response format. Expected 21 fields, got 20").
Proof. reflexivity. Qed.

Lemma or_else_zero_not_NaN (x : JS.Number) : JS.isNaN (JS.or_else x JS.zero) = false.
Proof. destruct x; reflexivity. Qed.

(** C9 as the code has it: in a parsed record [tipAmount] and
    [convenienceFee] are never [NaN] (text that starts no number gives 0),
    while [amount] and [settlementAmount] are [NaN] exactly when their
    text starts no number; the parser returns such a record instead of
    throwing. *)
Theorem parsed_numbers (decryptedData : string) (td : TransactionData) :
  parseHDFCResponse decryptedData = Ok td ->
  JS.isNaN (tipAmount td) = false
  /\ JS.isNaN (convenienceFee td) = false
  /\ (JS.starts_number (field (JS.split "|" decryptedData) 18) = false ->
      tipAmount td = JS.zero)
  /\ (JS.starts_number (field (JS.split "|" decryptedData) 19) = false ->
      convenienceFee td = JS.zero)
  /\ JS.isNaN (amount td) = negb (JS.starts_number (field (JS.split "|" decryptedData) 6))
  /\ JS.isNaN (settlementAmount td)
     = negb (JS.starts_number (field (JS.split "|" decryptedData) 14)).
Proof.
  unfold parseHDFCResponse.
  destruct (negb (List.length (JS.split "|" decryptedData) =? 21)%nat); [discriminate |].
  intros E. injection E as <-. cbn [tipAmount convenienceFee amount settlementAmount].
  repeat split; try apply or_else_zero_not_NaN; try apply Numbers.parseFloat_NaN_iff.
  - intros H. pose proof (Numbers.parseFloat_NaN_iff (field (JS.split "|" decryptedData) 18)) as N.
    rewrite H in N. destruct (JS.parseFloat _); try discriminate N. reflexivity.
  - intros H. pose proof (Numbers.parseFloat_NaN_iff (field (JS.split "|" decryptedData) 19)) as N.
    rewrite H in N. destruct (JS.parseFloat _); try discriminate N. reflexivity.
Qed.

Lemma parsed_numbers_witness :
  exists td,
    parseHDFCResponse
      (plaintext (with_field 6 "abc" (with_field 18 "n/a" sample_fields))) = Ok td
    /\ JS.isNaN (tipAmount td) = false
    /\ tipAmount td = JS.zero
    /\ JS.isNaN (amount td) = true.
Proof.
  eexists. split; [reflexivity |].
  pose proof (parsed_numbers
                (plaintext (with_field 6 "abc" (with_field 18 "n/a" sample_fields)))
                _ eq_refl) as H.
  destruct H as (H1 & _ & H3 & _ & H5 & _).
  split; [exact H1 |]. split; [apply H3; reflexivity | exact H5].
Defined.

(** C9 as stated fails: the text [Infinity] in the position of
    [tipAmount] is truthy once parsed, so the record holds an infinite
    tip. *)
Lemma tipAmount_not_always_finite :
  exists td,
    parseHDFCResponse (plaintext (with_field 18 "Infinity" sample_fields)) = Ok td
    /\ tipAmount td = JS.Infinity
    /\ JS.isFinite (tipAmount td) = false.
Proof. eexists. split; [reflexivity | split; reflexivity]. Qed.

End Decoder.

(** ** The validators *)

Module Validation.
Import EncryptionUtil Samples TransactionValidator.

(** [validateAmount] returns exactly when neither comparison holds. *)
Lemma validateAmount_ok_iff (amount : JS.Number) :
  validateAmount amount = Ok true
  <-> JS.lt amount limits_min = false /\ JS.gt amount limits_max = false.
Proof.
  unfold validateAmount.
  destruct (JS.lt amount limits_min), (JS.gt amount limits_max); cbn [orb];
    (split; [intros H; try discriminate H; split; reflexivity
            | intros [H1 H2]; try discriminate H1; try discriminate H2; reflexivity]).
Qed.

(** For an amount that is a number, acceptance is the inclusive bounds
    check [1 <= amount <= 100000]. *)
Lemma validateAmount_inclusive_bounds (amount : JS.Number) :
  JS.isNaN amount = false ->
  (validateAmount amount = Ok true
   <-> SFleb limits_min amount = true /\ SFleb amount limits_max = true).
Proof.
  intros HN. rewrite validateAmount_ok_iff. unfold JS.lt, JS.gt, SFltb, SFleb.
  destruct (Numbers.SFcompare_defined amount limits_min HN eq_refl) as [c1 H1].
  destruct (Numbers.SFcompare_defined limits_max amount eq_refl HN) as [c2 H2].
  rewrite H1, H2, (Numbers.SFcompare_swap _ _ _ H1), (Numbers.SFcompare_swap _ _ _ H2).
  destruct c1, c2; cbn [CompOpp]; split; intros [? ?]; split;
    try reflexivity; try discriminate.
Qed.

Example amount_at_minimum : validateAmount (JS.of_Z 1) = Ok true.
Proof. vm_compute. reflexivity. Qed.

Example amount_at_maximum : validateAmount (JS.of_Z 100000) = Ok true.
Proof. vm_compute. reflexivity. Qed.

Example amount_below_minimum :
  validateAmount (JS.of_Z 0)
  = Throw (Error ("Amount " ++ rupee ++ "0 is outside allowed limits ("
                    ++ rupee ++ "1 - " ++ rupee ++ "100000)")).
Proof. vm_compute. reflexivity. Qed.

Example amount_above_maximum :
  validateAmount (JS.of_Z 100001)
  = Throw (Error ("Amount " ++ rupee ++ "100001 is outside allowed limits ("
                    ++ rupee ++ "1 - " ++ rupee ++ "100000)")).
Proof. vm_compute. reflexivity. Qed.

Example amount_infinite :
  validateAmount JS.Infinity
  = Throw (Error ("Amount " ++ rupee ++ "Infinity is outside allowed limits ("
                    ++ rupee ++ "1 - " ++ rupee ++ "100000)")).
Proof. vm_compute. reflexivity. Qed.

(** C7 (the code departs from the claim): both comparisons are false on
    [NaN], so [validateAmount] accepts it; the parser hands it such an
    amount for the text [abc]. *)
Theorem validateAmount_accepts_NaN :
  validateAmount JS.NaN = Ok true
  /\ JS.isFinite JS.NaN = false
  /\ exists td,
       parseHDFCResponse (plaintext (with_field 6 "abc" sample_fields)) = Ok td
       /\ validateAmount (amount td) = Ok true.
Proof.
  split; [reflexivity |]. split; [reflexivity |].
  eexists. split; reflexivity.
Qed.

End Validation.

(** ** The webhook handler: decoding, rejection, configuration *)

Module Handler.
Import EncryptionUtil Samples TransactionValidator Webhook.

(** The handler in two steps: what [receive] answers is decided by the
    decrypted text alone, up to the duplicate lookup. *)
Section Decoding.

Variables (rt : Runtime) (env : Env) (amb : Ambient) (w : World) (req : Request).
Variables (key d : string) (td : TransactionData).

Lemma receive_decrypted :
  decrypts_to rt env req key d ->
  receive rt env amb w req = decoded env amb w key d.
Proof.
  intros (enc & He & Hne & Hk & Hkne & Hd).
  unfold receive, decryptAES128. rewrite He.
  destruct enc as [| c enc]; [congruence |].
  rewrite Hk. destruct key as [| k key']; [congruence |].
  rewrite Hd. reflexivity.
Qed.

Lemma decoded_accepted :
  parseHDFCResponse d = Ok td ->
  checksum_accepted env key td = true ->
  decoded env amb w key d
  = Ok (if checkDuplicate amb (db w) (transactionId td) (merchantId td)
        then Responded (already_processed td) else Proceed td).
Proof.
  intros Hp Hc. unfold decoded. rewrite Hp. cbn [bind].
  unfold checksum_accepted in Hc.
  destruct (development env); cbn [negb orb] in *.
  - cbn [bind]. now destruct (checkDuplicate _ _ _ _).
  - rewrite Hc. cbn [negb bind]. now destruct (checkDuplicate _ _ _ _).
Qed.

Lemma decoded_rejected :
  parseHDFCResponse d = Ok td ->
  checksum_accepted env key td = false ->
  decoded env amb w key d = Throw (Error "Invalid checksum - possible data tampering").
Proof.
  intros Hp Hc. unfold decoded. rewrite Hp. cbn [bind].
  unfold checksum_accepted in Hc. apply orb_false_iff in Hc. destruct Hc as [-> ->].
  reflexivity.
Qed.

End Decoding.



(** The text the digest is computed over: the twenty values before the
    checksum, in the order of the fields, Numbers as [Number::toString]
    writes them. *)
Lemma checksum_data (td : TransactionData) (key : string) :
  generateChecksum (JS.delete "checksum" (properties td)) key
  = Crypto.hex true
      (Crypto.hmac_sha256 (Crypto.utf8 key)
         (Crypto.utf8
            (JS.join "|"
               [ merchantId td; merchantName td; terminalId td; transactionId td;
                 bankRRN td; merchantTxnId td; JS.Number_toString (amount td);
                 transactionStatus td; statusCode td; statusDescription td;
                 payerVPA td; payerName td; mobileNumber td; transactionDateTime td;
                 JS.Number_toString (settlementAmount td); settlementDateTime td;
                 paymentMode td; mcc td; JS.Number_toString (tipAmount td);
                 JS.Number_toString (convenienceFee td) ]))).
Proof. reflexivity. Qed.

(** C3 as the code has it: outside development, a payload whose
    checksum differs from the recomputed digest is answered with the
    error of the handler, and nothing at all is written; the digest is
    the one of [checksum_data], compared by string equality. *)
Theorem checksum_mismatch_rejected
    (rt : Runtime) (env : Env) (amb : Ambient) (w : World) (req : Request)
    (key d : string) (td : TransactionData) :
  development env = false ->
  decrypts_to rt env req key d ->
  parseHDFCResponse d = Ok td ->
  String.eqb (generateChecksum (JS.delete "checksum" (properties td)) key)
             (checksum td) = false ->
  validateChecksum (JS.delete "checksum" (properties td)) (checksum td) key = false
  /\ webhook rt env amb w req
     = (failed (Error "Invalid checksum - possible data tampering"), w).
Proof.
  intros Hdev Hd Hp Hne. split; [exact Hne |].
  unfold webhook. rewrite (receive_decrypted rt env amb w req key d Hd).
  rewrite (decoded_rejected env amb w key d td Hp); [reflexivity |].
  unfold checksum_accepted. rewrite Hdev. exact Hne.
Qed.

Lemma checksum_mismatch_rejected_witness :
  exists td,
    parseHDFCResponse (plaintext (with_field 6 "999.00" sample_fields)) = Ok td
    /\ validateChecksum (JS.delete "checksum" (properties td)) (checksum td) sample_key
       = false
    /\ webhook clear_text production (quiet "u1") shop
         (request (with_field 6 "999.00" sample_fields))
       = (failed (Error "Invalid checksum - possible data tampering"), shop).
Proof.
  assert (Hd : decrypts_to clear_text production
                 (request (with_field 6 "999.00" sample_fields)) sample_key
                 (plaintext (with_field 6 "999.00" sample_fields)))
    by (eexists; repeat split; try reflexivity; discriminate).
  eexists. split; [reflexivity |].
  match goal with
  | |- validateChecksum _ (checksum ?td) _ = false /\ _ =>
      apply (checksum_mismatch_rejected clear_text production (quiet "u1") shop
               (request (with_field 6 "999.00" sample_fields)) sample_key
               (plaintext (with_field 6 "999.00" sample_fields)) td
               eq_refl Hd eq_refl)
  end.
  vm_compute; reflexivity.
Defined.

(** C3 as stated fails: in development the checksum is not looked at.
    The payload below has its amount altered and its checksum left as it
    was; it is accepted and written to the local file. *)
Lemma development_skips_checksum :
  exists td w',
    parseHDFCResponse (plaintext (with_field 6 "999.00" sample_fields)) = Ok td
    /\ validateChecksum (JS.delete "checksum" (properties td)) (checksum td) sample_key
       = false
    /\ webhook clear_text local_development (quiet "u1") shop
         (request (with_field 6 "999.00" sample_fields))
       = (processed td, w')
    /\ map LocalTransactionStore.t_transactionId (transactions_json w') = ["TXN1"].
Proof.
  eexists. eexists. split; [reflexivity |]. split; [vm_compute; reflexivity |].
  split; vm_compute; reflexivity.
Qed.

(** C8 as the code has it: without a merchant key the route is still
    registered, and every request is answered on its own: 400 when it
    carries no payload, 500 with the configuration error otherwise;
    nothing is written. *)
Theorem missing_key_fails_each_request
    (rt : Runtime) (env : Env) (amb : Ambient) (w : World) (req : Request) :
  HDFC_MERCHANT_KEY env = None \/ HDFC_MERCHANT_KEY env = Some EmptyString ->
  In ("POST", "/hdfc/webhook") (routes env)
  /\ webhook rt env amb w req
     = (match encryptedData req with
        | Some (String _ _) => failed (Error "Merchant key not configured")
        | _ => missing_data
        end, w).
Proof.
  intros Hk. split; [left; reflexivity |].
  unfold webhook, receive.
  destruct (encryptedData req) as [[| c enc] |]; try reflexivity.
  destruct Hk as [-> | ->]; reflexivity.
Qed.

Lemma missing_key_fails_each_request_witness :
  HDFC_MERCHANT_KEY no_key = None
  /\ In ("POST", "/hdfc/webhook") (routes no_key)
  /\ webhook clear_text no_key (quiet "u1") shop (request sample_fields)
     = (failed (Error "Merchant key not configured"), shop).
Proof.
  split; [reflexivity |].
  exact (missing_key_fails_each_request clear_text no_key (quiet "u1") shop
           (request sample_fields) (or_introl eq_refl)).
Defined.

(** C8 as stated fails: with no key configured the service still serves
    the webhook route, and two requests get two different answers, each
    decided when it arrives. *)
Lemma missing_key_is_a_request_time_failure :
  In ("POST", "/hdfc/webhook") (routes no_key)
  /\ webhook clear_text no_key (quiet "u1") shop (request sample_fields)
     = ({| http_status := 500; body_status := "ERROR";
           body_message := "Merchant key not configured";
           body_transactionId := None; isDuplicate := false |}, shop)
  /\ webhook clear_text no_key (quiet "u2") shop
       {| encryptedData := None; body_merchantId := None |}
     = ({| http_status := 400; body_status := "FAILED";
           body_message := "Missing encrypted data";
           body_transactionId := None; isDuplicate := false |}, shop).
Proof. split; [left; reflexivity |]. split; reflexivity. Qed.

End Handler.

(** ** Reconciliation *)

Module Reconciliation.
Import EncryptionUtil Samples TransactionValidator QRTransactionService Webhook Handler.
Import Accounts.

Lemma filter_nil {A : Type} (f : A -> bool) (l : list A) :
  filter f l = [] -> forall x, In x l -> f x = false.
Proof.
  intros H x Hx. destruct (f x) eqn:E; [| reflexivity].
  assert (Hin : In x (filter f l)) by (apply filter_In; split; assumption).
  rewrite H in Hin. destruct Hin.
Qed.

Lemma filter_cons_in {A : Type} (f : A -> bool) (l : list A) (x : A) (rest : list A) :
  filter f l = x :: rest -> In x l /\ f x = true.
Proof.
  intros H. apply filter_In. rewrite H. left. reflexivity.
Qed.

(** *** What [processTransactionWebhook] writes *)

Lemma update_existing_id (amb : Ambient) (wd : WebhookData) (t : QrTransaction) :
  tx_transaction_id (update_existing amb wd t) = tx_transaction_id t.
Proof.
  unfold update_existing. now destruct (String.eqb (tx_transaction_id t) (transaction_id wd)).
Qed.

Lemma update_existing_merchant (amb : Ambient) (wd : WebhookData) (t : QrTransaction) :
  tx_merchant_id (update_existing amb wd t) = tx_merchant_id t.
Proof.
  unfold update_existing. now destruct (String.eqb (tx_transaction_id t) (transaction_id wd)).
Qed.

Lemma updateDailyStats_transactions (amb : Ambient) (db : Database) (m : string) (q : Z)
    (a : JS.Number) :
  qr_transactions (updateDailyStats amb db m q a) = qr_transactions db.
Proof. reflexivity. Qed.

(** The outcome of a call: it throws and leaves the database as it was,
    or it returns, having updated the transactions with that id or, when
    there is none, inserted one. *)
Lemma processTransactionWebhook_transactions (amb : Ambient) (db db' : Database)
    (wd : WebhookData) (r : result Processed) :
  processTransactionWebhook amb db wd = (r, db') ->
  (exists e, r = Throw e) /\ db' = db
  \/ (exists p, r = Ok p)
     /\ ((exists t, In t (qr_transactions db) /\ tx_transaction_id t = transaction_id wd)
         /\ qr_transactions db' = map (update_existing amb wd) (qr_transactions db)
         \/ (forall t, In t (qr_transactions db) -> tx_transaction_id t <> transaction_id wd)
            /\ exists qrCode,
                 In qrCode (qr_codes db)
                 /\ qr_identifier qrCode = wd_qr_identifier wd
                 /\ qr_transactions db'
                    = (qr_transactions db ++ [new_transaction db (qr_id qrCode) wd])%list).
Proof.
  unfold processTransactionWebhook.
  destruct (connection_error amb);
    [intros H; injection H as <- <-; left; split; [eexists |]; reflexivity |].
  destruct (filter _ (qr_codes db)) as [| qrCode ?] eqn:Hq;
    [intros H; injection H as <- <-; left; split; [eexists |]; reflexivity |].
  intros H. injection H as <- <-. right. split; [eexists; reflexivity |].
  cbn [qr_transactions].
  assert (Hsame : forall d, qr_transactions
                    (if String.eqb (status wd) "success"
                     then updateDailyStats amb d (merchant_id wd) (qr_id qrCode) (amount wd)
                     else d) = qr_transactions d)
    by (intros d; destruct (String.eqb (status wd) "success"); reflexivity).
  rewrite Hsame. clear Hsame.
  destruct (filter _ (qr_transactions db)) as [| t0 ?] eqn:Hex; cbn [qr_transactions].
  - right. split.
    + intros t Hin Hid. pose proof (filter_nil _ _ Hex t Hin) as Hf. cbn beta in Hf.
      rewrite Hid, String.eqb_refl in Hf. discriminate Hf.
    + destruct (filter_cons_in _ _ _ _ Hq) as [Hin Hid]. apply String.eqb_eq in Hid.
      exists qrCode. auto.
  - left. split; [| reflexivity].
    destruct (filter_cons_in _ _ _ _ Hex) as [Hin Hid]. apply String.eqb_eq in Hid.
    exists t0. auto.
Qed.

Lemma processTransactionWebhook_throws (amb : Ambient) (db db' : Database)
    (wd : WebhookData) (e : JsError) :
  processTransactionWebhook amb db wd = (Throw e, db') -> db' = db.
Proof.
  intros H.
  destruct (processTransactionWebhook_transactions amb db db' wd _ H)
    as [(_ & E) | ((p & E) & _)]; [exact E | discriminate E].
Qed.

Lemma processTransactionWebhook_records (amb : Ambient) (db db' : Database)
    (wd : WebhookData) (p : Processed) :
  processTransactionWebhook amb db wd = (Ok p, db') ->
  exists t, In t (qr_transactions db') /\ tx_transaction_id t = transaction_id wd.
Proof.
  intros H.
  destruct (processTransactionWebhook_transactions amb db db' wd _ H)
    as [((e & E) & _) | (_ & [((t & Hin & Hid) & ->) | (_ & q & _ & _ & ->)])].
  - discriminate E.
  - exists (update_existing amb wd t). split; [apply in_map; exact Hin |].
    now rewrite update_existing_id.
  - eexists. split; [apply in_or_app; right; left; reflexivity | reflexivity].
Qed.

Lemma processTransactionWebhook_stats (amb : Ambient) (db db' : Database)
    (wd : WebhookData) (r : result Processed) :
  processTransactionWebhook amb db wd = (r, db') ->
  qr_daily_stats db' = qr_daily_stats db
  \/ status wd = "success"
     /\ exists qrCode,
          In qrCode (qr_codes db)
          /\ qr_identifier qrCode = wd_qr_identifier wd
          /\ qr_daily_stats db'
             = qr_daily_stats
                 (updateDailyStats amb db (merchant_id wd) (qr_id qrCode) (amount wd)).
Proof.
  unfold processTransactionWebhook.
  destruct (connection_error amb); [intros H; injection H as _ <-; now left |].
  destruct (filter _ (qr_codes db)) as [| qrCode ?] eqn:Hq;
    [intros H; injection H as _ <-; now left |].
  intros H. injection H as _ <-. cbn [qr_daily_stats].
  destruct (String.eqb_spec (status wd) "success") as [Hs | Hs].
  - right. split; [exact Hs |].
    destruct (filter_cons_in _ _ _ _ Hq) as [Hin Hid]. apply String.eqb_eq in Hid.
    exists qrCode. split; [exact Hin |]. split; [exact Hid |].
    destruct (filter _ (qr_transactions db)); reflexivity.
  - left. destruct (filter _ (qr_transactions db)); reflexivity.
Qed.

Lemma same_stats_key_iff (m : string) (q : Z) (d : string) (r : DailyStats) :
  same_stats_key m q d r = true <-> stats_key r = (m, q, d).
Proof.
  unfold same_stats_key, stats_key. rewrite !andb_true_iff, !String.eqb_eq, Z.eqb_eq.
  split; [intros [[-> ->] ->]; reflexivity | intros E; injection E as -> -> ->; auto].
Qed.

(** *** The daily counters *)



(** *** [processTransactionWebhook] on a transaction id seen for the first time *)


Lemma checkDuplicate_found (amb : Ambient) (db : Database) (transactionId merchantId : string) :
  query_error amb = None ->
  (exists t, In t (qr_transactions db)
             /\ tx_transaction_id t = transactionId /\ tx_merchant_id t = merchantId) ->
  checkDuplicate amb db transactionId merchantId = true.
Proof.
  intros Hq (t & Hin & Hid & Hm).
  unfold checkDuplicate, getTransactionDetails. rewrite Hq.
  destruct (filter _ (qr_transactions db)) as [| row rest] eqn:Hf; [| reflexivity].
  pose proof (filter_nil _ _ Hf t Hin) as Hfalse. cbn beta in Hfalse.
  rewrite Hid, Hm, !String.eqb_refl in Hfalse. discriminate Hfalse.
Qed.

(** One branch of [complete]: the service call is named, its outcome
    split, and the successful case handed back. *)
Ltac service_branch amb w Hdev :=
  unfold processSuccessfulTransaction, processFailedTransaction, save;
  rewrite Hdev;
  match goal with
  | |- context [processTransactionWebhook amb (db w) ?x] =>
      let wd := fresh "wd" in
      let Hp := fresh "Hp" in
      set (wd := x);
      destruct (processTransactionWebhook amb (db w) wd) as [[? | ?] ?] eqn:Hp;
      cbn [bind]; [| discriminate];
      let H := fresh "H" in
      intros H; injection H as <-; eexists wd, _; cbn [db emitRealtimeUpdate];
      repeat split; try reflexivity; exact Hp
  end.

(** What an accepted callback has done, outside development: one run of
    [processTransactionWebhook] for its transaction id and merchant. *)
Lemma complete_processed_inv (rt : Runtime) (env : Env) (amb : Ambient) (w w1 : World)
    (td : TransactionData) :
  development env = false ->
  complete rt env amb w td = (processed td, w1) ->
  exists wd r,
    processTransactionWebhook amb (db w) wd = (Ok r, db w1)
    /\ transaction_id wd = transactionId td
    /\ merchant_id wd = merchantId td
    /\ status wd = (if String.eqb (transactionStatus td) "SUCCESS"
                    then "success" else "failed").
Proof.
  intros Hdev. unfold complete.
  destruct (validateAmount (EncryptionUtil.amount td)); [| discriminate].
  destruct (validateTimestamp rt env amb (transactionDateTime td)); [| discriminate].
  destruct (String.eqb (transactionStatus td) "SUCCESS"); service_branch amb w Hdev.
Qed.

(** *** The row of a day *)













(** The same double count without any interleaving: the second delivery
    arrives while the lookup of [checkDuplicate] throws. *)
Lemma redelivery_during_lookup_failure_counts_twice :
  exists r w2,
    webhook clear_text production (lookup_down "u2") recorded (request sample_fields)
      = (r, w2)
    /\ http_status r = 200%nat /\ isDuplicate r = false
    /\ total_transactions_on (db recorded) "HDFC000010380443" "2024-01-01" = 1%Z
    /\ total_transactions_on (db w2) "HDFC000010380443" "2024-01-01" = 2%Z.
Proof.
  eexists. eexists. split; [vm_compute; reflexivity |].
  repeat split; reflexivity.
Qed.

(** *** Status changes *)

Lemma initiateRefund_ok (amb : Ambient) (db db' : Database) (transactionId : string)
    (refundData : RefundData) (initiatedBy : string) (r : Refunded) :
  initiateRefund amb db transactionId refundData initiatedBy = (Ok r, db') ->
  (exists t, In t (qr_transactions db)
             /\ tx_transaction_id t = transactionId /\ tx_status t = "success")
  /\ (forall t', In t' (qr_transactions db') -> tx_transaction_id t' = transactionId ->
      tx_status t' = "refunded" \/ tx_status t' = "partial_refunded")
  /\ (forall t', In t' (qr_transactions db') -> tx_transaction_id t' <> transactionId ->
      In t' (qr_transactions db)).
Proof.
  unfold initiateRefund.
  destruct (connection_error amb); [discriminate |].
  destruct (filter _ (qr_transactions db)) as [| txn rest] eqn:Hf; [discriminate |].
  destruct (JS.gt _ (tx_amount txn)); [discriminate |].
  intros H. injection H as _ <-. cbn [qr_transactions].
  destruct (filter_cons_in _ _ _ _ Hf) as [Hin Hok].
  apply andb_true_iff in Hok. destruct Hok as [Hid Hst].
  apply String.eqb_eq in Hid. apply String.eqb_eq in Hst.
  split; [exists txn; auto |].
  split; intros t' Hin' Hid'; apply in_map_iff in Hin';
    destruct Hin' as (t & <- & Ht); unfold mark_refunded in *;
    destruct (String.eqb (tx_transaction_id t) transactionId) eqn:E.
  - cbn [tx_status]. destruct (String.eqb (refund_type refundData) "full"); auto.
  - apply String.eqb_neq in E. contradiction.
  - apply String.eqb_eq in E. cbn [tx_transaction_id] in Hid'. contradiction.
  - exact Ht.
Qed.

Lemma initiateRefund_rejects (amb : Ambient) (db : Database) (transactionId : string)
    (refundData : RefundData) (initiatedBy : string) :
  (forall t, In t (qr_transactions db) -> tx_transaction_id t = transactionId ->
             tx_status t <> "success") ->
  exists e, initiateRefund amb db transactionId refundData initiatedBy = (Throw e, db).
Proof.
  intros Hno. unfold initiateRefund.
  destruct (connection_error amb) as [e |]; [exists e; reflexivity |].
  destruct (filter _ (qr_transactions db)) as [| txn rest] eqn:Hf;
    [eexists; reflexivity |].
  destruct (filter_cons_in _ _ _ _ Hf) as [Hin Hok].
  apply andb_true_iff in Hok. destruct Hok as [Hid Hst].
  apply String.eqb_eq in Hid. apply String.eqb_eq in Hst.
  exfalso. exact (Hno txn Hin Hid Hst).
Qed.

Lemma processTransactionWebhook_sets_status (amb : Ambient) (db db' : Database)
    (wd : WebhookData) (r : Processed) :
  processTransactionWebhook amb db wd = (Ok r, db') ->
  forall t', In t' (qr_transactions db') ->
             tx_transaction_id t' = transaction_id wd -> tx_status t' = status wd.
Proof.
  unfold processTransactionWebhook.
  destruct (connection_error amb); [discriminate |].
  destruct (filter _ (qr_codes db)) as [| qrCode ?]; [discriminate |].
  intros H. injection H as _ <-. cbn [qr_transactions].
  assert (Hsame : forall d, qr_transactions
                    (if String.eqb (status wd) "success"
                     then updateDailyStats amb d (merchant_id wd) (qr_id qrCode) (amount wd)
                     else d) = qr_transactions d)
    by (intros d; destruct (String.eqb (status wd) "success"); reflexivity).
  rewrite Hsame. clear Hsame.
  destruct (filter _ (qr_transactions db)) as [| t0 ?] eqn:Hex; cbn [qr_transactions];
    intros t' Hin Hid.
  - apply in_app_or in Hin. destruct Hin as [Hin | [<- | []]]; [| reflexivity].
    pose proof (filter_nil _ _ Hex t' Hin) as Hf. cbn beta in Hf.
    rewrite Hid, String.eqb_refl in Hf. discriminate Hf.
  - apply in_map_iff in Hin. destruct Hin as (t & <- & Ht).
    unfold update_existing in *.
    destruct (String.eqb (tx_transaction_id t) (transaction_id wd)) eqn:E;
      [reflexivity |].
    apply String.eqb_neq in E. contradiction.
Qed.

Lemma unique_row {A B : Type} (f : A -> B) (l : list A) (a b : A) :
  NoDup (map f l) -> In a l -> In b l -> f a = f b -> a = b.
Proof.
  induction l as [| x l IH]; cbn [map]; intros N Ha Hb E; [destruct Ha |].
  inversion N as [| ? ? Hx N']; subst.
  destruct Ha as [-> | Ha], Hb as [-> | Hb].
  - reflexivity.
  - exfalso. apply Hx. rewrite E. now apply in_map.
  - exfalso. apply Hx. rewrite <- E. now apply in_map.
  - now apply IH.
Qed.

(** An accepted refund, row by row: the rows with the id are left in the
    status of the refund type, the other rows are the same, and no row
    is added or removed. *)
Lemma initiateRefund_rows (amb : Ambient) (db db' : Database) (transactionId : string)
    (refundData : RefundData) (initiatedBy : string) (r : Refunded) :
  initiateRefund amb db transactionId refundData initiatedBy = (Ok r, db') ->
  (forall t', In t' (qr_transactions db') -> tx_transaction_id t' = transactionId ->
      tx_status t' = if String.eqb (refund_type refundData) "full"
                     then "refunded" else "partial_refunded")
  /\ (forall t', tx_transaction_id t' <> transactionId ->
      (In t' (qr_transactions db') <-> In t' (qr_transactions db)))
  /\ map tx_transaction_id (qr_transactions db')
     = map tx_transaction_id (qr_transactions db).
Proof.
  unfold initiateRefund.
  destruct (connection_error amb); [discriminate |].
  destruct (filter _ (qr_transactions db)) as [| txn rest] eqn:Hf; [discriminate |].
  destruct (JS.gt _ (tx_amount txn)); [discriminate |].
  intros H. injection H as _ <-. cbn [qr_transactions].
  split; [| split].
  - intros t' Hin' Hid'. apply in_map_iff in Hin'. destruct Hin' as (t & <- & Ht).
    unfold mark_refunded in *.
    destruct (String.eqb (tx_transaction_id t) transactionId) eqn:E; [reflexivity |].
    apply String.eqb_neq in E. contradiction.
  - intros t' Hid'. split.
    + intros Hin'. apply in_map_iff in Hin'. destruct Hin' as (t & <- & Ht).
      unfold mark_refunded in *.
      destruct (String.eqb (tx_transaction_id t) transactionId) eqn:E; [| exact Ht].
      apply String.eqb_eq in E. cbn [tx_transaction_id] in Hid'. contradiction.
    + intros Hin. apply in_map_iff. exists t'. split; [| exact Hin].
      unfold mark_refunded. apply String.eqb_neq in Hid'. now rewrite Hid'.
  - rewrite map_map. apply map_ext. intros t. unfold mark_refunded.
    now destruct (String.eqb (tx_transaction_id t) transactionId).
Qed.

Lemma gt_irrefl (x : JS.Number) : JS.gt x x = false.
Proof.
  unfold JS.gt, SFltb. destruct (SFcompare x x) as [c |] eqn:E; [| reflexivity].
  pose proof (@Numbers.SFcompare_swap _ _ _ E) as E'. rewrite E in E'.
  injection E' as E'. destruct c; try reflexivity; discriminate E'.
Qed.

(** A refund of a transaction in [success] is accepted when the
    connection is there and the amount is not above the transaction's: a
    full refund always, another one when the amount asked is not
    greater. *)
Lemma initiateRefund_accepts (amb : Ambient) (db : Database) (transactionId : string)
    (refundData : RefundData) (initiatedBy : string) :
  connection_error amb = None ->
  (exists t, In t (qr_transactions db)
             /\ tx_transaction_id t = transactionId /\ tx_status t = "success") ->
  (refund_type refundData = "full"
   \/ forall t, In t (qr_transactions db) -> tx_transaction_id t = transactionId ->
                JS.gt (refund_amount refundData) (tx_amount t) = false) ->
  exists r db',
    initiateRefund amb db transactionId refundData initiatedBy = (Ok r, db').
Proof.
  intros Hc (t & Hin & Hid & Hst) Hamount. unfold initiateRefund. rewrite Hc.
  destruct (filter _ (qr_transactions db)) as [| txn rest] eqn:Hf.
  - pose proof (filter_nil _ _ Hf t Hin) as Hfalse. cbn beta in Hfalse.
    rewrite Hid, Hst, !String.eqb_refl in Hfalse. discriminate Hfalse.
  - destruct (filter_cons_in _ _ _ _ Hf) as [Hin' Hok].
    apply andb_true_iff in Hok. destruct Hok as [Hid' _]. apply String.eqb_eq in Hid'.
    assert (G : JS.gt (if String.eqb (refund_type refundData) "full"
                       then tx_amount txn else refund_amount refundData)
                      (tx_amount txn) = false).
    { destruct (String.eqb_spec (refund_type refundData) "full") as [F | F].
      - apply gt_irrefl.
      - destruct Hamount as [F' | Ha]; [contradiction | exact (Ha txn Hin' Hid')]. }
    rewrite G. eexists. eexists. reflexivity.
Qed.

(** [processTransactionWebhook] returns whenever the connection is there
    and the QR code is known: nothing else is looked at. *)
Lemma processTransactionWebhook_accepts (amb : Ambient) (db : Database) (wd : WebhookData) :
  connection_error amb = None ->
  (exists q, In q (qr_codes db) /\ qr_identifier q = wd_qr_identifier wd) ->
  exists db',
    processTransactionWebhook amb db wd
    = (Ok {| processed_transaction_id := transaction_id wd;
             processed_status := "processed" |}, db').
Proof.
  intros Hc (q & Hin & Hid). unfold processTransactionWebhook. rewrite Hc.
  destruct (filter _ (qr_codes db)) as [| qrCode ?] eqn:Hq.
  - pose proof (filter_nil _ _ Hq q Hin) as Hfalse. cbn beta in Hfalse.
    rewrite Hid, String.eqb_refl in Hfalse. discriminate Hfalse.
  - eexists. reflexivity.
Qed.

(** The two errors of [processTransactionWebhook]: the connection, and
    the QR code. *)
Lemma processTransactionWebhook_errors (amb : Ambient) (db db' : Database)
    (wd : WebhookData) (e : JsError) :
  processTransactionWebhook amb db wd = (Throw e, db') ->
  db' = db
  /\ (connection_error amb = Some e
      \/ e = Error "Invalid QR code"
         /\ forall q, In q (qr_codes db) -> qr_identifier q <> wd_qr_identifier wd).
Proof.
  unfold processTransactionWebhook.
  destruct (connection_error amb) as [e' |];
    [intros H; injection H as <- <-; split; [reflexivity | now left] |].
  destruct (filter _ (qr_codes db)) as [| qrCode ?] eqn:Hq; [| discriminate].
  intros H. injection H as <- <-. split; [reflexivity |]. right. split; [reflexivity |].
  intros q Hin Hid. pose proof (filter_nil _ _ Hq q Hin) as Hfalse. cbn beta in Hfalse.
  rewrite Hid, String.eqb_refl in Hfalse. discriminate Hfalse.
Qed.

(** The rows after a call that returns: those of another id are the
    same; for the id of the callback there is a row, inserted when there
    was none. *)
Lemma processTransactionWebhook_rows (amb : Ambient) (db db' : Database)
    (wd : WebhookData) (p : Processed) :
  processTransactionWebhook amb db wd = (Ok p, db') ->
  (forall t', tx_transaction_id t' <> transaction_id wd ->
      (In t' (qr_transactions db') <-> In t' (qr_transactions db)))
  /\ ((exists t, In t (qr_transactions db) /\ tx_transaction_id t = transaction_id wd) ->
      map tx_transaction_id (qr_transactions db')
      = map tx_transaction_id (qr_transactions db))
  /\ ((forall t, In t (qr_transactions db) -> tx_transaction_id t <> transaction_id wd) ->
      exists t',
        qr_transactions db' = (qr_transactions db ++ [t'])%list
        /\ tx_transaction_id t' = transaction_id wd
        /\ tx_merchant_id t' = merchant_id wd
        /\ tx_amount t' = amount wd
        /\ tx_status t' = status wd).
Proof.
  intros H.
  destruct (processTransactionWebhook_transactions amb db db' wd _ H)
    as [((e & E) & _) | (_ & [((t & Hin & Hid) & ->) | (Hnew & q & _ & _ & ->)])];
    [discriminate E | |].
  - split; [| split].
    + intros t' Hid'. split.
      * intros Hin'. apply in_map_iff in Hin'. destruct Hin' as (t0 & <- & Ht0).
        unfold update_existing in *.
        destruct (String.eqb (tx_transaction_id t0) (transaction_id wd)) eqn:E;
          [| exact Ht0].
        apply String.eqb_eq in E. cbn [tx_transaction_id] in Hid'. contradiction.
      * intros Hin'. apply in_map_iff. exists t'. split; [| exact Hin'].
        unfold update_existing. apply String.eqb_neq in Hid'. now rewrite Hid'.
    + intros _. rewrite map_map. apply map_ext. intros t0. apply update_existing_id.
    + intros Hnew. exfalso. exact (Hnew t Hin Hid).
  - split; [| split].
    + intros t' Hid'. split.
      * intros Hin'. apply in_app_or in Hin'. destruct Hin' as [Hin' | [<- | []]];
          [exact Hin' |]. cbn [new_transaction tx_transaction_id] in Hid'. congruence.
      * intros Hin'. apply in_or_app. now left.
    + intros (t & Hin & Hid). exfalso. exact (Hnew t Hin Hid).
    + intros _. eexists. split; [reflexivity |]. repeat split; reflexivity.
Qed.

(** C2 as the code has it.  [initiateRefund]: an accepted refund found
    the transaction in [success] and leaves it in [refunded] when the
    refund is full, in [partial_refunded] otherwise, the other
    transactions as they were; a refund of a transaction in [success]
    for an amount not above its own is accepted; a refund with no
    transaction in [success] throws and changes nothing.
    [processTransactionWebhook] checks no transition: with a connection
    and a known QR code it returns whatever is stored, leaving the
    transaction in the status the callback reports, inserted in that
    status when the id is new; its only errors are the connection's and
    [Invalid QR code]. *)
Theorem status_changes_of_the_engine :
  (forall amb db db' transactionId refundData initiatedBy r,
      initiateRefund amb db transactionId refundData initiatedBy = (Ok r, db') ->
      (exists t, In t (qr_transactions db)
                 /\ tx_transaction_id t = transactionId /\ tx_status t = "success")
      /\ (NoDup (map tx_transaction_id (qr_transactions db)) ->
          forall t, In t (qr_transactions db) -> tx_transaction_id t = transactionId ->
                    tx_status t = "success")
      /\ (forall t', In t' (qr_transactions db') -> tx_transaction_id t' = transactionId ->
          tx_status t' = if String.eqb (refund_type refundData) "full"
                         then "refunded" else "partial_refunded")
      /\ (forall t', tx_transaction_id t' <> transactionId ->
          (In t' (qr_transactions db') <-> In t' (qr_transactions db)))
      /\ map tx_transaction_id (qr_transactions db')
         = map tx_transaction_id (qr_transactions db))
  /\ (forall amb db transactionId refundData initiatedBy,
        connection_error amb = None ->
        (exists t, In t (qr_transactions db)
                   /\ tx_transaction_id t = transactionId /\ tx_status t = "success") ->
        (refund_type refundData = "full"
         \/ forall t, In t (qr_transactions db) -> tx_transaction_id t = transactionId ->
                      JS.gt (refund_amount refundData) (tx_amount t) = false) ->
        exists r db',
          initiateRefund amb db transactionId refundData initiatedBy = (Ok r, db'))
  /\ (forall amb db transactionId refundData initiatedBy,
        (forall t, In t (qr_transactions db) -> tx_transaction_id t = transactionId ->
                   tx_status t <> "success") ->
        exists e, initiateRefund amb db transactionId refundData initiatedBy = (Throw e, db))
  /\ (forall amb db wd,
        connection_error amb = None ->
        (exists q, In q (qr_codes db) /\ qr_identifier q = wd_qr_identifier wd) ->
        exists db',
          processTransactionWebhook amb db wd
          = (Ok {| processed_transaction_id := transaction_id wd;
                   processed_status := "processed" |}, db')
          /\ (exists t', In t' (qr_transactions db')
                         /\ tx_transaction_id t' = transaction_id wd)
          /\ (forall t', In t' (qr_transactions db') ->
                         tx_transaction_id t' = transaction_id wd ->
                         tx_status t' = status wd)
          /\ (forall t', tx_transaction_id t' <> transaction_id wd ->
                         (In t' (qr_transactions db') <-> In t' (qr_transactions db)))
          /\ ((exists t, In t (qr_transactions db)
                         /\ tx_transaction_id t = transaction_id wd) ->
              map tx_transaction_id (qr_transactions db')
              = map tx_transaction_id (qr_transactions db))
          /\ ((forall t, In t (qr_transactions db) ->
                         tx_transaction_id t <> transaction_id wd) ->
              exists t',
                qr_transactions db' = (qr_transactions db ++ [t'])%list
                /\ tx_transaction_id t' = transaction_id wd
                /\ tx_merchant_id t' = merchant_id wd
                /\ tx_amount t' = amount wd
                /\ tx_status t' = status wd))
  /\ (forall amb db db' wd e,
        processTransactionWebhook amb db wd = (Throw e, db') ->
        db' = db
        /\ (connection_error amb = Some e
            \/ e = Error "Invalid QR code"
               /\ forall q, In q (qr_codes db) ->
                            qr_identifier q <> wd_qr_identifier wd)).
Proof.
  split; [| split; [| split; [| split]]].
  - intros amb db db' transactionId refundData initiatedBy r H.
    destruct (initiateRefund_ok amb db db' transactionId refundData initiatedBy r H)
      as ((t & Hin & Hid & Hst) & _).
    destruct (initiateRefund_rows amb db db' transactionId refundData initiatedBy r H)
      as (H1 & H2 & H3).
    split; [now exists t |]. split; [| auto].
    intros N t0 Hin0 Hid0.
    rewrite (unique_row tx_transaction_id _ t0 t N Hin0 Hin); [exact Hst | congruence].
  - intros amb db transactionId refundData initiatedBy.
    apply initiateRefund_accepts.
  - intros amb db transactionId refundData initiatedBy.
    apply initiateRefund_rejects.
  - intros amb db wd Hc Hq.
    destruct (processTransactionWebhook_accepts amb db wd Hc Hq) as [db' H].
    exists db'. split; [exact H |].
    split; [exact (processTransactionWebhook_records _ _ _ _ _ H) |].
    split; [exact (processTransactionWebhook_sets_status amb db db' wd _ H) |].
    exact (processTransactionWebhook_rows amb db db' wd _ H).
  - intros amb db db' wd e. apply processTransactionWebhook_errors.
Qed.

Example full_refund_of_a_success :
  exists r db',
    initiateRefund (quiet "u3") (db recorded) "TXN1"
      {| refund_type := "full"; refund_amount := JS.of_Z 100; reason := "returned" |}
      "admin" = (Ok r, db')
    /\ map tx_status (qr_transactions db') = ["refunded"]
    /\ exists e, initiateRefund (quiet "u4") db' "TXN1"
                   {| refund_type := "full"; refund_amount := JS.of_Z 100;
                      reason := "returned" |} "admin" = (Throw e, db').
Proof.
  eexists. eexists. split; [vm_compute; reflexivity |].
  split; [reflexivity |]. eexists. vm_compute. reflexivity.
Qed.

(** C2 as stated fails: a callback reporting [failed] for a transaction
    recorded as [success] is not rejected; the stored status becomes
    [failed]. *)
Lemma success_overwritten_by_failed :
  map tx_status (qr_transactions (db recorded)) = ["success"]
  /\ exists r db',
       processTransactionWebhook (quiet "u2") (db recorded) failed_callback = (Ok r, db')
       /\ map tx_status (qr_transactions db') = ["failed"].
Proof.
  split; [reflexivity |]. eexists. eexists. split; [vm_compute; reflexivity |].
  reflexivity.
Qed.

End Reconciliation.

(** ** Texts: [split], [join], [substring] *)

Module Strings.

Lemma length_append (s t : string) :
  String.length (s ++ t) = (String.length s + String.length t)%nat.
Proof. induction s as [| c s IH]; cbn; [reflexivity | now rewrite IH]. Qed.

Lemma append_assoc (s t u : string) : (s ++ t) ++ u = s ++ t ++ u.
Proof. induction s as [| c s IH]; cbn; [reflexivity | now rewrite IH]. Qed.

Lemma append_nil_r (s : string) : s ++ "" = s.
Proof. induction s as [| c s IH]; cbn; [reflexivity | now rewrite IH]. Qed.

Lemma substring_0_append (s t : string) :
  String.substring 0 (String.length s) (s ++ t) = s.
Proof. induction s as [| c s IH]; cbn; [now destruct t | now rewrite IH]. Qed.

Lemma substring_skip (c : ascii) (n m : nat) (s : string) :
  String.substring (S n) m (String c s) = String.substring n m s.
Proof. reflexivity. Qed.

(** [split] undoes [join] on texts free of the separator. *)
Lemma split_free (sep : ascii) (s : string) :
  Text.occurrences sep s = 0%nat -> JS.split sep s = [s].
Proof.
  induction s as [| c s IH]; cbn [Text.occurrences JS.split]; [reflexivity |].
  destruct (Ascii.eqb c sep); [discriminate |].
  cbn [Nat.add]. intros H. rewrite (IH H). reflexivity.
Qed.

Lemma split_append_sep (sep : ascii) (s t : string) :
  Text.occurrences sep s = 0%nat ->
  JS.split sep (s ++ String sep t) = s :: JS.split sep t.
Proof.
  induction s as [| c s IH]; cbn [Text.occurrences JS.split append].
  - intros _. rewrite Ascii.eqb_refl. reflexivity.
  - destruct (Ascii.eqb c sep); [discriminate |].
    cbn [Nat.add]. intros H. rewrite (IH H). reflexivity.
Qed.

Lemma split_join (sep : ascii) (fields : list string) :
  fields <> [] ->
  Forall (fun f => Text.occurrences sep f = 0%nat) fields ->
  JS.split sep (JS.join (String sep EmptyString) fields) = fields.
Proof.
  induction fields as [| f [| g rest] IH]; intros Hne F; [congruence | |].
  - cbn [JS.join]. apply split_free. now inversion F.
  - inversion_clear F as [| ? ? Hf F'].
    change (JS.join (String sep "") (f :: g :: rest))
      with (f ++ String sep (JS.join (String sep "") (g :: rest))).
    rewrite (split_append_sep _ _ _ Hf). f_equal. apply IH; [discriminate | exact F'].
Qed.

(** A text splits into one field more than it has separators. *)
Lemma split_length (sep : ascii) (s : string) :
  List.length (JS.split sep s) = S (Text.occurrences sep s).
Proof.
  induction s as [| c s IH]; cbn [Text.occurrences JS.split]; [reflexivity |].
  destruct (Ascii.eqb c sep).
  - cbn [List.length Nat.add]. now rewrite IH.
  - cbn [Nat.add]. destruct (JS.split sep s) eqn:E; cbn [List.length] in *; lia.
Qed.

End Strings.

(** ** The reference of a callback *)

Module Reference.
Import Webhook Strings.

Lemma prefix_append (p s : string) : prefix p (p ++ s) = true.
Proof.
  induction p as [| c p IH]; cbn [append prefix]; [now destruct s |].
  destruct (ascii_dec c c); [exact IH | congruence].
Qed.

Lemma extractQRIdentifier_tag (tag rest : string) :
  tag = "STQ" \/ tag = "DYN" ->
  extractQRIdentifier (tag ++ rest)
  = JS.substring 3 (Z.of_nat (String.length (tag ++ rest)) - 13) (tag ++ rest).
Proof.
  unfold extractQRIdentifier, JS.startsWith.
  intros [-> | ->].
  - now rewrite prefix_append.
  - rewrite (prefix_append "DYN").
    replace (prefix "STQ" ("DYN" ++ rest)) with false; [reflexivity |].
    cbn [append prefix]. now destruct (ascii_dec "S" "D").
Qed.

Lemma extractQRIdentifier_tagged (tag identifier timestamp : string) :
  tag = "STQ" \/ tag = "DYN" ->
  String.length timestamp = 13%nat ->
  extractQRIdentifier (tag ++ identifier ++ timestamp) = identifier.
Proof.
  intros Htag Hlen.
  rewrite (extractQRIdentifier_tag _ _ Htag). unfold JS.substring.
  rewrite !length_append, Hlen.
  assert (L3 : String.length tag = 3%nat) by (destruct Htag as [-> | ->]; reflexivity).
  rewrite L3.
  replace (Z.max 0 (Z.min 3 (Z.of_nat (3 + (String.length identifier + 13))))) with 3%Z by lia.
  replace (Z.max 0 (Z.min (Z.of_nat (3 + (String.length identifier + 13)) - 13)
                          (Z.of_nat (3 + (String.length identifier + 13)))))
    with (Z.of_nat (3 + String.length identifier)) by lia.
  replace (Z.to_nat (Z.min 3 (Z.of_nat (3 + String.length identifier)))) with 3%nat by lia.
  replace (Z.to_nat (Z.max 3 (Z.of_nat (3 + String.length identifier))
                     - Z.min 3 (Z.of_nat (3 + String.length identifier))))
    with (String.length identifier) by lia.
  destruct Htag as [-> | ->]; cbn [append]; rewrite !substring_skip;
    apply substring_0_append.
Qed.

(** X1: the reference [STQ{identifier}{timestamp}] or
    [DYN{identifier}{timestamp}] with a timestamp of thirteen characters
    gives back the identifier, whatever the identifier is. *)
Theorem extractQRIdentifier_roundtrip (tag identifier timestamp : string) :
  tag = "STQ" \/ tag = "DYN" ->
  String.length timestamp = 13%nat ->
  extractQRIdentifier (tag ++ identifier ++ timestamp) = identifier.
Proof. apply extractQRIdentifier_tagged. Qed.

Lemma extractQRIdentifier_roundtrip_witness :
  extractQRIdentifier ("DYN" ++ "K7Q2M" ++ "1700000000000") = "K7Q2M".
Proof.
  apply extractQRIdentifier_roundtrip; [right; reflexivity | reflexivity].
Defined.

(** X2: a tagged reference of at most thirteen characters is too short to
    hold a timestamp: the indices of [substring] are clamped and swapped,
    and the result is the tag itself. *)
Theorem extractQRIdentifier_short_reference (tag rest : string) :
  tag = "STQ" \/ tag = "DYN" ->
  (String.length rest <= 10)%nat ->
  extractQRIdentifier (tag ++ rest) = tag.
Proof.
  intros Htag Hlen.
  rewrite (extractQRIdentifier_tag _ _ Htag). unfold JS.substring. rewrite !length_append.
  assert (L3 : String.length tag = 3%nat) by (destruct Htag as [-> | ->]; reflexivity).
  rewrite L3.
  replace (Z.max 0 (Z.min 3 (Z.of_nat (3 + String.length rest)))) with 3%Z by lia.
  replace (Z.max 0 (Z.min (Z.of_nat (3 + String.length rest) - 13)
                          (Z.of_nat (3 + String.length rest)))) with 0%Z by lia.
  change (Z.to_nat (Z.min 3 0)) with 0%nat.
  change (Z.to_nat (Z.max 3 0 - Z.min 3 0)) with 3%nat.
  destruct Htag as [-> | ->];
    [apply (substring_0_append "STQ") | apply (substring_0_append "DYN")].
Qed.

Lemma extractQRIdentifier_short_reference_witness :
  extractQRIdentifier ("STQ" ++ "001") = "STQ".
Proof.
  apply extractQRIdentifier_short_reference; [left; reflexivity | cbn; lia].
Defined.

End Reference.

(** ** The two validators of [VPAService] *)

Module VPAValidators.
Import VPAService.

Lemma regex_test_length (r : list atom) (s : string) :
  regex_test r s = true -> String.length s = List.length r.
Proof.
  revert s. induction r as [| a r IH]; intros [| c s]; cbn [regex_test]; try discriminate.
  - reflexivity.
  - intros H. apply andb_true_iff in H. destruct H as [_ H].
    cbn [String.length List.length]. f_equal. apply IH. exact H.
Qed.

Lemma validateVPAFormat_formatVPA (identifier : string) :
  validateVPAFormat (formatVPA identifier) = validateIdentifierFormat identifier.
Proof.
  destruct (validateIdentifierFormat identifier) eqn:V.
  - destruct (VPACodec.valid_identifier_shape identifier V)
      as (c1 & c2 & c3 & c4 & c5 & -> & F).
    inversion_clear F as [| ? ? H1 F1]. inversion_clear F1 as [| ? ? H2 F2].
    inversion_clear F2 as [| ? ? H3 F3]. inversion_clear F3 as [| ? ? H4 F4].
    inversion_clear F4 as [| ? ? H5 _].
    unfold validateVPAFormat, vpa_regex, formatVPA.
    cbn -[atom_matches]. rewrite H1, H2, H3, H4, H5. reflexivity.
  - destruct (validateVPAFormat (formatVPA identifier)) eqn:W; [| reflexivity].
    exfalso.
    pose proof (regex_test_length _ _ W) as L.
    unfold formatVPA in L. rewrite !Strings.length_append in L. cbn in L.
    assert (L5 : String.length identifier = 5%nat) by lia.
    destruct identifier as [| c1 [| c2 [| c3 [| c4 [| c5 [| c6 r]]]]]];
      try discriminate L5.
    unfold validateVPAFormat, vpa_regex, formatVPA in W.
    cbn -[atom_matches] in W.
    unfold validateIdentifierFormat in V.
    cbn [String.length Nat.eqb orb negb IDENTIFIER_LENGTH all_chars] in V.
    rewrite !VPACodec.alphabet_is_class in V.
    destruct (atom_matches UpperOrDigit c1), (atom_matches UpperOrDigit c2),
      (atom_matches UpperOrDigit c3), (atom_matches UpperOrDigit c4),
      (atom_matches UpperOrDigit c5); cbn in V, W; discriminate.
Qed.

(** X3: the two validators agree through [formatVPA]: the address built
    from a text is accepted by [validateVPAFormat] exactly when the text
    is accepted by [validateIdentifierFormat]. *)
Theorem validators_agree_through_formatVPA (identifier : string) :
  validateVPAFormat (formatVPA identifier) = validateIdentifierFormat identifier.
Proof. apply validateVPAFormat_formatVPA. Qed.

(** X4: what [extractIdentifier] returns is a valid identifier, and the
    address [formatVPA] builds from it is read back to it. *)
Theorem extracted_identifier_is_valid (vpa c : string) :
  extractIdentifier vpa = Ok c ->
  validateIdentifierFormat c = true /\ extractIdentifier (formatVPA c) = Ok c.
Proof.
  intros H.
  assert (V : validateIdentifierFormat c = true).
  { unfold extractIdentifier in H.
    destruct (validateVPAFormat vpa) eqn:W; cbn [negb] in H; [| discriminate].
    destruct (VPACodec.validateVPAFormat_shape vpa W)
      as (x & c1 & c2 & c3 & c4 & c5 & -> & _ & F).
    cbn in H. injection H as <-.
    inversion_clear F as [| ? ? H1 F1]. inversion_clear F1 as [| ? ? H2 F2].
    inversion_clear F2 as [| ? ? H3 F3]. inversion_clear F3 as [| ? ? H4 F4].
    inversion_clear F4 as [| ? ? H5 _].
    unfold validateIdentifierFormat.
    cbn [String.length Nat.eqb orb negb IDENTIFIER_LENGTH all_chars].
    rewrite !VPACodec.alphabet_is_class, H1, H2, H3, H4, H5. reflexivity. }
  split; [exact V |].
  unfold extractIdentifier. rewrite validateVPAFormat_formatVPA, V. cbn [negb].
  destruct (VPACodec.valid_identifier_shape c V) as (c1 & c2 & c3 & c4 & c5 & -> & _).
  reflexivity.
Qed.

Lemma extracted_identifier_is_valid_witness :
  extractIdentifier "sabpaisaXABCDE@okhdfcbank" = Ok "ABCDE"
  /\ validateIdentifierFormat "ABCDE" = true
  /\ extractIdentifier (formatVPA "ABCDE") = Ok "ABCDE".
Proof.
  split; [reflexivity |].
  exact (extracted_identifier_is_valid "sabpaisaXABCDE@okhdfcbank" "ABCDE" eq_refl).
Defined.

End VPAValidators.

(** ** The text of a Number *)

Module NumberText.
Import Text.

Lemma characters_append (s t : string) :
  characters (s ++ t) = (characters s ++ characters t)%list.
Proof. induction s as [| c s IH]; cbn; [reflexivity | now rewrite IH]. Qed.

Lemma characters_substring (P : ascii -> Prop) (s : string) :
  Forall P (characters s) -> forall n m, Forall P (characters (String.substring n m s)).
Proof.
  induction s as [| c s IH]; intros F n m.
  - destruct n, m; constructor.
  - inversion_clear F as [| ? ? Hc F'].
    destruct n as [| n]; [destruct m as [| m] |]; cbn [String.substring characters].
    + constructor.
    + constructor; [exact Hc | apply IH; exact F'].
    + apply IH; exact F'.
Qed.

Lemma occurrences_absent (P : ascii -> Prop) (c : ascii) (s : string) :
  ~ P c -> Forall P (characters s) -> occurrences c s = 0%nat.
Proof.
  intros Hc. induction s as [| d s IH]; cbn [characters occurrences]; [reflexivity |].
  intros F. inversion_clear F as [| ? ? Hd F'].
  destruct (Ascii.eqb_spec d c) as [-> | _]; [contradiction |].
  cbn [Nat.add]. apply IH. exact F'.
Qed.

Lemma occurrences_append (c : ascii) (s t : string) :
  occurrences c (s ++ t) = (occurrences c s + occurrences c t)%nat.
Proof. induction s as [| d s IH]; cbn; [reflexivity | rewrite IH; lia]. Qed.


Lemma string_of_uint_digits (u : Decimal.uint) :
  number_text (NilZero.string_of_uint u).
Proof.
  unfold number_text.
  assert (E : forall v, Forall (fun c => number_char c = true)
                               (characters (NilEmpty.string_of_uint v))).
  { induction v; cbn [NilEmpty.string_of_uint characters];
      constructor; first [assumption | reflexivity]. }
  destruct u; try apply E.
  repeat constructor.
Qed.

Lemma decimal_string_chars (z : Z) : number_text (JS.decimal_string z).
Proof. apply string_of_uint_digits. Qed.

Lemma zeros_chars (n : nat) : number_text (JS.zeros n).
Proof.
  unfold number_text.
  induction n; cbn [JS.zeros characters]; constructor; [reflexivity | assumption].
Qed.

Lemma literal_chars (s : string) :
  forallb number_char (characters s) = true -> number_text s.
Proof. intros H. unfold number_text. apply Forall_forall. apply forallb_forall. exact H. Qed.

Lemma number_text_append (s t : string) :
  number_text s -> number_text t -> number_text (s ++ t).
Proof.
  unfold number_text. intros Hs Ht. rewrite characters_append. apply Forall_app. now split.
Qed.

Lemma number_text_substring (s : string) (n m : nat) :
  number_text s -> number_text (String.substring n m s).
Proof. intros H. apply characters_substring. exact H. Qed.

Ltac chars :=
  repeat apply number_text_append;
  first [ apply decimal_string_chars | apply zeros_chars
        | apply number_text_substring; apply decimal_string_chars
        | apply literal_chars; reflexivity ].

Lemma format_digits_chars (n k s : Z) :
  number_text (JS.format_digits n k (JS.decimal_string s)).
Proof.
  unfold JS.format_digits.
  destruct ((k <=? n) && (n <=? 21))%Z; [chars |].
  destruct ((0 <? n) && (n <=? 21))%Z; [chars |].
  destruct ((-6 <? n) && (n <=? 0))%Z; [chars |].
  destruct (k =? 1)%Z; destruct (0 <=? n - 1)%Z; chars.
Qed.

Lemma Number_toString_chars (x : JS.Number) :
  number_text (JS.Number_toString x).
Proof.
  destruct x as [s | s | | s m e]; cbn [JS.Number_toString].
  - apply literal_chars; reflexivity.
  - destruct s; apply literal_chars; reflexivity.
  - apply literal_chars; reflexivity.
  - destruct (JS.shortest _ _ _ _ _) as [[n k] d].
    apply number_text_append.
    + destruct s; apply literal_chars; reflexivity.
    + apply format_digits_chars.
Qed.

Lemma Number_toString_without (c : ascii) (x : JS.Number) :
  number_char c = false -> occurrences c (JS.Number_toString x) = 0%nat.
Proof.
  intros H. apply (occurrences_absent (fun c => number_char c = true));
    [congruence | apply Number_toString_chars].
Qed.

End NumberText.

(** ** Payloads: pipes and fields *)

Module Payload.
Import EncryptionUtil Text Strings NumberText WebhookTest.

(** X5: the parser accepts a plaintext exactly when it holds twenty
    pipes; empty fields are fields. *)
Theorem parseHDFCResponse_counts_pipes (decryptedData : string) :
  (exists td, parseHDFCResponse decryptedData = Ok td)
  <-> occurrences "|" decryptedData = 20%nat.
Proof.
  unfold parseHDFCResponse. rewrite split_length.
  destruct (Nat.eqb_spec (S (occurrences "|" decryptedData)) 21) as [E | N]; cbn [negb].
  - split; [intros _; lia | intros _; eexists; reflexivity].
  - split; [intros [td H]; discriminate H | intros H; lia].
Qed.

Ltac text_property H k :=
  let F := fresh "F" in
  pose proof (H k _ ltac:(cbn [properties In]; tauto)) as F.

(** X6: what [Object.values(...).join('|')] writes, [parseHDFCResponse]
    reads back: every text property of a record whose texts hold no
    pipe is recovered, and each Number is the one [parseFloat] reads
    from its [toString]. *)
Theorem pipeData_roundtrip (testData : TransactionData) :
  (forall k s, In (k, JS.VString s) (properties testData) -> occurrences "|" s = 0%nat) ->
  exists td,
    parseHDFCResponse (pipeData testData) = Ok td
    /\ (forall k s, In (k, JS.VString s) (properties testData) ->
                    In (k, JS.VString s) (properties td))
    /\ amount td = JS.parseFloat (JS.Number_toString (amount testData))
    /\ settlementAmount td = JS.parseFloat (JS.Number_toString (settlementAmount testData)).
Proof.
  intros H. destruct testData.
  text_property H "merchantId". text_property H "merchantName".
  text_property H "terminalId". text_property H "transactionId".
  text_property H "bankRRN". text_property H "merchantTxnId".
  text_property H "transactionStatus". text_property H "statusCode".
  text_property H "statusDescription". text_property H "payerVPA".
  text_property H "payerName". text_property H "mobileNumber".
  text_property H "transactionDateTime". text_property H "settlementDateTime".
  text_property H "paymentMode". text_property H "mcc". text_property H "checksum".
  unfold pipeData, parseHDFCResponse.
  cbn [properties JS.Object_values map snd JS.ToString].
  rewrite split_join; [| discriminate |].
  - cbn [List.length Nat.eqb negb field nth].
    eexists. split; [reflexivity |].
    cbn [properties amount settlementAmount In].
    split; [| split; reflexivity].
    intros k s Hin.
    repeat (destruct Hin as [Hin | Hin];
            [ first [ discriminate Hin
                    | injection Hin as <- <-; tauto ] | ]).
    destruct Hin.
  - repeat constructor; try assumption;
      apply Number_toString_without; reflexivity.
Qed.

Lemma pipeData_roundtrip_witness :
  exists td,
    parseHDFCResponse (pipeData Records.sample_record) = Ok td
    /\ In ("payerVPA", JS.VString "test@paytm") (properties td).
Proof.
  destruct (pipeData_roundtrip Records.sample_record) as (td & Hp & Ht & _).
  - intros k s Hin. cbn [properties In Records.sample_record] in Hin.
    repeat (destruct Hin as [Hin | Hin];
            [ first [ discriminate Hin | injection Hin as _ <-; reflexivity ] | ]).
    destruct Hin.
  - exists td. split; [exact Hp |]. apply Ht. cbn [properties In]. tauto.
Defined.

End Payload.

(** ** The shape of a checksum *)

Module Digest.
Import Crypto Text EncryptionUtil.
Local Open Scope Z_scope.

Lemma round_length (st : list Z) (kw : Z * Z) :
  List.length st = 8%nat -> List.length (round st kw) = 8%nat.
Proof.
  destruct st as [| a [| b [| c [| d [| e [| f [| g [| h [| i r]]]]]]]]];
    try discriminate. reflexivity.
Qed.

Lemma fold_round_length (l : list (Z * Z)) (st : list Z) :
  List.length st = 8%nat -> List.length (fold_left round l st) = 8%nat.
Proof.
  revert st. induction l as [| kw l IH]; intros st H; cbn [fold_left]; [exact H |].
  apply IH. apply round_length. exact H.
Qed.

Lemma add_words_length (xs ys : list Z) :
  List.length (add_words xs ys) = Nat.min (List.length xs) (List.length ys).
Proof.
  revert ys. induction xs as [| x xs IH]; intros [| y ys]; cbn [add_words List.length Nat.min];
    try reflexivity. now rewrite IH.
Qed.

Lemma compress_length (st block : list Z) :
  List.length st = 8%nat -> List.length (compress st block) = 8%nat.
Proof.
  intros H. unfold compress.
  rewrite add_words_length, fold_round_length, H; [reflexivity | exact H].
Qed.

Lemma blocks_length (fuel : nat) (st bs : list Z) :
  List.length st = 8%nat -> List.length (blocks fuel st bs) = 8%nat.
Proof.
  revert st bs. induction fuel as [| fuel IH]; intros st bs H; cbn [blocks]; [exact H |].
  destruct bs; [exact H |]. apply IH. apply compress_length. exact H.
Qed.

Lemma land_255_byte (x : Z) : byte (Z.land x 255).
Proof.
  unfold byte. change 255 with (Z.ones 8). rewrite Z.land_ones by lia.
  apply Z.mod_pos_bound. lia.
Qed.

Lemma be_bytes_bytes (n : nat) (x : Z) :
  List.length (be_bytes n x) = n /\ Forall byte (be_bytes n x).
Proof.
  unfold be_bytes. split.
  - now rewrite length_map, length_rev, length_seq.
  - apply Forall_forall. intros b Hb. apply in_map_iff in Hb.
    destruct Hb as (i & <- & _). apply land_255_byte.
Qed.

Lemma flat_map_be_bytes (ws : list Z) :
  List.length (flat_map (be_bytes 4) ws) = (4 * List.length ws)%nat
  /\ Forall byte (flat_map (be_bytes 4) ws).
Proof.
  induction ws as [| w ws [IHl IHb]]; cbn [flat_map List.length];
    [split; [reflexivity | constructor] |].
  destruct (be_bytes_bytes 4 w) as [L B]. split.
  - rewrite length_app, L, IHl. lia.
  - apply Forall_app. split; assumption.
Qed.

(** A SHA-256 digest is thirty-two bytes. *)
Lemma sha256_bytes (msg : list Z) :
  List.length (sha256 msg) = 32%nat /\ Forall byte (sha256 msg).
Proof.
  unfold sha256.
  destruct (flat_map_be_bytes (blocks (List.length (pad msg)) H256 (pad msg))) as [L B].
  split; [| exact B]. rewrite L, blocks_length; reflexivity.
Qed.

Lemma hex_digit_upper (d : Z) : 0 <= d < 16 -> upper_hex_char (hex_digit true d) = true.
Proof.
  intros H.
  assert (E : d = 0 \/ d = 1 \/ d = 2 \/ d = 3 \/ d = 4 \/ d = 5 \/ d = 6 \/ d = 7
              \/ d = 8 \/ d = 9 \/ d = 10 \/ d = 11 \/ d = 12 \/ d = 13 \/ d = 14 \/ d = 15)
    by lia.
  repeat (destruct E as [-> | E]; [reflexivity |]). subst d. reflexivity.
Qed.

Lemma hex_upper (bs : list Z) :
  Forall byte bs ->
  String.length (hex true bs) = (2 * List.length bs)%nat
  /\ Forall (fun c => upper_hex_char c = true) (characters (hex true bs)).
Proof.
  induction 1 as [| b bs Hb _ [IHl IHc]]; cbn [hex String.length characters List.length];
    [split; [reflexivity | constructor] |].
  split; [rewrite IHl; lia |].
  unfold byte in Hb.
  constructor; [| constructor; [| exact IHc]]; apply hex_digit_upper.
  - rewrite Z.shiftr_div_pow2 by lia. change (2 ^ 4) with 16.
    split; [apply Z.div_pos; lia | apply Z.div_lt_upper_bound; lia].
  - change 15 with (Z.ones 4). rewrite Z.land_ones by lia. apply Z.mod_pos_bound. lia.
Qed.

Lemma generateChecksum_shape (data : JS.object) (key : string) :
  String.length (generateChecksum data key) = 64%nat
  /\ Forall (fun c => upper_hex_char c = true) (characters (generateChecksum data key)).
Proof.
  unfold generateChecksum, hmac_sha256.
  match goal with
  | |- context [hex true (sha256 ?m)] => destruct (sha256_bytes m) as [L B]
  end.
  destruct (hex_upper _ B) as [HL HC]. rewrite L in HL. split; assumption.
Qed.

(** X7: a checksum the handler accepts is sixty-four characters of
    upper-case hexadecimal; the same digest written in lower case, or cut
    short, is never accepted. *)
Theorem accepted_checksum_is_upper_hex (data : JS.object) (receivedChecksum key : string) :
  validateChecksum data receivedChecksum key = true ->
  String.length receivedChecksum = 64%nat
  /\ Forall (fun c => upper_hex_char c = true) (characters receivedChecksum).
Proof.
  unfold validateChecksum. intros H. apply String.eqb_eq in H. subst receivedChecksum.
  apply generateChecksum_shape.
Qed.

Lemma accepted_checksum_is_upper_hex_witness :
  String.length (checksum Records.sample_record) = 64%nat
  /\ Forall (fun c => upper_hex_char c = true)
            (characters (checksum Records.sample_record)).
Proof.
  apply (accepted_checksum_is_upper_hex
           (JS.delete "checksum" (properties Records.sample_record)) _ Samples.sample_key).
  vm_compute. reflexivity.
Defined.

End Digest.

(** ** The ledger: transactions, daily statistics, refunds *)

Module Ledger.
Import EncryptionUtil Samples TransactionValidator QRTransactionService Webhook.
Import Handler Reconciliation Accounts.

(** *** The duplicate lookup *)

Lemma checkDuplicate_stored (amb : Ambient) (db : Database)
    (transactionId merchantId : string) :
  checkDuplicate amb db transactionId merchantId = true ->
  query_error amb = None
  /\ exists t, In t (qr_transactions db)
               /\ tx_transaction_id t = transactionId
               /\ tx_merchant_id t = merchantId.
Proof.
  unfold checkDuplicate, getTransactionDetails.
  destruct (query_error amb); [discriminate |].
  destruct (filter _ (qr_transactions db)) as [| row rest] eqn:Hf; [discriminate |].
  intros _. split; [reflexivity |].
  destruct (filter_cons_in _ _ _ _ Hf) as [Hin Hok].
  apply andb_true_iff in Hok. destruct Hok as [Hid Hm].
  apply String.eqb_eq in Hid. apply String.eqb_eq in Hm.
  exists row. auto.
Qed.

(** [checkDuplicate] answers [true] exactly when the lookup does not
    throw and a transaction with that id and that merchant is stored. *)
Lemma checkDuplicate_true_iff (amb : Ambient) (db : Database)
    (transactionId merchantId : string) :
  checkDuplicate amb db transactionId merchantId = true
  <-> query_error amb = None
      /\ exists t, In t (qr_transactions db)
                   /\ tx_transaction_id t = transactionId
                   /\ tx_merchant_id t = merchantId.
Proof.
  split; [apply checkDuplicate_stored |].
  intros [Hq Hex]. apply checkDuplicate_found; assumption.
Qed.

(** X8: [processTransactionWebhook] keeps the transaction ids of
    [qr_transactions] distinct, whether it returns or throws. *)
Theorem transaction_ids_stay_unique (amb : Ambient) (db db' : Database)
    (wd : WebhookData) (r : result Processed) :
  NoDup (map tx_transaction_id (qr_transactions db)) ->
  processTransactionWebhook amb db wd = (r, db') ->
  NoDup (map tx_transaction_id (qr_transactions db')).
Proof.
  intros N H.
  destruct (processTransactionWebhook_transactions amb db db' wd r H)
    as [(_ & ->) | (_ & [(_ & ->) | (Hnew & qrCode & _ & _ & ->)])].
  - exact N.
  - rewrite map_map.
    rewrite (map_ext _ tx_transaction_id (update_existing_id amb wd)). exact N.
  - rewrite map_app. cbn [map new_transaction tx_transaction_id].
    apply NoDup_app.
    + exact N.
    + repeat constructor. intros [].
    + intros x Hx [<- | []]. apply in_map_iff in Hx. destruct Hx as (t & Hid & Hin).
      exact (Hnew t Hin Hid).
Qed.

Lemma transaction_ids_stay_unique_witness :
  exists r db',
    processTransactionWebhook (quiet "u2") (db recorded) failed_callback = (r, db')
    /\ NoDup (map tx_transaction_id (qr_transactions db')).
Proof.
  destruct (processTransactionWebhook (quiet "u2") (db recorded) failed_callback)
    as [r db'] eqn:E.
  exists r, db'. split; [reflexivity |].
  apply (transaction_ids_stay_unique (quiet "u2") (db recorded) db' failed_callback r);
    [| exact E].
  repeat constructor. intros [].
Defined.

(** X9: the duplicate lookup asks for the transaction id and the
    merchant, the write for the transaction id alone.  A callback that
    carries a known transaction id under another merchant is therefore no
    duplicate, and processing it inserts nothing: it overwrites the status
    of the transaction that is stored, which stays with its merchant. *)
Theorem known_id_under_another_merchant (amb : Ambient) (db db' : Database)
    (wd : WebhookData) (p : Processed) :
  (exists t, In t (qr_transactions db) /\ tx_transaction_id t = transaction_id wd) ->
  (forall t, In t (qr_transactions db) -> tx_transaction_id t = transaction_id wd ->
             tx_merchant_id t <> merchant_id wd) ->
  processTransactionWebhook amb db wd = (Ok p, db') ->
  checkDuplicate amb db (transaction_id wd) (merchant_id wd) = false
  /\ List.length (qr_transactions db') = List.length (qr_transactions db)
  /\ forall t', In t' (qr_transactions db') -> tx_transaction_id t' = transaction_id wd ->
                tx_status t' = status wd /\ tx_merchant_id t' <> merchant_id wd.
Proof.
  intros (t0 & Hin0 & Hid0) Hother H. split; [| split].
  - destruct (checkDuplicate amb db (transaction_id wd) (merchant_id wd)) eqn:D;
      [| reflexivity].
    apply checkDuplicate_stored in D. destruct D as (_ & t & Hin & Hid & Hm).
    exfalso. exact (Hother t Hin Hid Hm).
  - destruct (processTransactionWebhook_transactions amb db db' wd _ H)
      as [(_ & ->) | (_ & [(_ & ->) | (Hnew & _)])].
    + reflexivity.
    + apply length_map.
    + exfalso. exact (Hnew t0 Hin0 Hid0).
  - intros t' Hin' Hid'. split.
    + exact (processTransactionWebhook_sets_status amb db db' wd p H t' Hin' Hid').
    + destruct (processTransactionWebhook_transactions amb db db' wd _ H)
        as [(_ & E) | (_ & [(_ & E) | (Hnew & _)])].
      * rewrite E in Hin'. exact (Hother t' Hin' Hid').
      * rewrite E in Hin'. apply in_map_iff in Hin'. destruct Hin' as (t & <- & Hin).
        rewrite update_existing_merchant. rewrite update_existing_id in Hid'.
        exact (Hother t Hin Hid').
      * exfalso. exact (Hnew t0 Hin0 Hid0).
Qed.

Lemma known_id_under_another_merchant_witness :
  exists p db',
    processTransactionWebhook (quiet "u2") (db recorded) Records.foreign_callback
      = (Ok p, db')
    /\ checkDuplicate (quiet "u2") (db recorded) "TXN1" "OTHER0000000001" = false
    /\ map tx_status (qr_transactions db') = ["failed"]
    /\ map tx_merchant_id (qr_transactions db') = ["HDFC000010380443"].
Proof.
  destruct (processTransactionWebhook (quiet "u2") (db recorded) Records.foreign_callback)
    as [[p | e] db'] eqn:E; [| discriminate E].
  exists p, db'. split; [reflexivity |].
  destruct (known_id_under_another_merchant (quiet "u2") (db recorded) db'
              Records.foreign_callback p) as (H1 & _ & _).
  - eexists. split; [left; reflexivity | reflexivity].
  - intros t [<- | []] _. discriminate.
  - exact E.
  - split; [exact H1 |]. injection E as _ <-. split; reflexivity.
Defined.

(** *** The daily counters *)

Lemma bump_existing_keys (key : DailyStats -> bool) (a : JS.Number) (rows : list DailyStats) :
  map stats_key (bump_existing key a rows) = map stats_key rows.
Proof.
  induction rows as [| r rows IH]; cbn [bump_existing map]; [reflexivity |].
  destruct (key r); cbn [map]; [reflexivity | now rewrite IH].
Qed.

Lemma bump_existing_balanced (key : DailyStats -> bool) (a : JS.Number)
    (rows : list DailyStats) :
  Forall (fun r => ds_successful_transactions r = ds_total_transactions r) rows ->
  Forall (fun r => ds_successful_transactions r = ds_total_transactions r)
         (bump_existing key a rows).
Proof.
  induction 1 as [| r rows Hr Hrows IH]; cbn [bump_existing]; [constructor |].
  destruct (key r); constructor; try assumption.
  cbn [bump_stats ds_successful_transactions ds_total_transactions]. now rewrite Hr.
Qed.

Lemma updateDailyStats_invariants (amb : Ambient) (db : Database) (m : string) (q : Z)
    (a : JS.Number) :
  NoDup (map stats_key (qr_daily_stats db)) ->
  Forall (fun r => ds_successful_transactions r = ds_total_transactions r)
         (qr_daily_stats db) ->
  NoDup (map stats_key (qr_daily_stats (updateDailyStats amb db m q a)))
  /\ Forall (fun r => ds_successful_transactions r = ds_total_transactions r)
            (qr_daily_stats (updateDailyStats amb db m q a)).
Proof.
  intros N B. unfold updateDailyStats. cbn [qr_daily_stats].
  destruct (existsb _ (qr_daily_stats db)) eqn:E.
  - rewrite bump_existing_keys. split; [exact N | apply bump_existing_balanced; exact B].
  - split.
    + rewrite map_app. cbn [map]. apply NoDup_app; [exact N | repeat constructor; intros [] |].
      intros k Hk [<- | []]. apply in_map_iff in Hk. destruct Hk as (r & Hr & Hin).
      assert (Hs : same_stats_key m q (today amb) r = true)
        by (apply same_stats_key_iff; exact Hr).
      assert (Hex : existsb (same_stats_key m q (today amb)) (qr_daily_stats db) = true)
        by (apply existsb_exists; exists r; auto).
      congruence.
    + apply Forall_app. split; [exact B | repeat constructor].
Qed.

(** X10: the daily statistics under [processTransactionWebhook]: a call
    whose status is not [success] leaves them as they are; every call
    keeps one row for each merchant, QR code and day, and keeps the
    count of successful transactions of a row equal to its count of all
    transactions. *)
Theorem daily_stats_count_successes_only (amb : Ambient) (db db' : Database)
    (wd : WebhookData) (r : result Processed) :
  NoDup (map stats_key (qr_daily_stats db)) ->
  Forall (fun s => ds_successful_transactions s = ds_total_transactions s)
         (qr_daily_stats db) ->
  processTransactionWebhook amb db wd = (r, db') ->
  (status wd <> "success" -> qr_daily_stats db' = qr_daily_stats db)
  /\ NoDup (map stats_key (qr_daily_stats db'))
  /\ Forall (fun s => ds_successful_transactions s = ds_total_transactions s)
            (qr_daily_stats db').
Proof.
  intros N B H.
  destruct (processTransactionWebhook_stats amb db db' wd r H)
    as [E | (Hs & qrCode & _ & _ & E)]; rewrite E.
  - split; [reflexivity | split; assumption].
  - split; [intros Hn; contradiction |].
    apply updateDailyStats_invariants; assumption.
Qed.

Lemma daily_stats_count_successes_only_witness :
  exists r db',
    processTransactionWebhook (quiet "u2") (db recorded) failed_callback = (r, db')
    /\ qr_daily_stats db' = qr_daily_stats (db recorded)
    /\ NoDup (map stats_key (qr_daily_stats db')).
Proof.
  destruct (processTransactionWebhook (quiet "u2") (db recorded) failed_callback)
    as [r db'] eqn:E.
  exists r, db'. split; [reflexivity |].
  destruct (daily_stats_count_successes_only (quiet "u2") (db recorded) db'
              failed_callback r) as (H1 & H2 & _).
  - repeat constructor. intros [].
  - repeat constructor.
  - exact E.
  - split; [apply H1; discriminate | exact H2].
Defined.

(** *** Refunds *)

Lemma initiateRefund_throws (amb : Ambient) (db db' : Database) (transactionId : string)
    (refundData : RefundData) (initiatedBy : string) (e : JsError) :
  initiateRefund amb db transactionId refundData initiatedBy = (Throw e, db') -> db' = db.
Proof.
  unfold initiateRefund.
  destruct (connection_error amb); [intros H; injection H as _ <-; reflexivity |].
  destruct (filter _ (qr_transactions db)) as [| txn rest];
    [intros H; injection H as _ <-; reflexivity |].
  destruct (JS.gt _ (tx_amount txn)); [intros H; injection H as _ <-; reflexivity |].
  discriminate.
Qed.

(** No row of the transaction id in [success] is a state that a call
    keeps, unless it is a callback that reports [success] for that
    id. *)
Lemma after_keeps_refunded (transactionId : string) (c : Calls.Call) (db : Database) :
  Calls.reports_success transactionId c = false ->
  (forall t, In t (qr_transactions db) -> tx_transaction_id t = transactionId ->
             tx_status t <> "success") ->
  forall t, In t (qr_transactions (Calls.after db c)) ->
            tx_transaction_id t = transactionId -> tx_status t <> "success".
Proof.
  intros Hc Hno t Hin Hid. destruct c as [amb id' refundData initiatedBy | amb wd];
    cbn [Calls.after Calls.reports_success] in *.
  - destruct (initiateRefund amb db id' refundData initiatedBy) as [[r | e] db'] eqn:E;
      cbn [snd] in Hin.
    + destruct (initiateRefund_ok amb db db' id' refundData initiatedBy r E)
        as (_ & Hst & Hother).
      destruct (String.eqb_spec (tx_transaction_id t) id') as [E' | E'].
      * destruct (Hst t Hin E') as [S | S]; rewrite S; discriminate.
      * exact (Hno t (Hother t Hin E') Hid).
    + rewrite (initiateRefund_throws _ _ _ _ _ _ _ E) in Hin. exact (Hno t Hin Hid).
  - destruct (processTransactionWebhook amb db wd) as [r db'] eqn:E; cbn [snd] in Hin.
    assert (Hs : tx_transaction_id t = transaction_id wd -> status wd <> "success").
    { intros E' S. rewrite <- E', Hid, S, !String.eqb_refl in Hc. discriminate Hc. }
    destruct (processTransactionWebhook_transactions amb db db' wd r E)
      as [(_ & ->) | (_ & [(_ & Et) | (_ & q & _ & _ & Et)])].
    + exact (Hno t Hin Hid).
    + rewrite Et in Hin. apply in_map_iff in Hin. destruct Hin as (t0 & <- & Hin0).
      rewrite update_existing_id in Hid, Hs. unfold update_existing.
      destruct (String.eqb_spec (tx_transaction_id t0) (transaction_id wd)) as [E' | E'].
      * cbn [tx_status]. exact (Hs E').
      * exact (Hno t0 Hin0 Hid).
    + rewrite Et in Hin. apply in_app_or in Hin. destruct Hin as [Hin | [<- | []]].
      * exact (Hno t Hin Hid).
      * cbn [new_transaction tx_status]. apply Hs. reflexivity.
Qed.

Lemma after_all_keeps_refunded (transactionId : string) (calls : list Calls.Call)
    (db : Database) :
  forallb (fun c => negb (Calls.reports_success transactionId c)) calls = true ->
  (forall t, In t (qr_transactions db) -> tx_transaction_id t = transactionId ->
             tx_status t <> "success") ->
  forall t, In t (qr_transactions (Calls.after_all calls db)) ->
            tx_transaction_id t = transactionId -> tx_status t <> "success".
Proof.
  unfold Calls.after_all. revert db.
  induction calls as [| c calls IH]; intros db Hc Hno; cbn [fold_left]; [exact Hno |].
  cbn [forallb] in Hc. apply andb_true_iff in Hc. destruct Hc as [Hc Hrest].
  apply negb_true_iff in Hc.
  apply IH; [exact Hrest |]. exact (after_keeps_refunded transactionId c db Hc Hno).
Qed.

(** X11: a refund that has been accepted is not accepted again, whatever
    calls of the service follow it one after the other (refunds of any
    transaction, callbacks), as long as none of them is a callback that
    reports [success] for the same transaction id: the next refund of
    that id throws and changes nothing. *)
Theorem refund_is_accepted_once (amb amb' : Ambient) (db db' : Database)
    (transactionId : string) (refundData refundData' : RefundData)
    (initiatedBy initiatedBy' : string) (r : Refunded) (calls : list Calls.Call) :
  initiateRefund amb db transactionId refundData initiatedBy = (Ok r, db') ->
  forallb (fun c => negb (Calls.reports_success transactionId c)) calls = true ->
  exists e,
    initiateRefund amb' (Calls.after_all calls db') transactionId refundData' initiatedBy'
    = (Throw e, Calls.after_all calls db').
Proof.
  intros H Hcalls. apply initiateRefund_rejects.
  apply (after_all_keeps_refunded transactionId calls db' Hcalls).
  destruct (initiateRefund_ok amb db db' transactionId refundData initiatedBy r H)
    as (_ & Hst & _).
  intros t Hin Hid Hs. destruct (Hst t Hin Hid) as [E | E]; rewrite E in Hs; discriminate.
Qed.

Lemma refund_is_accepted_once_witness :
  exists r db' e,
    initiateRefund (quiet "u3") (db recorded) "TXN1"
      {| refund_type := "partial"; refund_amount := JS.of_Z 40; reason := "returned" |}
      "admin" = (Ok r, db')
    /\ initiateRefund (quiet "u6")
         (Calls.after_all
            [ Calls.Callback (quiet "u4") failed_callback;
              Calls.Refund (quiet "u5") "TXN1"
                {| refund_type := "full"; refund_amount := JS.of_Z 100;
                   reason := "again" |} "admin" ] db')
         "TXN1"
         {| refund_type := "partial"; refund_amount := JS.of_Z 40; reason := "returned" |}
         "admin"
       = (Throw e,
          Calls.after_all
            [ Calls.Callback (quiet "u4") failed_callback;
              Calls.Refund (quiet "u5") "TXN1"
                {| refund_type := "full"; refund_amount := JS.of_Z 100;
                   reason := "again" |} "admin" ] db').
Proof.
  destruct (initiateRefund (quiet "u3") (db recorded) "TXN1"
              {| refund_type := "partial"; refund_amount := JS.of_Z 40;
                 reason := "returned" |} "admin") as [[r | e] db'] eqn:E;
    [| vm_compute in E; discriminate E].
  destruct (refund_is_accepted_once (quiet "u3") (quiet "u6") (db recorded) db' "TXN1"
              {| refund_type := "partial"; refund_amount := JS.of_Z 40;
                 reason := "returned" |}
              {| refund_type := "partial"; refund_amount := JS.of_Z 40;
                 reason := "returned" |} "admin" "admin" r
              [ Calls.Callback (quiet "u4") failed_callback;
                Calls.Refund (quiet "u5") "TXN1"
                  {| refund_type := "full"; refund_amount := JS.of_Z 100;
                     reason := "again" |} "admin" ] E eq_refl) as [e He].
  exists r, db', e. split; [reflexivity | exact He].
Defined.

(** The transaction of the sample, refunded in full and then reported
    [success] again by a callback, is refunded a second time: two rows
    of [qr_refund_audit] for one payment. *)
Example refund_after_a_second_success :
  exists r1 db1 p db2 r2 db3,
    initiateRefund (quiet "u3") (db recorded) "TXN1"
      {| refund_type := "full"; refund_amount := JS.of_Z 100; reason := "returned" |}
      "admin" = (Ok r1, db1)
    /\ processTransactionWebhook (quiet "u4") db1
         {| transaction_id := "TXN1"; merchant_id := "HDFC000010380443";
            wd_qr_identifier := "001"; amount := JS.of_Z 100;
            customer_vpa := "test@paytm"; customer_name := "Test User";
            reference_number := "STQ0011700000000000"; bank_reference_number := "RRN1";
            status := "success"; payment_method := Some "UPI";
            failure_reason := None |} = (Ok p, db2)
    /\ initiateRefund (quiet "u5") db2 "TXN1"
         {| refund_type := "full"; refund_amount := JS.of_Z 100; reason := "returned" |}
         "admin" = (Ok r2, db3)
    /\ List.length (qr_refund_audit db3) = 2%nat
    /\ List.length (qr_transactions db3) = 1%nat.
Proof.
  do 6 eexists. split; [vm_compute; reflexivity |].
  split; [vm_compute; reflexivity |]. split; [vm_compute; reflexivity |].
  split; reflexivity.
Qed.

(** X12: an accepted refund is written consistently: the amount returned
    to the caller is the amount of the new audit row and of every
    transaction row with that id, it is not greater than the amount of
    the refunded transaction, a full refund is the whole amount, and the
    daily statistics are not touched. *)
Theorem refund_is_recorded (amb : Ambient) (db db' : Database) (transactionId : string)
    (refundData : RefundData) (initiatedBy : string) (r : Refunded) :
  initiateRefund amb db transactionId refundData initiatedBy = (Ok r, db') ->
  exists txn audit,
    In txn (qr_transactions db)
    /\ tx_transaction_id txn = transactionId /\ tx_status txn = "success"
    /\ JS.gt (refunded_refund_amount r) (tx_amount txn) = false
    /\ (refund_type refundData = "full" -> refunded_refund_amount r = tx_amount txn)
    /\ qr_refund_audit db' = (qr_refund_audit db ++ [audit])%list
    /\ ra_refund_id audit = refunded_refund_id r
    /\ ra_original_amount audit = tx_amount txn
    /\ ra_refund_amount audit = refunded_refund_amount r
    /\ (forall t, In t (qr_transactions db') -> tx_transaction_id t = transactionId ->
                  tx_refund_amount t = Some (refunded_refund_amount r))
    /\ qr_daily_stats db' = qr_daily_stats db.
Proof.
  unfold initiateRefund.
  destruct (connection_error amb); [discriminate |].
  destruct (filter _ (qr_transactions db)) as [| txn rest] eqn:Hf; [discriminate |].
  destruct (JS.gt _ (tx_amount txn)) eqn:G; [discriminate |].
  intros H. injection H as <- <-.
  destruct (filter_cons_in _ _ _ _ Hf) as [Hin Hok].
  apply andb_true_iff in Hok. destruct Hok as [Hid Hst].
  apply String.eqb_eq in Hid. apply String.eqb_eq in Hst.
  eexists txn, _. cbn [refunded_refund_amount refunded_refund_id qr_refund_audit
                        qr_transactions qr_daily_stats].
  split; [exact Hin |]. split; [exact Hid |]. split; [exact Hst |].
  split; [exact G |].
  split; [intros F; rewrite F; reflexivity |].
  split; [reflexivity |].
  cbn [ra_refund_id ra_original_amount ra_refund_amount].
  repeat (split; [reflexivity |]).
  split; [| reflexivity].
  intros t Ht Htid. apply in_map_iff in Ht. destruct Ht as (t0 & <- & _).
  unfold mark_refunded in *.
  destruct (String.eqb (tx_transaction_id t0) transactionId) eqn:E; [reflexivity |].
  apply String.eqb_neq in E. contradiction.
Qed.

Lemma refund_is_recorded_witness :
  exists r db',
    initiateRefund (quiet "u3") (db recorded) "TXN1"
      {| refund_type := "full"; refund_amount := JS.NaN; reason := "returned" |}
      "admin" = (Ok r, db')
    /\ refunded_refund_amount r = JS.of_Z 100
    /\ map tx_refund_amount (qr_transactions db') = [Some (JS.of_Z 100)]
    /\ map ra_refund_amount (qr_refund_audit db') = [JS.of_Z 100].
Proof.
  destruct (initiateRefund (quiet "u3") (db recorded) "TXN1"
              {| refund_type := "full"; refund_amount := JS.NaN; reason := "returned" |}
              "admin") as [[r | e] db'] eqn:E; [| vm_compute in E; discriminate E].
  exists r, db'. split; [reflexivity |].
  destruct (refund_is_recorded (quiet "u3") (db recorded) db' "TXN1" _ "admin" r E)
    as (txn & audit & Hin & _ & _ & _ & Hfull & _).
  destruct Hin as [<- | []].
  split; [exact (Hfull eq_refl) |].
  vm_compute in E. injection E as _ <-. split; reflexivity.
Defined.

End Ledger.

(** ** Callbacks through the handler *)

Module Callbacks.
Import EncryptionUtil Samples TransactionValidator QRTransactionService Webhook.
Import Handler Reconciliation Ledger.

(** *** The timestamp check *)

(** X13: [validateTimestamp] rejects nothing in development, and in every
    environment it accepts a timestamp that does not read as a date: the
    difference is [NaN], which is not greater than 24. *)
Theorem validateTimestamp_accepts_unreadable_dates (rt : Runtime) (env : Env)
    (amb : Ambient) (timestamp : string) :
  development env = true \/ JS.isNaN (Date_of_string rt timestamp) = true ->
  validateTimestamp rt env amb timestamp = Ok true.
Proof.
  unfold validateTimestamp. intros [-> | H]; [reflexivity |].
  destruct (Date_of_string rt timestamp); try discriminate H.
  replace (JS.sub (now amb) S754_nan) with S754_nan by (now destruct (now amb)).
  cbn. now rewrite andb_false_r.
Qed.

Lemma validateTimestamp_dev (rt : Runtime) (env : Env) (amb : Ambient) (timestamp : string) :
  development env = true -> validateTimestamp rt env amb timestamp = Ok true.
Proof. unfold validateTimestamp. now intros ->. Qed.

Lemma validateTimestamp_accepts_unreadable_dates_witness :
  validateTimestamp clear_text production (quiet "u1") "yesterday" = Ok true.
Proof.
  apply validateTimestamp_accepts_unreadable_dates. right. reflexivity.
Defined.

(** *** What the handler writes *)

Lemma save_throws (env : Env) (amb : Ambient) (w w' : World) (td : TransactionData)
    (wd : WebhookData) (e : JsError) :
  save env amb w td wd = (Throw e, w') -> w' = w.
Proof.
  unfold save. destruct (development env).
  - destruct (LocalTransactionStore.saveTransaction _ _ _). discriminate.
  - destruct (processTransactionWebhook amb (db w) wd) as [[p | e'] db'] eqn:P;
      cbn [bind]; [discriminate |].
    intros H. injection H as _ <-.
    rewrite (processTransactionWebhook_throws _ _ _ _ _ P). now destruct w.
Qed.

Lemma complete_writes_when_processed (rt : Runtime) (env : Env) (amb : Ambient)
    (w : World) (td : TransactionData) :
  snd (complete rt env amb w td) = w \/ fst (complete rt env amb w td) = processed td.
Proof.
  unfold complete.
  destruct (validateAmount (EncryptionUtil.amount td)); [| now left].
  destruct (validateTimestamp rt env amb (transactionDateTime td)); [| now left].
  destruct (String.eqb (transactionStatus td) "SUCCESS");
    unfold processSuccessfulTransaction, processFailedTransaction;
    match goal with
    | |- context [save env amb w td ?wd] =>
        destruct (save env amb w td wd) as [[u | e] w'] eqn:S;
        [now right | left; cbn [snd]; exact (save_throws _ _ _ _ _ _ _ S)]
    end.
Qed.

(** X14: reject, never partially apply: whatever the request, either the
    handler answers that the webhook was processed, or it has written
    nothing at all. *)
Theorem webhook_writes_only_when_processed (rt : Runtime) (env : Env) (amb : Ambient)
    (w : World) (req : Request) :
  snd (webhook rt env amb w req) = w
  \/ exists td, fst (webhook rt env amb w req) = processed td.
Proof.
  unfold webhook.
  destruct (receive rt env amb w req) as [[r | td] | e]; [now left | | now left].
  destruct (complete_writes_when_processed rt env amb w td) as [H | H];
    [now left | right; now exists td].
Qed.

(** X15: a callback whose reference names no stored QR code is answered
    with the error [Invalid QR code], and nothing is written. *)
Theorem unknown_qr_code_is_rejected (rt : Runtime) (env : Env) (amb : Ambient)
    (w : World) (td : TransactionData) :
  development env = false ->
  connection_error amb = None ->
  validateAmount (EncryptionUtil.amount td) = Ok true ->
  validateTimestamp rt env amb (transactionDateTime td) = Ok true ->
  (forall q, In q (qr_codes (db w)) ->
             qr_identifier q <> extractQRIdentifier (merchantTxnId td)) ->
  complete rt env amb w td = (failed (Error "Invalid QR code"), w).
Proof.
  intros Hdev Hc Ha Ht Hq. unfold complete. rewrite Ha, Ht.
  assert (P : forall wd, wd_qr_identifier wd = extractQRIdentifier (merchantTxnId td) ->
                         processTransactionWebhook amb (db w) wd
                         = (Throw (Error "Invalid QR code"), db w)).
  { intros wd E. unfold processTransactionWebhook. rewrite Hc.
    destruct (filter _ (qr_codes (db w))) as [| q ?] eqn:F; [reflexivity |].
    destruct (filter_cons_in _ _ _ _ F) as [Hin Hid]. apply String.eqb_eq in Hid.
    rewrite E in Hid. exfalso. exact (Hq q Hin Hid). }
  destruct (String.eqb (transactionStatus td) "SUCCESS");
    unfold processSuccessfulTransaction, processFailedTransaction, save;
    rewrite Hdev, P by reflexivity; cbn [bind]; now destruct w.
Qed.

Lemma unknown_qr_code_is_rejected_witness :
  complete clear_text production (quiet "u1") shop
    (Records.callback "TXN1" "STQ9991700000000000" "SUCCESS")
  = (failed (Error "Invalid QR code"), shop).
Proof.
  apply unknown_qr_code_is_rejected; try reflexivity.
  intros q [<- | []]. discriminate.
Defined.


(** X16: the handler knows two outcomes: the exact text [SUCCESS], and
    everything else.  Outside development a processed callback of any
    other status ([PENDING], say) is stored as [failed], and the daily
    statistics stay as they are. *)
Theorem other_statuses_are_recorded_as_failed (rt : Runtime) (env : Env) (amb : Ambient)
    (w w1 : World) (td : TransactionData) :
  development env = false ->
  transactionStatus td <> "SUCCESS" ->
  complete rt env amb w td = (processed td, w1) ->
  (exists t, In t (qr_transactions (db w1)) /\ tx_transaction_id t = transactionId td)
  /\ (forall t, In t (qr_transactions (db w1)) -> tx_transaction_id t = transactionId td ->
                tx_status t = "failed")
  /\ qr_daily_stats (db w1) = qr_daily_stats (db w).
Proof.
  intros Hdev Hs H.
  destruct (complete_processed_inv rt env amb w w1 td Hdev H)
    as (wd & p & Hp & Hid & _ & Hst).
  apply String.eqb_neq in Hs. rewrite Hs in Hst.
  split; [| split].
  - rewrite <- Hid. exact (processTransactionWebhook_records _ _ _ _ _ Hp).
  - intros t Hin Ht. rewrite <- Hst.
    apply (processTransactionWebhook_sets_status amb (db w) (db w1) wd p Hp t Hin).
    now rewrite Hid.
  - destruct (processTransactionWebhook_stats amb (db w) (db w1) wd _ Hp)
      as [E | (E & _)]; [exact E |].
    rewrite Hst in E. discriminate E.
Qed.

Lemma other_statuses_are_recorded_as_failed_witness :
  exists w1,
    complete clear_text production (quiet "u1") shop
      (Records.callback "TXN2" "STQ0011700000000000" "PENDING")
    = (processed (Records.callback "TXN2" "STQ0011700000000000" "PENDING"), w1)
    /\ map tx_status (qr_transactions (db w1)) = ["failed"]
    /\ qr_daily_stats (db w1) = [].
Proof.
  destruct (complete clear_text production (quiet "u1") shop
              (Records.callback "TXN2" "STQ0011700000000000" "PENDING"))
    as [r w1] eqn:E.
  assert (Hr : r = processed (Records.callback "TXN2" "STQ0011700000000000" "PENDING"))
    by (vm_compute in E; injection E as <- _; reflexivity).
  subst r. exists w1. split; [reflexivity |].
  assert (Hs : transactionStatus (Records.callback "TXN2" "STQ0011700000000000" "PENDING")
               <> "SUCCESS") by discriminate.
  destruct (other_statuses_are_recorded_as_failed clear_text production (quiet "u1")
              shop w1 _ eq_refl Hs E) as (_ & _ & H3).
  split; [| exact H3].
  vm_compute in E. injection E as <-. reflexivity.
Defined.

(** *** The description of a failure *)

(** [HDFC_ERROR_CODES[statusCode]] reads the table and, for a code that
    is not in it, what every object inherits: a callback whose status
    code is [constructor] is described by a function, not by its own
    [statusDescription]. *)
Example HDFC_ERROR_CODES_members :
  get HDFC_ERROR_CODES "U03" = Some (JS.Text "Debit has failed")
  /\ get HDFC_ERROR_CODES "constructor" = Some (JS.Inherited "constructor")
  /\ get HDFC_ERROR_CODES "__proto__" = Some (JS.Inherited "__proto__")
  /\ get HDFC_ERROR_CODES "U99" = None.
Proof. repeat split; reflexivity. Qed.

Example inherited_description_is_emitted :
  map errorDescription
    (emitted
       (snd (webhook clear_text local_development (quiet "u1") shop
               (request (with_field 7 "FAILED"
                           (with_field 8 "constructor" sample_fields))))))
  = [Some (JS.Inherited "constructor")]
  /\ map errorDescription
       (emitted
          (snd (webhook clear_text local_development (quiet "u1") shop
                  (request (with_field 7 "FAILED"
                              (with_field 8 "U99" sample_fields))))))
     = [Some (JS.Text "Success")].
Proof. split; vm_compute; reflexivity. Qed.

End Callbacks.

(** ** The local file *)

Module LocalFile.
Import EncryptionUtil Samples LocalTransactionStore LocalStore.

Lemma or_string_nonempty (a b : string) : a <> "" -> or_string a b = a.
Proof. destruct a; [congruence | reflexivity]. Qed.

Lemma find_app_new {A : Type} (f : A -> bool) (l : list A) (x : A) :
  existsb f l = false -> f x = true -> find f (l ++ [x]) = Some x.
Proof.
  induction l as [| y l IH]; cbn [existsb find app]; intros E Hx.
  - now rewrite Hx.
  - apply orb_false_iff in E. destruct E as [-> E]. now apply IH.
Qed.

Lemma existsb_app_new {A : Type} (f : A -> bool) (l : list A) (x : A) :
  f x = true -> existsb f (l ++ [x]) = true.
Proof. intros Hx. rewrite existsb_app. cbn [existsb]. rewrite Hx. now rewrite orb_true_r. Qed.

(** The two outcomes of [saveTransaction]. *)
Lemma saveTransaction_cases (amb : Ambient) (file : list Transaction)
    (td : TransactionData) :
  (checkDuplicate file (transactionId td) = true
   /\ saveTransaction amb file td
      = ({| saved_success := true; saved_duplicate := true; saved_transaction := None |},
         file))
  \/ (checkDuplicate file (transactionId td) = false
      /\ exists t,
           saveTransaction amb file td
           = ({| saved_success := true; saved_duplicate := false;
                 saved_transaction := Some t |}, (file ++ [t])%list)
           /\ t_transactionId t
              = or_string (transactionId td) ("TXN" ++ JS.Number_toString (now amb))
           /\ id t = (Z.of_nat (List.length file) + 1)%Z
           /\ qrId t = or_string (JS.substring 3 9 (merchantTxnId td)) "QR001"
           /\ t_status t = transactionStatus td
           /\ netAmount t = None).
Proof.
  unfold saveTransaction, checkDuplicate.
  destruct (existsb _ file); [left; split; reflexivity | right; split; [reflexivity |]].
  eexists. split; [reflexivity |]. cbn [t_transactionId id qrId t_status netAmount].
  repeat split; reflexivity.
Qed.

Lemma saveTransaction_again (amb1 amb2 : Ambient) (file : list Transaction)
    (td td' : TransactionData) :
  transactionId td <> "" ->
  transactionId td' = transactionId td ->
  saveTransaction amb2 (snd (saveTransaction amb1 file td)) td'
  = ({| saved_success := true; saved_duplicate := true; saved_transaction := None |},
     snd (saveTransaction amb1 file td)).
Proof.
  intros Hne Hid.
  destruct (saveTransaction_cases amb1 file td) as [[D ->] | (D & t & -> & Ht & _)];
    cbn [snd].
  - destruct (saveTransaction_cases amb2 file td') as [[_ ->] | (D' & _)]; [reflexivity |].
    rewrite Hid in D'. congruence.
  - destruct (saveTransaction_cases amb2 (file ++ [t]) td') as [[_ ->] | (D' & _)];
      [reflexivity |].
    exfalso. unfold checkDuplicate in D'. rewrite existsb_app_new in D'; [discriminate |].
    rewrite Ht, (or_string_nonempty _ _ Hne), Hid. apply String.eqb_refl.
Qed.



(** X18: what [saveTransaction] has stored, the readers find: the saved
    transaction is the one [getTransactionById] returns for its id,
    [checkDuplicate] knows the id, [getTransactionsByQR] lists it under
    its QR id, its [id] is its position in the file, and [getStats]
    counts one transaction more; its [netAmount] is [null], the record
    of the parser having no such property. *)
Theorem saved_transaction_is_found (cal : Calendar) (amb : Ambient)
    (file file' : list Transaction) (td : TransactionData) (t : Transaction) :
  transactionId td <> "" ->
  saveTransaction amb file td
  = ({| saved_success := true; saved_duplicate := false; saved_transaction := Some t |},
     file') ->
  getTransactionById file' (transactionId td) = Some t
  /\ checkDuplicate file' (transactionId td) = true
  /\ In t (getTransactionsByQR file' (qrId t))
  /\ id t = Z.of_nat (List.length file')
  /\ totalTransactions (getStats cal file') = S (totalTransactions (getStats cal file))
  /\ netAmount t = None.
Proof.
  intros Hne H.
  destruct (saveTransaction_cases amb file td)
    as [[_ E] | (D & t' & E & Ht & Hi & _ & _ & Hn)];
    rewrite E in H; [discriminate H |].
  injection H as -> <-.
  assert (Hid : String.eqb (t_transactionId t) (transactionId td) = true)
    by (rewrite Ht, (or_string_nonempty _ _ Hne); apply String.eqb_refl).
  split; [apply find_app_new; assumption |].
  split; [apply existsb_app_new; assumption |].
  split; [| split; [| split]].
  - unfold getTransactionsByQR. apply filter_In. split.
    + apply in_or_app. right. left. reflexivity.
    + apply String.eqb_refl.
  - rewrite Hi, length_app. cbn [List.length]. lia.
  - cbn [getStats totalTransactions]. rewrite length_app. cbn [List.length]. lia.
  - exact Hn.
Qed.

Lemma saved_transaction_is_found_witness :
  exists t file',
    saveTransaction (quiet "u1") [] Records.sample_record
    = ({| saved_success := true; saved_duplicate := false; saved_transaction := Some t |},
       file')
    /\ getTransactionById file' "TXN1" = Some t
    /\ qrId t = "001170"
    /\ id t = 1%Z.
Proof.
  destruct (saveTransaction_cases (quiet "u1") [] Records.sample_record)
    as [[D _] | (_ & t & E & _ & _ & _)]; [discriminate D |].
  exists t, [t]. split; [exact E |].
  destruct (saved_transaction_is_found Records.new_year (quiet "u1") [] [t]
              Records.sample_record t) as (H1 & _ & _ & H4 & _);
    [discriminate | exact E |].
  split; [exact H1 |]. split; [| exact H4].
  revert E. unfold saveTransaction. cbn [existsb].
  intros E. injection E as <-. reflexivity.
Defined.

(** X19: a callback without a transaction id is never recognised: it is
    stored under an id made from the clock, so that each delivery adds a
    transaction, and no stored transaction has an empty id. *)
Theorem empty_id_is_saved_every_time (amb : Ambient) (file : list Transaction)
    (td : TransactionData) :
  transactionId td = "" ->
  Forall (fun t => t_transactionId t <> "") file ->
  saved_duplicate (fst (saveTransaction amb file td)) = false
  /\ List.length (snd (saveTransaction amb file td)) = S (List.length file)
  /\ Forall (fun t => t_transactionId t <> "") (snd (saveTransaction amb file td)).
Proof.
  intros Hid F.
  destruct (saveTransaction_cases amb file td) as [[D _] | (_ & t & -> & Ht & _)].
  - exfalso. unfold checkDuplicate in D. apply existsb_exists in D.
    destruct D as (t & Hin & E). apply String.eqb_eq in E.
    rewrite Hid in E. rewrite Forall_forall in F. exact (F t Hin E).
  - cbn [fst snd saved_duplicate]. split; [reflexivity |].
    split; [rewrite length_app; cbn [List.length]; lia |].
    apply Forall_app. split; [exact F |]. constructor; [| constructor].
    rewrite Ht, Hid. discriminate.
Qed.

Lemma empty_id_is_saved_every_time_witness :
  List.length
    (snd (saveTransaction (quiet "u2")
            (snd (saveTransaction (quiet "u1") [] (Records.callback "" "STQ001170" "SUCCESS")))
            (Records.callback "" "STQ001170" "SUCCESS"))) = 2%nat.
Proof.
  destruct (empty_id_is_saved_every_time (quiet "u1") []
              (Records.callback "" "STQ001170" "SUCCESS") eq_refl (Forall_nil _))
    as (_ & L1 & F1).
  destruct (empty_id_is_saved_every_time (quiet "u2") _
              (Records.callback "" "STQ001170" "SUCCESS") eq_refl F1)
    as (_ & L2 & _).
  rewrite L2, L1. reflexivity.
Defined.

Lemma substring_0_past (s t : string) (n : nat) :
  (String.length s <= n)%nat ->
  String.substring 0 n (s ++ t) = s ++ String.substring 0 (n - String.length s) t.
Proof.
  revert n. induction s as [| c s IH]; intros n H; cbn [append String.length].
  - now rewrite Nat.sub_0_r.
  - destruct n as [| n]; [cbn in H; lia |].
    cbn [String.substring Nat.sub]. f_equal. apply IH. cbn in H. lia.
Qed.

(** X20: the local file and the database do not name the QR code of a
    callback alike.  For a reference [STQ{identifier}{timestamp}] or
    [DYN{identifier}{timestamp}] whose identifier has fewer than six
    characters, the [qrId] that [saveTransaction] stores is the
    identifier followed by the first characters of the timestamp, which
    is never the identifier [extractQRIdentifier] reads. *)
Theorem local_qrId_is_not_the_identifier (amb : Ambient) (file file' : list Transaction)
    (td : TransactionData) (t : Transaction) (tag identifier timestamp : string) :
  tag = "STQ" \/ tag = "DYN" ->
  String.length timestamp = 13%nat ->
  (String.length identifier < 6)%nat ->
  merchantTxnId td = tag ++ identifier ++ timestamp ->
  saveTransaction amb file td
  = ({| saved_success := true; saved_duplicate := false; saved_transaction := Some t |},
     file') ->
  qrId t = identifier ++ String.substring 0 (6 - String.length identifier) timestamp
  /\ Webhook.extractQRIdentifier (merchantTxnId td) = identifier
  /\ qrId t <> Webhook.extractQRIdentifier (merchantTxnId td).
Proof.
  intros Htag Hts Hid Href H.
  destruct (saveTransaction_cases amb file td)
    as [[_ E] | (_ & t' & E & _ & _ & Hq & _)]; rewrite E in H; [discriminate H |].
  injection H as -> _.
  assert (Hx : exists c x, String.substring 0 (6 - String.length identifier) timestamp
                           = String c x).
  { destruct timestamp as [| c ts]; [discriminate Hts |].
    destruct (6 - String.length identifier)%nat as [| m] eqn:M; [lia |].
    cbn [String.substring]. eauto. }
  destruct Hx as (c & x & Hx).
  assert (Hs : JS.substring 3 9 (tag ++ identifier ++ timestamp)
               = identifier ++ String.substring 0 (6 - String.length identifier) timestamp).
  { unfold JS.substring. rewrite !Strings.length_append, Hts.
    assert (L3 : String.length tag = 3%nat) by (destruct Htag as [-> | ->]; reflexivity).
    rewrite L3.
    replace (Z.max 0 (Z.min 3 (Z.of_nat (3 + (String.length identifier + 13))))) with 3%Z
      by lia.
    replace (Z.max 0 (Z.min 9 (Z.of_nat (3 + (String.length identifier + 13))))) with 9%Z
      by lia.
    change (Z.to_nat (Z.min 3 9)) with 3%nat.
    change (Z.to_nat (Z.max 3 9 - Z.min 3 9)) with 6%nat.
    destruct Htag as [-> | ->]; cbn [append]; rewrite !Strings.substring_skip;
      apply substring_0_past; lia. }
  assert (Hq' : qrId t = identifier ++ String c x).
  { rewrite Hq, Href, Hs, Hx. destruct identifier; reflexivity. }
  split; [now rewrite Hq', Hx |].
  assert (He : Webhook.extractQRIdentifier (merchantTxnId td) = identifier)
    by (rewrite Href; apply Reference.extractQRIdentifier_tagged; assumption).
  split; [exact He |].
  rewrite He, Hq'. intros Heq. apply (f_equal String.length) in Heq.
  rewrite Strings.length_append in Heq. cbn [String.length] in Heq. lia.
Qed.

Lemma local_qrId_is_not_the_identifier_witness :
  exists t file',
    saveTransaction (quiet "u1") [] Records.sample_record
    = ({| saved_success := true; saved_duplicate := false; saved_transaction := Some t |},
       file')
    /\ qrId t = "001170"
    /\ Webhook.extractQRIdentifier (merchantTxnId Records.sample_record) = "001".
Proof.
  destruct (saveTransaction_cases (quiet "u1") [] Records.sample_record)
    as [[D _] | (_ & t & E & _)]; [discriminate D |].
  exists t, [t]. split; [exact E |].
  destruct (local_qrId_is_not_the_identifier (quiet "u1") [] [t] Records.sample_record t
              "STQ" "001" "1700000000000") as (H1 & H2 & _);
    [left; reflexivity | reflexivity | cbn; lia | reflexivity | exact E |].
  split; [exact H1 | exact H2].
Defined.

Lemma filter_partition_length {A : Type} (f g : A -> bool) (l : list A) :
  (forall x, f x && g x = false) ->
  (List.length (filter f l) + List.length (filter g l)
   = List.length (filter (fun x => f x || g x) l))%nat.
Proof.
  intros D. induction l as [| x l IH]; cbn [filter]; [reflexivity |].
  specialize (D x). destruct (f x), (g x); cbn [orb andb List.length] in *;
    try discriminate; lia.
Qed.

(** The three counts of [getStats] are counts of the exact texts
    [SUCCESS], [FAILED] and [PENDING]: together they count the
    transactions with one of these statuses, and a transaction stored
    with any other status is in the total and in none of them. *)
Lemma getStats_counts (cal : Calendar) (file : list Transaction) :
  (successfulTransactions (getStats cal file) + failedTransactions (getStats cal file)
   + pendingTransactions (getStats cal file)
   + List.length (filter (fun t => negb (String.eqb (t_status t) "SUCCESS"
                                          || String.eqb (t_status t) "FAILED"
                                          || String.eqb (t_status t) "PENDING")) file)
   = totalTransactions (getStats cal file))%nat.
Proof.
  cbn [getStats successfulTransactions failedTransactions pendingTransactions
       totalTransactions]. unfold with_status.
  induction file as [| t file IH]; cbn [filter List.length]; [reflexivity |].
  destruct (String.eqb_spec (t_status t) "SUCCESS") as [E | _];
    [rewrite E; cbn [String.eqb Ascii.eqb Bool.eqb orb negb List.length]; cbn; lia |].
  destruct (String.eqb_spec (t_status t) "FAILED") as [E | _];
    [rewrite E; cbn; lia |].
  destruct (String.eqb (t_status t) "PENDING"); cbn [orb negb List.length]; lia.
Qed.

End LocalFile.

(** ** The handler in development *)

Module Development.
Import EncryptionUtil Samples TransactionValidator Webhook LocalTransactionStore.
Import LocalStore LocalFile TransactionsRoute.

(** In development [complete] saves to the file and emits one event. *)
Lemma complete_in_development (rt : Runtime) (env : Env) (amb : Ambient) (w : World)
    (td : TransactionData) :
  development env = true ->
  validateAmount (EncryptionUtil.amount td) = Ok true ->
  exists e,
    complete rt env amb w td
    = (processed td,
       {| db := db w;
          transactions_json := snd (saveTransaction amb (transactions_json w) td);
          emitted := (emitted w ++ [e])%list |})
    /\ data e = td.
Proof.
  intros Hdev Ha. unfold complete. rewrite Ha.
  rewrite (Callbacks.validateTimestamp_dev rt env amb _ Hdev).
  destruct (String.eqb (transactionStatus td) "SUCCESS");
    unfold processSuccessfulTransaction, processFailedTransaction, save;
    rewrite Hdev;
    destruct (saveTransaction amb (transactions_json w) td) as [r file];
    cbn [emitRealtimeUpdate db transactions_json emitted snd];
    eexists; split; reflexivity.
Qed.

(** X21: in development the handler never writes the database: whatever
    the request, the database after it is the database before it. *)
Theorem development_never_writes_the_database (rt : Runtime) (env : Env) (amb : Ambient)
    (w : World) (req : Request) :
  development env = true ->
  db (snd (webhook rt env amb w req)) = db w.
Proof.
  intros Hdev. unfold webhook.
  destruct (receive rt env amb w req) as [[r | td] | e]; try reflexivity.
  unfold complete.
  destruct (validateAmount (EncryptionUtil.amount td)); [| reflexivity].
  destruct (validateTimestamp rt env amb (transactionDateTime td)); [| reflexivity].
  destruct (String.eqb (transactionStatus td) "SUCCESS");
    unfold processSuccessfulTransaction, processFailedTransaction, save;
    rewrite Hdev;
    destruct (saveTransaction amb (transactions_json w) td) as [r file]; reflexivity.
Qed.

Lemma development_never_writes_the_database_witness :
  db (snd (webhook clear_text local_development (quiet "u1") shop (request sample_fields)))
  = db shop
  /\ List.length
       (transactions_json
          (snd (webhook clear_text local_development (quiet "u1") shop
                  (request sample_fields)))) = 1%nat.
Proof.
  split; [| vm_compute; reflexivity].
  apply development_never_writes_the_database. reflexivity.
Defined.

(** X22: a redelivery in development, once it is past the duplicate
    lookup of the database: the file stays as the first delivery left it,
    yet the caller is told again that the webhook was processed, and the
    realtime event is emitted a second time. *)
Theorem development_redelivery (rt : Runtime) (env : Env) (amb1 amb2 : Ambient)
    (w : World) (td : TransactionData) :
  development env = true ->
  validateAmount (EncryptionUtil.amount td) = Ok true ->
  transactionId td <> "" ->
  fst (complete rt env amb2 (snd (complete rt env amb1 w td)) td) = processed td
  /\ transactions_json (snd (complete rt env amb2 (snd (complete rt env amb1 w td)) td))
     = transactions_json (snd (complete rt env amb1 w td))
  /\ List.length (emitted (snd (complete rt env amb2 (snd (complete rt env amb1 w td)) td)))
     = S (S (List.length (emitted w))).
Proof.
  intros Hdev Ha Hne.
  destruct (complete_in_development rt env amb1 w td Hdev Ha) as (e1 & -> & _).
  cbn [snd].
  match goal with
  | |- context [complete rt env amb2 ?w1 td] =>
      destruct (complete_in_development rt env amb2 w1 td Hdev Ha) as (e2 & -> & _)
  end.
  cbn [fst snd transactions_json emitted].
  split; [reflexivity |]. split.
  - rewrite (saveTransaction_again amb1 amb2 _ td td Hne eq_refl). reflexivity.
  - rewrite !length_app. cbn [List.length]. lia.
Qed.

Lemma development_redelivery_witness :
  fst (complete clear_text local_development (quiet "u2")
         (snd (complete clear_text local_development (quiet "u1") shop
                 Records.sample_record))
         Records.sample_record) = processed Records.sample_record
  /\ List.length
       (transactions_json
          (snd (complete clear_text local_development (quiet "u2")
                  (snd (complete clear_text local_development (quiet "u1") shop
                          Records.sample_record))
                  Records.sample_record))) = 1%nat.
Proof.
  destruct (development_redelivery clear_text local_development (quiet "u1") (quiet "u2")
              shop Records.sample_record eq_refl) as (H1 & H2 & _).
  - vm_compute. reflexivity.
  - discriminate.
  - split; [exact H1 |]. rewrite H2. vm_compute. reflexivity.
Defined.

(** X23: the listing route shows what the webhook stored: in development,
    after a callback with a transaction id has been processed, the route
    answers 200 with a transaction of that id, and its count is the
    number of transactions it lists; outside development it answers 403
    and lists nothing. *)
Theorem processed_callback_is_listed (rt : Runtime) (env : Env) (cal : Calendar)
    (amb : Ambient) (w : World) (td : TransactionData) :
  (development env = true ->
   validateAmount (EncryptionUtil.amount td) = Ok true ->
   transactionId td <> "" ->
   exists l,
     listing_status (transactions env cal (snd (complete rt env amb w td))) = 200%nat
     /\ listing_transactions (transactions env cal (snd (complete rt env amb w td))) = Some l
     /\ listing_count (transactions env cal (snd (complete rt env amb w td)))
        = Some (List.length l)
     /\ exists t, In t l /\ t_transactionId t = transactionId td)
  /\ (development env = false ->
      listing_status (transactions env cal w) = 403%nat
      /\ listing_transactions (transactions env cal w) = None).
Proof.
  split.
  - intros Hdev Ha Hne.
    destruct (complete_in_development rt env amb w td Hdev Ha) as (e & -> & _).
    unfold transactions. rewrite Hdev. cbn [snd transactions_json listing_status
      listing_transactions listing_count].
    eexists. split; [reflexivity |]. split; [reflexivity |]. split; [reflexivity |].
    destruct (saveTransaction_cases amb (transactions_json w) td)
      as [[D ->] | (_ & t & -> & Ht & _)]; cbn [snd].
    + unfold checkDuplicate in D. apply existsb_exists in D. destruct D as (t & Hin & E).
      apply String.eqb_eq in E. exists t. auto.
    + exists t. split; [apply in_or_app; right; left; reflexivity |].
      rewrite Ht. apply or_string_nonempty. exact Hne.
  - intros Hdev. unfold transactions. rewrite Hdev. split; reflexivity.
Qed.

End Development.

(** ** When the duplicate lookup fails *)

Module DuplicateLookup.
Import EncryptionUtil Samples TransactionValidator QRTransactionService Webhook.
Import Handler Reconciliation LocalFile Development.

(** Outside development, a validated callback whose QR code is known is
    processed whenever the connection is there. *)
Lemma complete_outside_development (rt : Runtime) (env : Env) (amb : Ambient) (w : World)
    (td : TransactionData) :
  development env = false ->
  connection_error amb = None ->
  validateAmount (EncryptionUtil.amount td) = Ok true ->
  validateTimestamp rt env amb (transactionDateTime td) = Ok true ->
  (exists q, In q (qr_codes (db w))
             /\ qr_identifier q = extractQRIdentifier (merchantTxnId td)) ->
  exists wd p db' ev,
    complete rt env amb w td
    = (processed td,
       {| db := db'; transactions_json := transactions_json w;
          emitted := (emitted w ++ [ev])%list |})
    /\ processTransactionWebhook amb (db w) wd = (Ok p, db')
    /\ transaction_id wd = transactionId td
    /\ merchant_id wd = merchantId td
    /\ amount wd = EncryptionUtil.amount td
    /\ status wd = (if String.eqb (transactionStatus td) "SUCCESS"
                    then "success" else "failed").
Proof.
  intros Hdev Hc Ha Ht Hq. unfold complete. rewrite Ha, Ht.
  destruct (String.eqb (transactionStatus td) "SUCCESS");
    unfold processSuccessfulTransaction, processFailedTransaction, save; rewrite Hdev;
    match goal with
    | |- context [processTransactionWebhook amb (db w) ?x] =>
        set (wd := x);
        destruct (processTransactionWebhook_accepts amb (db w) wd Hc Hq) as [db' Hp];
        rewrite Hp; cbn [bind emitRealtimeUpdate db transactions_json emitted];
        exists wd; eexists; exists db'; eexists;
        split; [reflexivity |]; split; [exact Hp |]; repeat split; reflexivity
    end.
Qed.

(** C10: when the lookup of [checkDuplicate] throws, [checkDuplicate]
    answers [false], and a callback that decrypts, parses and passes the
    checksum goes on to validation and processing as a first delivery.
    When its amount and timestamp are accepted, the caller is answered
    200 [Webhook processed successfully], not the error of the lookup:
    in development the transaction is saved to the local file; outside
    development, with a connection and a known QR code, the transaction
    is inserted when its id is new, and the stored one is overwritten
    when it is not. *)
Theorem failed_lookup_is_not_a_duplicate
    (rt : Runtime) (env : Env) (amb : Ambient) (w : World) (req : Request)
    (key d : string) (td : TransactionData) (e : JsError) :
  query_error amb = Some e ->
  decrypts_to rt env req key d ->
  parseHDFCResponse d = Ok td ->
  checksum_accepted env key td = true ->
  checkDuplicate amb (db w) (transactionId td) (merchantId td) = false
  /\ receive rt env amb w req = Ok (Proceed td)
  /\ webhook rt env amb w req = complete rt env amb w td
  /\ (validateAmount (EncryptionUtil.amount td) = Ok true ->
      validateTimestamp rt env amb (transactionDateTime td) = Ok true ->
      (development env = false ->
       connection_error amb = None
       /\ exists q, In q (qr_codes (db w))
                    /\ qr_identifier q = extractQRIdentifier (merchantTxnId td)) ->
      exists w1,
        webhook rt env amb w req = (processed td, w1)
        /\ List.length (emitted w1) = S (List.length (emitted w))
        /\ if development env then
             db w1 = db w
             /\ (transactionId td <> "" ->
                 exists t, In t (transactions_json w1)
                           /\ LocalTransactionStore.t_transactionId t = transactionId td)
           else
             transactions_json w1 = transactions_json w
             /\ (forall t, In t (qr_transactions (db w1)) ->
                           tx_transaction_id t = transactionId td ->
                           tx_status t = if String.eqb (transactionStatus td) "SUCCESS"
                                         then "success" else "failed")
             /\ ((forall t, In t (qr_transactions (db w)) ->
                            tx_transaction_id t <> transactionId td) ->
                 exists t',
                   qr_transactions (db w1) = (qr_transactions (db w) ++ [t'])%list
                   /\ tx_transaction_id t' = transactionId td
                   /\ tx_merchant_id t' = merchantId td
                   /\ tx_amount t' = EncryptionUtil.amount td)
             /\ ((exists t, In t (qr_transactions (db w))
                            /\ tx_transaction_id t = transactionId td) ->
                 map tx_transaction_id (qr_transactions (db w1))
                 = map tx_transaction_id (qr_transactions (db w)))).
Proof.
  intros He Hd Hp Hc.
  assert (Hdup : checkDuplicate amb (db w) (transactionId td) (merchantId td) = false).
  { unfold checkDuplicate, QRTransactionService.getTransactionDetails.
    rewrite He. reflexivity. }
  assert (Hr : receive rt env amb w req = Ok (Proceed td)).
  { rewrite (receive_decrypted rt env amb w req key d Hd).
    rewrite (decoded_accepted env amb w key d td Hp Hc), Hdup. reflexivity. }
  assert (Hw : webhook rt env amb w req = complete rt env amb w td)
    by (unfold webhook; rewrite Hr; reflexivity).
  split; [exact Hdup |]. split; [exact Hr |]. split; [exact Hw |].
  intros Ha Ht Hout. rewrite Hw.
  destruct (development env) eqn:Hdev.
  - destruct (complete_in_development rt env amb w td Hdev Ha) as (ev & -> & _).
    eexists. split; [reflexivity |]. cbn [db transactions_json emitted].
    split; [rewrite length_app; cbn [List.length]; lia |].
    split; [reflexivity |]. intros Hne.
    destruct (saveTransaction_cases amb (transactions_json w) td)
      as [[D ->] | (_ & t & -> & Hid & _)]; cbn [snd].
    + unfold LocalStore.checkDuplicate in D. apply existsb_exists in D.
      destruct D as (t & Hin & E). apply String.eqb_eq in E. exists t. auto.
    + exists t. split; [apply in_or_app; right; left; reflexivity |].
      rewrite Hid. apply or_string_nonempty. exact Hne.
  - destruct (Hout eq_refl) as [Hconn Hq].
    destruct (complete_outside_development rt env amb w td Hdev Hconn Ha Ht Hq)
      as (wd & p & db' & ev & -> & Hproc & Hid & Hm & Hamt & Hs).
    eexists. split; [reflexivity |]. cbn [db transactions_json emitted].
    split; [rewrite length_app; cbn [List.length]; lia |].
    split; [reflexivity |].
    destruct (processTransactionWebhook_rows amb (db w) db' wd p Hproc)
      as (_ & Hknown & Hnew).
    rewrite <- Hid, <- Hm, <- Hamt, <- Hs.
    split; [exact (processTransactionWebhook_sets_status amb (db w) db' wd p Hproc) |].
    split; [| exact Hknown].
    intros Hn. destruct (Hnew Hn) as (t' & E & H1 & H2 & H3 & _).
    exists t'. auto.
Qed.

Lemma failed_lookup_is_not_a_duplicate_witness :
  exists w1,
    checkDuplicate (lookup_down "u1") (db shop) "TXN1" "HDFC000010380443" = false
    /\ webhook clear_text production (lookup_down "u1") shop (request sample_fields)
       = (processed Records.sample_record, w1)
    /\ map tx_transaction_id (qr_transactions (db w1)) = ["TXN1"]
    /\ map tx_status (qr_transactions (db w1)) = ["success"].
Proof.
  assert (Hd : decrypts_to clear_text production (request sample_fields) sample_key
                 (plaintext sample_fields))
    by (exists (plaintext sample_fields); repeat split; try reflexivity; discriminate).
  assert (Hp : parseHDFCResponse (plaintext sample_fields) = Ok Records.sample_record)
    by (vm_compute; reflexivity).
  assert (Hc : checksum_accepted production sample_key Records.sample_record = true)
    by (vm_compute; reflexivity).
  destruct (failed_lookup_is_not_a_duplicate clear_text production
              (lookup_down "u1") shop (request sample_fields) sample_key
              (plaintext sample_fields) Records.sample_record
              (Error "connect ECONNREFUSED") eq_refl Hd Hp Hc) as (H1 & _ & _ & H4).
  destruct H4 as (w1 & Hw & _ & Hb).
  - vm_compute. reflexivity.
  - vm_compute. reflexivity.
  - intros _. split; [reflexivity |]. eexists. split; [left; reflexivity | reflexivity].
  - change (development production) with false in Hb. cbv iota in Hb.
    destruct Hb as (_ & Hst & Hnew & _).
    destruct (Hnew (fun t (H : In t []) => match H with end)) as (t' & E & Hid & _).
    change (qr_transactions (db shop)) with (@nil QrTransaction) in E.
    cbn [app] in E.
    exists w1. split; [exact H1 |]. split; [exact Hw |].
    rewrite E. cbn [map]. rewrite Hid. split; [reflexivity |].
    rewrite (Hst t'); [reflexivity | rewrite E; left; reflexivity | exact Hid].
Defined.

(** The same failure on a transaction that is stored: the callback is
    processed again, the stored row is overwritten and the payment is
    counted a second time. *)
Example failed_lookup_on_a_stored_transaction :
  exists w1,
    webhook clear_text production (lookup_down "u2") recorded (request sample_fields)
      = (processed Records.sample_record, w1)
    /\ List.length (qr_transactions (db w1)) = 1%nat
    /\ map ds_total_transactions (qr_daily_stats (db w1)) = [2%Z].
Proof.
  eexists. split; [vm_compute; reflexivity |]. split; reflexivity.
Qed.

End DuplicateLookup.

(** ** The payment link *)

Module PaymentLink.
Import Text UPI NumberText Strings VPAService.

Lemma utf8_char_bytes (c : ascii) : Forall byte (Crypto.utf8 (String c EmptyString)).
Proof.
  cbn [Crypto.utf8]. pose proof (nat_ascii_bounded c) as B.
  destruct (Z.ltb_spec (Z.of_nat (nat_of_ascii c)) 128) as [L | L].
  - constructor; [| constructor]; unfold byte; lia.
  - assert (H6 : (0 <= Z.shiftr (Z.of_nat (nat_of_ascii c)) 6 < 4)%Z).
    { rewrite Z.shiftr_div_pow2 by lia. change (2 ^ 6)%Z with 64%Z.
      split; [apply Z.div_pos; lia | apply Z.div_lt_upper_bound; lia]. }
    assert (H63 : (0 <= Z.land (Z.of_nat (nat_of_ascii c)) 63 < 64)%Z).
    { change 63%Z with (Z.ones 6). rewrite Z.land_ones by lia. apply Z.mod_pos_bound. lia. }
    constructor; [| constructor; [| constructor]]; unfold byte; lia.
Qed.

Lemma percent_escaped (bytes : list Z) :
  Forall byte bytes -> Forall (fun c => escaped_char c = true) (characters (percent bytes)).
Proof.
  induction 1 as [| b bytes Hb _ IH]; cbn [percent]; [constructor |].
  rewrite characters_append. apply Forall_app. split; [| exact IH].
  cbn [characters]. constructor; [reflexivity |].
  destruct (Digest.hex_upper [b]) as [_ Hc]; [constructor; [exact Hb | constructor] |].
  apply Forall_forall. intros c Hin. rewrite Forall_forall in Hc.
  unfold escaped_char. rewrite (Hc c Hin). apply orb_true_r.
Qed.

Lemma encodeURIComponent_escaped (s : string) :
  Forall (fun c => escaped_char c = true) (characters (encodeURIComponent s)).
Proof.
  induction s as [| c s IH]; cbn [encodeURIComponent]; [constructor |].
  rewrite characters_append. apply Forall_app. split; [| exact IH].
  destruct (uri_unreserved c) eqn:U.
  - cbn [characters]. constructor; [| constructor]. unfold escaped_char. now rewrite U.
  - apply percent_escaped. apply utf8_char_bytes.
Qed.

Lemma encodeURIComponent_without (c : ascii) (s : string) :
  escaped_char c = false -> occurrences c (encodeURIComponent s) = 0%nat.
Proof.
  intros H. apply (occurrences_absent (fun c => escaped_char c = true));
    [congruence | apply encodeURIComponent_escaped].
Qed.

Example encodeURIComponent_values :
  encodeURIComponent ("Caf" ++ String (ascii_of_nat 233) " & Co/#1")
  = "Caf%C3%A9%20%26%20Co%2F%231"
  /\ encodeURIComponent "a-b_c.d!e~f*g'h(i)j" = "a-b_c.d!e~f*g'h(i)j".
Proof. split; reflexivity. Qed.

Example generateUPIString_values :
  generateUPIString
    {| vpa := formatVPA "AB12Z"; merchantName := Some "Joe & Sons";
       amount := Some (JS.parseFloat "100.50"); description := Some "" |}
  = "upi://pay?pa=sabpaisa.AB12Z@okhdfcbank&pn=Joe%20%26%20Sons&am=100.5&mc=5411"
  /\ generateUPIString
       {| vpa := formatVPA "AB12Z"; merchantName := None;
          amount := Some (JS.of_Z 0); description := Some "tea" |}
     = "upi://pay?pa=sabpaisa.AB12Z@okhdfcbank&tn=tea&mc=5411".
Proof. split; vm_compute; reflexivity. Qed.

(** A value of the link: it holds no [&] and no [=]. *)
Lemma text_parameter_shape (key : string) (text : option string) :
  text_parameter key text = ""
  \/ exists v, text_parameter key text = "&" ++ key ++ "=" ++ v
               /\ occurrences "&" v = 0%nat /\ occurrences "=" v = 0%nat.
Proof.
  destruct text as [[| c rest] |]; [now left | | now left].
  right. eexists. split; [reflexivity |].
  split; apply encodeURIComponent_without; reflexivity.
Qed.

(** X24: the link [generateUPIString] builds is the address followed by
    at most three parameters and the merchant code; the values written
    for the name, the amount and the description hold no [&] and no [=],
    so that none of them can end its parameter or begin another. *)
Theorem generateUPIString_shape (params : Params) :
  exists pn am tn,
    generateUPIString params
    = "upi://pay?pa=" ++ vpa params ++ pn ++ am ++ tn ++ "&mc=5411"
    /\ (pn = "" \/ exists v, pn = "&pn=" ++ v
                             /\ occurrences "&" v = 0%nat /\ occurrences "=" v = 0%nat)
    /\ (am = "" \/ exists v, am = "&am=" ++ v
                             /\ occurrences "&" v = 0%nat /\ occurrences "=" v = 0%nat)
    /\ (tn = "" \/ exists v, tn = "&tn=" ++ v
                             /\ occurrences "&" v = 0%nat /\ occurrences "=" v = 0%nat).
Proof.
  exists (text_parameter "pn" (merchantName params)),
         (match amount params with
          | Some a => if JS.truthy a && JS.gt a (JS.of_Z 0)
                      then "&am=" ++ JS.Number_toString a else ""
          | None => ""
          end),
         (text_parameter "tn" (description params)).
  split; [| split; [| split]].
  - unfold generateUPIString.
    destruct (amount params) as [a |]; [destruct (JS.truthy a && JS.gt a (JS.of_Z 0)) |];
      rewrite ?append_assoc, ?append_nil_r; cbn [append]; rewrite ?append_assoc;
      reflexivity.
  - apply (text_parameter_shape "pn").
  - destruct (amount params) as [a |]; [| now left].
    destruct (JS.truthy a && JS.gt a (JS.of_Z 0)); [| now left].
    right. eexists. split; [reflexivity |].
    split; apply Number_toString_without; reflexivity.
  - apply (text_parameter_shape "tn").
Qed.

End PaymentLink.

(** ** The health probes *)

Module Probes.
Import Health.

Lemma signal_signal (st : State) : signal (signal st) = signal st.
Proof. reflexivity. Qed.


(** *** Shutting down, with requests under way *)












(** [checkDatabase] is its two parts, one after the other. *)
Lemma checkDatabase_parts (env : Settings) (p : Probe) (st : State) :
  checkDatabase env p st
  = match checkDatabase_begin env p st with
    | (Some result, st1) => (result, st1)
    | (None, st1) =>
        checkDatabase_end
          (match dbConnection p with Some outcome => outcome | None => None end)
          (now_stored p) st1
    end.
Proof.
  unfold checkDatabase, checkDatabase_begin, checkDatabase_end.
  destruct (recent (lastDatabaseCheck st) (now_read p)); [reflexivity |].
  destruct (unset (DB_HOST env) && unset (DATABASE_URL env)); [reflexivity |].
  destruct (dbConnection p) as [[e |] |]; reflexivity.
Qed.

Lemma checkExternalAPIs_parts (env : Settings) (p : Probe) (st : State) :
  checkExternalAPIs env p st
  = match checkExternalAPIs_begin p st with
    | Some result => (result, st)
    | None =>
        checkExternalAPIs_end
          (lookup p (or_default (HDFC_API_URL env) "https://upitestv2.hdfcbank.com"))
          (now_stored p) st
    end.
Proof.
  unfold checkExternalAPIs, checkExternalAPIs_begin, checkExternalAPIs_end.
  destruct (recent (lastExternalAPICheck st) (now_read p)); [reflexivity |].
  destruct (lookup p _); reflexivity.
Qed.

Lemma checkDatabase_begin_flag (env : Settings) (p : Probe) (st : State) :
  isShuttingDown (snd (checkDatabase_begin env p st)) = isShuttingDown st
  /\ lastExternalAPICheck (snd (checkDatabase_begin env p st)) = lastExternalAPICheck st.
Proof.
  unfold checkDatabase_begin.
  destruct (recent (lastDatabaseCheck st) (now_read p)); [now split |].
  destruct (unset (DB_HOST env) && unset (DATABASE_URL env)); [now split |].
  destruct (dbConnection p); now split.
Qed.

Ltac project_state :=
  repeat match goal with
         | |- context [state (Build_Server ?s ?w ?a ?r)] =>
             change (state (Build_Server s w a r)) with s
         end.

Ltac step_request :=
  repeat (progress (cbn -[Nat.eqb detailed_reply ready_reply checkDatabase_end
                          checkExternalAPIs_end or_default];
                    project_state; rewrite ?Nat.eqb_refl)).

Ltac settle_request :=
  repeat (step_request;
          match goal with
          | |- context [checkDatabase_end ?o ?t ?s] =>
              destruct (checkDatabase_end o t s) as [? ?]
          | |- context [checkExternalAPIs_end ?o ?t ?s] =>
              destruct (checkExternalAPIs_end o t s) as [? ?]
          end);
  step_request; reflexivity.

(** A request served with nothing in between, its awaited promises
    settling at once with what the machine of [p] answers, is the
    request of [serve]. *)
Lemma request_without_overlap (env : Settings) (route : Route) (p : Probe) (st : State)
    (n : nat) :
  run env
    [ Arrives route p;
      Pinged n (match dbConnection p with Some outcome => outcome | None => None end)
             (now_stored p);
      Resolved n (lookup p (or_default (HDFC_API_URL env) "https://upitestv2.hdfcbank.com"))
               (now_stored p);
      Stat n ]
    {| state := st; waiting := []; arrivals := n; replies := [] |}
  = {| state := snd (serve env route p st); waiting := []; arrivals := S n;
       replies := [(n, route, fst (serve env route p st))] |}.
Proof.
  unfold run. cbn [fold_left].
  destruct route;
    try (cbn [step arrive state waiting arrivals replies];
         destruct (serve env _ p st) as [r st1]; reflexivity).
  - (* /health/detailed *)
    cbn [step arrive serve state waiting arrivals replies].
    destruct (isShuttingDown st) eqn:F; [reflexivity |].
    rewrite checkDatabase_parts.
    pose proof (checkDatabase_begin_flag env p st) as [_ Hapi].
    destruct (checkDatabase_begin env p st) as [dbHealth st1]. cbn [snd] in Hapi.
    assert (Hsys : getSystemMetrics p
                   = match system_metrics_error p with
                     | Some e => getSystemMetrics p
                     | None => getSystemMetrics p
                     end) by (now destruct (system_metrics_error p)).
    set (systemMetrics := getSystemMetrics p) in *. clearbody systemMetrics. clear Hsys.
    destruct dbHealth as [dbHealth |].
    + rewrite checkExternalAPIs_parts.
      destruct (checkExternalAPIs_begin p st1) as [apiHealth |];
        destruct (system_metrics_error p); settle_request.
    + assert (Hb : forall o now,
                checkExternalAPIs_begin p (snd (checkDatabase_end o now st1))
                = checkExternalAPIs_begin p st1) by reflexivity.
      specialize (Hb (match dbConnection p with Some o => o | None => None end)
                     (now_stored p)).
      step_request.
      destruct (checkDatabase_end _ (now_stored p) st1) as [dbHealth st2].
      cbn [snd] in Hb. rewrite checkExternalAPIs_parts, Hb.
      destruct (checkExternalAPIs_begin p st1) as [apiHealth |];
        destruct (system_metrics_error p); settle_request.
  - (* /ready *)
    cbn [step arrive serve state waiting arrivals replies].
    destruct (isShuttingDown st) eqn:F; [reflexivity |].
    rewrite checkDatabase_parts.
    destruct (checkDatabase_begin env p st) as [[dbCheck |] st1]; settle_request.
Qed.

(** A request under way when the signal comes is not stopped: this
    [/ready] arrived before the signal and is answered 200 after it,
    once its ping has settled, and the result of its check is stored
    then. *)
Example request_under_way_at_the_signal :
  let sv := run Records.with_database
              [ Arrives Ready (Records.machine 1000 None); Signal; Pinged 0 None 1500 ]
              boot in
  map (fun x => (fst x, code (snd x))) (replies sv) = [((0%nat, Ready), 200%nat)]
  /\ isShuttingDown (state sv) = true
  /\ timestamp (lastDatabaseCheck (state sv)) = Some 1500%Z
  /\ waiting (after_signal Records.with_database [Arrives Ready (Records.machine 1000 None)])
     = [(0%nat, AwaitingReady)].
Proof. repeat split; reflexivity. Qed.

(** After the signal of that run, a second [/ready] is answered 503 at
    once, while the first still waits. *)
Example request_after_the_signal :
  let sv := run Records.with_database
              [ Arrives Ready (Records.machine 1000 None); Signal;
                Arrives Ready (Records.machine 1200 None) ]
              boot in
  map (fun x => (fst x, code (snd x))) (replies sv) = [((1%nat, Ready), 503%nat)]
  /\ map fst (waiting sv) = [0%nat].
Proof. split; reflexivity. Qed.





(** A check that is run reports [unhealthy] exactly when a database
    is configured, a connection object exists and its ping is rejected;
    in every other case, a configured database without a connection
    among them, it reports [healthy]. *)
Lemma unhealthy_means_ping_failed (env : Settings) (p : Probe) (st : State) :
  recent (lastDatabaseCheck st) (now_read p) = false ->
  (status (fst (checkDatabase env p st)) = "unhealthy"
   <-> (unset (DB_HOST env) && unset (DATABASE_URL env) = false
        /\ exists e, dbConnection p = Some (Some e)))
  /\ (status (fst (checkDatabase env p st)) = "unhealthy"
      \/ status (fst (checkDatabase env p st)) = "healthy").
Proof.
  intros Hf. unfold checkDatabase. rewrite Hf. cbn [fst].
  destruct (unset (DB_HOST env) && unset (DATABASE_URL env)).
  - split; [split; [discriminate | intros [E _]; discriminate E] | now right].
  - destruct (dbConnection p) as [[e |] |]; cbn [status checked].
    + split; [split; [intros _; split; [reflexivity | now exists e] | reflexivity] | now left].
    + split; [split; [discriminate | intros [_ [e E]]; discriminate E] | now right].
    + split; [split; [discriminate | intros [_ [e E]]; discriminate E] | now right].
Qed.

End Probes.

(** ** The pool of identifiers *)

Module Identifiers.
Import VPAService VPAPool.

(** *** Random identifiers *)

Lemma charAt_alphabet (i : nat) :
  (i < 36)%nat ->
  exists c, charAt i IDENTIFIER_CHARS = String c EmptyString
            /\ char_in IDENTIFIER_CHARS c = true.
Proof.
  intros H.
  do 36 (destruct i as [| i]; [eexists; split; reflexivity |]).
  lia.
Qed.

(** X27: an identifier drawn by [generateRandomIdentifier] is accepted by
    [validateIdentifierFormat], as long as each of its five draws is an
    index of the alphabet. *)
Theorem random_identifier_is_valid (draw : nat -> nat) (k : nat) :
  (forall i, (i < 5)%nat -> (draw (k + i)%nat < 36)%nat) ->
  validateIdentifierFormat (generateRandomIdentifier draw k) = true.
Proof.
  intros H. unfold generateRandomIdentifier, IDENTIFIER_LENGTH. cbn [random_chars].
  destruct (charAt_alphabet (draw k)) as (c0 & -> & H0);
    [replace k with (k + 0)%nat at 1 by lia; apply H; lia |].
  destruct (charAt_alphabet (draw (S k))) as (c1 & -> & H1);
    [replace (S k) with (k + 1)%nat by lia; apply H; lia |].
  destruct (charAt_alphabet (draw (S (S k)))) as (c2 & -> & H2);
    [replace (S (S k)) with (k + 2)%nat by lia; apply H; lia |].
  destruct (charAt_alphabet (draw (S (S (S k))))) as (c3 & -> & H3);
    [replace (S (S (S k))) with (k + 3)%nat by lia; apply H; lia |].
  destruct (charAt_alphabet (draw (S (S (S (S k)))))) as (c4 & -> & H4);
    [replace (S (S (S (S k)))) with (k + 4)%nat by lia; apply H; lia |].
  unfold validateIdentifierFormat.
  cbn [append String.length Nat.eqb orb negb IDENTIFIER_LENGTH all_chars].
  now rewrite H0, H1, H2, H3, H4.
Qed.

Lemma random_identifier_is_valid_witness :
  generateRandomIdentifier (fun i => (7 * i + 3) mod 36)%nat 0 = "DKRY5"
  /\ validateIdentifierFormat (generateRandomIdentifier (fun i => (7 * i + 3) mod 36)%nat 0)
     = true.
Proof.
  split; [reflexivity |].
  apply random_identifier_is_valid. intros i _. apply Nat.mod_upper_bound. discriminate.
Defined.

(** *** The pool *)


Lemma set_used_identifier (id : string) (m : PoolRow -> option string) (r : PoolRow) :
  identifier (set_used id m r) = identifier r.
Proof. unfold set_used. now destruct (String.eqb (identifier r) id). Qed.

Lemma set_used_keeps (id : string) (m : PoolRow -> option string) (r : PoolRow) :
  is_used r = true -> is_used (set_used id m r) = true.
Proof. unfold set_used. now destruct (String.eqb (identifier r) id). Qed.

Lemma set_used_unused (id : string) (m : PoolRow -> option string) (r : PoolRow) :
  is_used (set_used id m r) = false -> set_used id m r = r /\ is_used r = false.
Proof.
  unfold set_used. destruct (String.eqb (identifier r) id); [discriminate | auto].
Qed.

Lemma map_set_used_identifiers (id : string) (m : PoolRow -> option string)
    (pool : list PoolRow) :
  map identifier (map (set_used id m) pool) = map identifier pool.
Proof. rewrite map_map. apply map_ext. apply set_used_identifier. Qed.

(** Marking rows keeps what is taken, and takes the identifier marked. *)
Lemma marked_pool (db : Store) (id : string) (m : PoolRow -> option string) :
  let db' := {| qr_identifiers := qr_identifiers db;
                vpa_pool := map (set_used id m) (vpa_pool db) |} in
  (forall id', taken db id' -> taken db' id')
  /\ ((exists r, In r (vpa_pool db) /\ identifier r = id) -> taken db' id)
  /\ (consistent db -> consistent db').
Proof.
  cbn zeta. split; [| split].
  - intros id' [Hc | (r & Hin & Hid & Hu)]; [now left | right].
    exists (set_used id m r). cbn [vpa_pool].
    split; [apply in_map; exact Hin |].
    split; [now rewrite set_used_identifier | now apply set_used_keeps].
  - intros (r & Hin & Hid). right. exists (set_used id m r). cbn [vpa_pool].
    split; [apply in_map; exact Hin |].
    split; [now rewrite set_used_identifier |].
    unfold set_used. rewrite Hid, String.eqb_refl. reflexivity.
  - intros [N A]. split; cbn [vpa_pool qr_identifiers].
    + now rewrite map_set_used_identifiers.
    + intros c Hc. destruct (A c Hc) as (r & Hin & Hid & Hu).
      exists (set_used id m r). split; [apply in_map; exact Hin |].
      split; [now rewrite set_used_identifier | now apply set_used_keeps].
Qed.

Lemma find_unused (pool : list PoolRow) (row : PoolRow) :
  find (fun r => negb (is_used r)) pool = Some row ->
  In row pool /\ is_used row = false.
Proof.
  intros H. apply find_some in H. destruct H as [Hin Hu].
  split; [exact Hin | now apply negb_true_iff in Hu].
Qed.

(** In consistent tables an unused row holds an identifier that is not
    taken. *)
Lemma unused_is_free (db : Store) (row : PoolRow) :
  consistent db -> In row (vpa_pool db) -> is_used row = false ->
  ~ taken db (identifier row).
Proof.
  intros [N A] Hin Hu.
  assert (U : forall r, In r (vpa_pool db) -> identifier r = identifier row -> r = row).
  { clear A Hu. revert N Hin. induction (vpa_pool db) as [| x l IH]; cbn [map In];
      intros N Hin r Hr E; [destruct Hin |].
    inversion_clear N as [| ? ? Hx Nl].
    destruct Hin as [-> | Hin], Hr as [-> | Hr]; auto.
    - exfalso. apply Hx. rewrite <- E. apply in_map. exact Hr.
    - exfalso. apply Hx. rewrite E. apply in_map. exact Hin. }
  intros [Hc | (r & Hr & Hid & Hur)].
  - destruct (A _ Hc) as (r & Hr & Hid & Hur).
    rewrite (U r Hr Hid) in Hur. congruence.
  - rewrite (U r Hr Hid) in Hur. congruence.
Qed.

Lemma checkIdentifierExists_taken (db : Store) (id : string) :
  checkIdentifierExists db id = true <-> taken db id.
Proof.
  unfold checkIdentifierExists, taken. split.
  - destruct (existsb (String.eqb id) (qr_identifiers db)) eqn:E.
    + intros _. left. apply existsb_exists in E. destruct E as (c & Hin & Hc).
      apply String.eqb_eq in Hc. now subst c.
    + intros H. right. apply existsb_exists in H. destruct H as (r & Hin & Hr).
      apply andb_true_iff in Hr. destruct Hr as [Hid Hu]. apply String.eqb_eq in Hid.
      exists r. auto.
  - intros [Hc | (r & Hin & Hid & Hu)].
    + replace (existsb (String.eqb id) (qr_identifiers db)) with true; [reflexivity |].
      symmetry. apply existsb_exists. exists id. split; [exact Hc | apply String.eqb_refl].
    + destruct (existsb (String.eqb id) (qr_identifiers db)); [reflexivity |].
      apply existsb_exists. exists r. split; [exact Hin |].
      now rewrite Hid, String.eqb_refl, Hu.
Qed.

Lemma reserveIdentifier_takes (db : Store) (id : string) :
  (forall id', taken db id' -> taken (reserveIdentifier db id) id')
  /\ taken (reserveIdentifier db id) id
  /\ (consistent db -> consistent (reserveIdentifier db id))
  /\ qr_identifiers (reserveIdentifier db id) = qr_identifiers db.
Proof.
  unfold reserveIdentifier.
  destruct (existsb (fun r => String.eqb (identifier r) id) (vpa_pool db)) eqn:E.
  - destruct (marked_pool db id used_by_merchant_id) as (M & T & C).
    split; [exact M |]. split; [| split; [exact C | reflexivity]].
    apply T. apply existsb_exists in E. destruct E as (r & Hin & Hr).
    apply String.eqb_eq in Hr. exists r. auto.
  - split; [| split; [| split; [| reflexivity]]].
    + intros id' [Hc | (r & Hin & Hid & Hu)]; [now left | right].
      exists r. cbn [vpa_pool]. split; [apply in_or_app; now left | auto].
    + right. eexists. cbn [vpa_pool].
      split; [apply in_or_app; right; left; reflexivity | split; reflexivity].
    + intros [N A]. split; cbn [vpa_pool qr_identifiers].
      * rewrite map_app. cbn [map identifier].
        apply NoDup_app; [exact N | repeat constructor; intros [] |].
        intros x Hx [<- | []]. apply in_map_iff in Hx. destruct Hx as (r & Hid & Hin).
        assert (Hex : existsb (fun r => String.eqb (identifier r) id) (vpa_pool db) = true)
          by (apply existsb_exists; exists r; split; [exact Hin |];
              rewrite Hid; apply String.eqb_refl).
        congruence.
      * intros c Hc. destruct (A c Hc) as (r & Hin & Hid & Hu).
        exists r. split; [apply in_or_app; now left | auto].
Qed.

(** What a successful [getFromPool] or [generateSequentialIdentifier]
    does: it marks an unused row. *)
Lemma marks_unused_row (db : Store) (row : PoolRow) (m : PoolRow -> option string) :
  consistent db -> In row (vpa_pool db) -> is_used row = false ->
  let db' := {| qr_identifiers := qr_identifiers db;
                vpa_pool := map (set_used (identifier row) m) (vpa_pool db) |} in
  ~ taken db (identifier row)
  /\ taken db' (identifier row)
  /\ (forall id', taken db id' -> taken db' id')
  /\ consistent db'
  /\ qr_identifiers db' = qr_identifiers db.
Proof.
  intros C Hin Hu. cbn zeta.
  destruct (marked_pool db (identifier row) m) as (M & T & K).
  split; [exact (unused_is_free db row C Hin Hu) |].
  split; [apply T; now exists row |].
  split; [exact M |]. split; [exact (K C) | reflexivity].
Qed.

Lemma attempts_reserve (ch : Chance) (n attempt k : nat) (db db' : Store) (id : string) :
  attempts ch n attempt k db = (Some id, db') ->
  ~ taken db id
  /\ taken db' id
  /\ (forall id', taken db id' -> taken db' id')
  /\ (consistent db -> consistent db')
  /\ qr_identifiers db' = qr_identifiers db.
Proof.
  revert attempt k. induction n as [| n IH]; intros attempt k; cbn [attempts];
    [discriminate |].
  destruct (acquireLock ch attempt _); [| apply IH].
  destruct (checkIdentifierExists db _) eqn:E; cbn [negb]; [apply IH |].
  intros H. injection H as <- <-.
  destruct (reserveIdentifier_takes db (generateRandomIdentifier (Math_random_index ch) k))
    as (M & T & C & Q).
  split; [| auto].
  intros Ht. apply checkIdentifierExists_taken in Ht. congruence.
Qed.

Lemma attempts_none (ch : Chance) (n attempt k : nat) (db db' : Store) :
  attempts ch n attempt k db = (None, db') -> db' = db.
Proof.
  revert attempt k. induction n as [| n IH]; intros attempt k; cbn [attempts];
    [intros H; now injection H |].
  destruct (acquireLock ch attempt _); [| apply IH].
  destruct (checkIdentifierExists db _); cbn [negb]; [apply IH | discriminate].
Qed.

(** The identifier a call returns was free before and is taken after. *)
Lemma generateUniqueIdentifier_fresh (ch : Chance) (db db' : Store) (id : string) :
  consistent db ->
  generateUniqueIdentifier ch db = (Ok id, db') ->
  ~ taken db id
  /\ taken db' id
  /\ (forall id', taken db id' -> taken db' id')
  /\ consistent db'
  /\ qr_identifiers db' = qr_identifiers db.
Proof.
  intros C. unfold generateUniqueIdentifier.
  destruct (failure ch); [discriminate |].
  unfold getFromPool.
  destruct (find _ (vpa_pool db)) as [row |] eqn:F.
  - destruct (find_unused _ _ F) as [Hin Hu].
    destruct (marks_unused_row db row used_by_merchant_id C Hin Hu)
      as (N1 & T1 & M1 & C1 & Q1).
    destruct (identifier row) as [| c rest] eqn:I; cbn zeta in *; rewrite ?I in *.
    + (* an empty identifier is falsy: the loop, then the fallback *)
      match goal with
      | |- context [attempts ch MAX_RETRIES 0 0 ?d] =>
          set (db1 := d) in *;
          destruct (attempts ch MAX_RETRIES 0 0 db1) as [[id2 |] db2] eqn:A
      end.
      * intros H. injection H as <- <-.
        destruct (attempts_reserve _ _ _ _ _ _ _ A) as (N2 & T2 & M2 & C2 & Q2).
        split; [intros Ht; apply N2; apply M1; exact Ht |].
        split; [exact T2 |]. split; [intros id' Ht; apply M2; apply M1; exact Ht |].
        split; [exact (C2 C1) | now rewrite Q2].
      * apply attempts_none in A. subst db2.
        unfold generateSequentialIdentifier.
        destruct (find _ (vpa_pool db1)) as [row2 |] eqn:F2; [| discriminate].
        intros H. injection H as <- <-.
        destruct (find_unused _ _ F2) as [Hin2 Hu2].
        destruct (marks_unused_row db1 row2 (fun _ => None) C1 Hin2 Hu2)
          as (N2 & T2 & M2 & C2 & Q2).
        unfold markAsUsed.
        split; [intros Ht; apply N2; apply M1; exact Ht |].
        split; [exact T2 |]. split; [intros id' Ht; apply M2; apply M1; exact Ht |].
        split; [exact C2 | reflexivity].
    + intros H. injection H as <- <-.
      split; [exact N1 |]. split; [exact T1 |]. split; [exact M1 |].
      split; [exact C1 | reflexivity].
  - destruct (attempts ch MAX_RETRIES 0 0 db) as [[id2 |] db2] eqn:A.
    + intros H. injection H as <- <-.
      destruct (attempts_reserve _ _ _ _ _ _ _ A) as (N2 & T2 & M2 & C2 & Q2).
      split; [exact N2 |]. split; [exact T2 |]. split; [exact M2 |].
      split; [exact (C2 C) | exact Q2].
    + apply attempts_none in A. subst db2.
      unfold generateSequentialIdentifier. rewrite F. discriminate.
Qed.

(** X28: the identifier [generateUniqueIdentifier] returns is not taken
    before the call, neither by a QR code nor by a used row of the pool,
    and is marked in the pool after it; what was taken stays taken, and
    the tables stay consistent. *)
Theorem generated_identifier_is_fresh (ch : Chance) (db db' : Store) (id : string) :
  consistent db ->
  generateUniqueIdentifier ch db = (Ok id, db') ->
  ~ taken db id
  /\ taken db' id
  /\ (forall id', taken db id' -> taken db' id')
  /\ consistent db'
  /\ qr_identifiers db' = qr_identifiers db.
Proof. apply generateUniqueIdentifier_fresh. Qed.

Lemma small_pool_consistent : consistent Records.small_pool.
Proof.
  split.
  - cbn. repeat constructor; cbn; [intros [E | []]; discriminate E | intros []].
  - intros c [<- | []]. eexists. split; [left; reflexivity | split; reflexivity].
Qed.

Lemma generated_identifier_is_fresh_witness :
  exists db',
    generateUniqueIdentifier Records.lucky Records.small_pool = (Ok "BBBBB", db')
    /\ ~ taken Records.small_pool "BBBBB"
    /\ taken db' "BBBBB".
Proof.
  eexists. split; [reflexivity |].
  destruct (generated_identifier_is_fresh Records.lucky Records.small_pool _ "BBBBB"
              small_pool_consistent eq_refl) as (H1 & H2 & _).
  split; assumption.
Defined.



End Identifiers.

(** ** The controller *)

Module Controller.
Import QRController.

(** X30: [createQR] never creates a QR code.  In its limit test [||]
    binds weaker than [>=], so the test is [(qrCount >= max) || 100],
    which holds whatever the count and the limit are: a request that
    passes validation and whose count is read is answered 400 with
    [Maximum QR limit reached], and no request reaches the code that
    generates an identifier. *)
Theorem createQR_never_creates (Created : Type)
    (create : Call -> string -> string -> result Created) (call : Call) :
  (forall qrCode, createQR create call <> successResponse qrCode)
  /\ (forall merchantId userId qrCount,
        validation_errors call = [] ->
        user call = Some (merchantId, userId) ->
        getActiveQRCount call merchantId = Ok qrCount ->
        createQR create call
        = errorResponse {| error_message := "Maximum QR limit reached";
                           statusCode := 400; error_code := Some "QR_004" |}).
Proof.
  assert (L : forall b, ToBoolean (logical_or b (JS.of_Z 100)) = true)
    by (intros []; reflexivity).
  split.
  - intros qrCode. unfold createQR.
    destruct (validation_errors call); [| discriminate].
    destruct (user call) as [[merchantId userId] |]; [| discriminate].
    destruct (getActiveQRCount call merchantId); [| discriminate].
    rewrite L. discriminate.
  - intros merchantId userId qrCount Hv Hu Hc. unfold createQR.
    rewrite Hv, Hu, Hc, L. reflexivity.
Qed.

End Controller.
